(** * AgentFlow real-time broadcast manager

    A shallow embedding of [backend/app/core/websocket_manager.py]
    (class [WebSocketManager]), of the two WebSocket endpoints of
    [backend/main.py] and of the [delete_workflow] route of
    [backend/app/api/v1/endpoints/workflows.py], followed by the
    properties of the connection
    registry, the channel subscription index, the broadcast engine and
    the targeted send.

    Modelling conventions
    - a Python [dict] that the code scans in order ([active_connections],
      JSON objects) is an insertion-ordered association list ([PyDict]);
      the two subscription indices and the metadata table, which are only
      read by key, are [gmap]s; a Python [set] is a [gset];
    - a coroutine is run to completion without interleaving: every method
      is a state transformer over a [World];
    - a raised exception is an explicit [Raise] result; the world reached
      when the exception leaves the method is kept, because the mutations
      made before the [raise] are not rolled back in Python either;
    - the transport, the clock and the peer address are an environment
      [Env]; the transport decides from the history so far whether a
      write succeeds;
    - payload dictionaries live in a heap of objects and are passed by
      reference, as [message.update] mutates the caller's object. *)

From stdpp Require Import gmap strings list fin_maps.

Set Warnings "-register-all,-clear-no-such-hyp".

Open Scope string_scope.
Open Scope list_scope.

(** ** Python values *)

(** The result of [json.loads], and what [json.dumps] serialises. *)
Inductive json :=
| JNull
| JBool (b : bool)
| JNum (z : Z)
| JStr (s : string)
| JArr (items : list json)
| JObj (fields : list (string * json)).

(** Insertion-ordered dictionary with string keys. *)
Module PyDict.
Section ops.
Context {V : Type}.

(** [d.get(k)] *)
Fixpoint get (k : string) (d : list (string * V)) : option V :=
  match d with
  | [] => None
  | (k', v) :: rest => if decide (k' = k) then Some v else get k rest
  end.

(** [d[k] = v]: an existing key keeps its position. *)
Fixpoint set (k : string) (v : V) (d : list (string * V)) : list (string * V) :=
  match d with
  | [] => [(k, v)]
  | (k', v') :: rest =>
      if decide (k' = k) then (k, v) :: rest else (k', v') :: set k v rest
  end.

(** [if k in d: del d[k]] *)
Fixpoint del (k : string) (d : list (string * V)) : list (string * V) :=
  match d with
  | [] => []
  | (k', v') :: rest =>
      if decide (k' = k) then del k rest else (k', v') :: del k rest
  end.

(** [d.update(other)] *)
Definition update (other d : list (string * V)) : list (string * V) :=
  fold_left (fun acc kv => set kv.1 kv.2 acc) other d.
End ops.
End PyDict.

(** A WebSocket object; [==] on it is object identity. *)
Definition WebSocket := nat.

(** A reference to a payload object owned by the caller. *)
Definition ref := nat.

(** The value of an expression statement's [return]. *)
Inductive pyvalue :=
| PyNone
| PyBool (b : bool).

Inductive exn :=
| KeyError
| AttributeError
| TypeError
| JSONDecodeError
| RuntimeError
| WebSocketDisconnect.

Inductive level := Debug | Info | Warning | Error.

(** What the outside can observe of a run. *)
Inductive event :=
| Accepted (ws : WebSocket)
| Sent (ws : WebSocket) (payload : json)
| SendFailed (ws : WebSocket) (payload : json) (e : exn)
| Logged (lvl : level) (msg : string) (connection_id : option string).

(** ** The manager *)

Record metadata := Metadata {
  connected_at : string;
  user_id : option string;
  ip_address : option string
}.

Record Manager := MkManager {
  active_connections : list (string * WebSocket);
  channel_subscriptions : gmap string (gset string);
  connection_metadata : gmap string metadata;
  connection_channels : gmap string (gset string)
}.

(** [WebSocketManager.__init__] *)
Definition new_manager : Manager :=
  MkManager [] ∅ ∅ ∅.

Record World := MkWorld {
  manager : Manager;
  heap : gmap ref json;
  trace : list event
}.

Definition initial_world (h : gmap ref json) : World :=
  MkWorld new_manager h [].

(** ** Environment *)

Record Env := MkEnv {
  (** [websocket.accept()]: [None] when the handshake goes through. *)
  accept_result : list event -> WebSocket -> option exn;
  (** [websocket.send_text(text)]: [None] when the write goes through. *)
  send_result : list event -> WebSocket -> json -> option exn;
  (** [datetime.utcnow().isoformat()] *)
  utcnow : list event -> string;
  (** [websocket.client.host if websocket.client else None] *)
  client_host : WebSocket -> option string
}.

(** ** Exceptions and state *)

Inductive Result (A : Type) :=
| Ok (a : A)
| Raise (e : exn).
Arguments Ok {A} a.
Arguments Raise {A} e.

Definition M (A : Type) : Type := World -> Result A * World.

Definition ret {A} (a : A) : M A := fun w => (Ok a, w).

Definition raise {A} (e : exn) : M A := fun w => (Raise e, w).

Definition bind {A B} (m : M A) (k : A -> M B) : M B :=
  fun w => match m w with
           | (Ok a, w') => k a w'
           | (Raise e, w') => (Raise e, w')
           end.

(** [try: m  except Exception as e: h e] *)
Definition try_except {A} (m : M A) (h : exn -> M A) : M A :=
  fun w => match m w with
           | (Ok a, w') => (Ok a, w')
           | (Raise e, w') => h e w'
           end.

#[global] Instance M_ret : MRet M := @ret.
#[global] Instance M_bind : MBind M := fun A B k m => bind m k.

Definition get_manager : M Manager := fun w => (Ok (manager w), w).

Definition put_manager (m : Manager) : M unit :=
  fun w => (Ok tt, MkWorld m (heap w) (trace w)).

Definition emit (e : event) : M unit :=
  fun w => (Ok tt, MkWorld (manager w) (heap w) (trace w ++ [e])).

(** [logger.<lvl>(msg, connection_id=...)] *)
Definition log (lvl : level) (msg : string) (cid : option string) : M unit :=
  emit (Logged lvl msg cid).

(** Python truthiness of a [str]. *)
Definition truthy (s : string) : bool := negb (String.eqb s "").

(** The scan
[[
    connection_id = None
    for conn_id, ws in self.active_connections.items():
        if ws == websocket:
            connection_id = conn_id
            break
]] *)
Fixpoint find_connection_id (websocket : WebSocket)
    (conns : list (string * WebSocket)) : option string :=
  match conns with
  | [] => None
  | (conn_id, ws) :: rest =>
      if decide (ws = websocket) then Some conn_id
      else find_connection_id websocket rest
  end.

Section manager.
Variable E : Env.

Definition now : M string := fun w => (Ok (utcnow E (trace w)), w).

(** [await websocket.accept()] *)
Definition accept (ws : WebSocket) : M unit := fun w =>
  match accept_result E (trace w) ws with
  | None => emit (Accepted ws) w
  | Some e => (Raise e, w)
  end.

(** [await websocket.send_text(json.dumps(payload))] *)
Definition send_text (ws : WebSocket) (payload : json) : M unit := fun w =>
  match send_result E (trace w) ws payload with
  | None => emit (Sent ws payload) w
  | Some e => (Raise e, MkWorld (manager w) (heap w)
                          (trace w ++ [SendFailed ws payload e]))
  end.

(** [WebSocketManager._remove_connection] *)
Definition remove_from (connection_id : string) (m : Manager) : Manager :=
  let discarded := (fun subscribers => subscribers ∖ {[connection_id]})
                     <$> channel_subscriptions m in
  MkManager
    (PyDict.del connection_id (active_connections m))
    (filter (fun kv => kv.2 ≠ ∅) discarded)
    (delete connection_id (connection_metadata m))
    (delete connection_id (connection_channels m)).

Definition _remove_connection (connection_id : string) : M unit :=
  m ← get_manager;
  put_manager (remove_from connection_id m);;
  log Info "WebSocket connection removed" (Some connection_id).

(** [WebSocketManager.disconnect_by_id] *)
Definition disconnect_by_id (connection_id : string) : M unit :=
  _remove_connection connection_id.

(** [WebSocketManager.disconnect] *)
Definition disconnect (websocket : WebSocket) : M unit :=
  m ← get_manager;
  match find_connection_id websocket (active_connections m) with
  | Some connection_id =>
      if truthy connection_id then _remove_connection connection_id
      else ret tt
  | None => ret tt
  end.

(** [WebSocketManager.subscribe_connection].  The channel index is
    written before [self.connection_channels[connection_id]] is
    looked up, so a [KeyError] leaves the first write in place. *)
Definition subscribe_connection (connection_id channel : string) : M unit :=
  m ← get_manager;
  let subs1 := match channel_subscriptions m !! channel with
               | None => <[channel := ∅]> (channel_subscriptions m)
               | Some _ => channel_subscriptions m
               end in
  let subs2 := alter (fun s => s ∪ {[connection_id]}) channel subs1 in
  put_manager (MkManager (active_connections m) subs2
                 (connection_metadata m) (connection_channels m));;
  match connection_channels m !! connection_id with
  | None => raise KeyError
  | Some chans =>
      put_manager (MkManager (active_connections m) subs2
                     (connection_metadata m)
                     (<[connection_id := chans ∪ {[channel]}]>
                        (connection_channels m)));;
      log Debug "Connection subscribed to channel" (Some connection_id)
  end.

(** [WebSocketManager.unsubscribe_connection] *)
Definition unsubscribe_connection (connection_id channel : string) : M unit :=
  m ← get_manager;
  let subs' := match channel_subscriptions m !! channel with
               | Some s =>
                   let s' := s ∖ {[connection_id]} in
                   if decide (s' = ∅)
                   then delete channel (channel_subscriptions m)
                   else <[channel := s']> (channel_subscriptions m)
               | None => channel_subscriptions m
               end in
  let chans' := alter (fun s => s ∖ {[channel]}) connection_id
                  (connection_channels m) in
  put_manager (MkManager (active_connections m) subs'
                 (connection_metadata m) chans').

(** [WebSocketManager.connect]; [connection_id] is the value drawn by
    [str(uuid.uuid4())]. *)
Definition connect (websocket : WebSocket) (initial_channel : option string)
    (connection_id : string) : M string :=
  accept websocket;;
  t ← now;
  m ← get_manager;
  put_manager (MkManager
    (PyDict.set connection_id websocket (active_connections m))
    (channel_subscriptions m)
    (<[connection_id := Metadata t None (client_host E websocket)]>
       (connection_metadata m))
    (<[connection_id := ∅]> (connection_channels m)));;
  (match initial_channel with
   | Some c => if truthy c then subscribe_connection connection_id c
               else ret tt
   | None => ret tt
   end);;
  log Info "WebSocket connection established" (Some connection_id);;
  t' ← now;
  send_text websocket
    (JObj [("type", JStr "connection_established");
           ("connection_id", JStr connection_id);
           ("timestamp", JStr t')]);;
  ret connection_id.

Fixpoint subscribe_each (connection_id : string) (channels : list string)
    : M unit :=
  match channels with
  | [] => ret tt
  | channel :: rest =>
      subscribe_connection connection_id channel;;
      subscribe_each connection_id rest
  end.

(** [WebSocketManager.subscribe] *)
Definition subscribe (websocket : WebSocket) (channels : list string)
    : M unit :=
  m ← get_manager;
  match find_connection_id websocket (active_connections m) with
  | Some connection_id =>
      if truthy connection_id then
        subscribe_each connection_id channels;;
        t ← now;
        send_text websocket
          (JObj [("type", JStr "subscription_confirmed");
                 ("channels", JArr (JStr <$> channels));
                 ("timestamp", JStr t)])
      else
        log Warning "Attempted to subscribe unknown WebSocket connection" None
  | None =>
      log Warning "Attempted to subscribe unknown WebSocket connection" None
  end.

(** [message.update(fields)] on the object behind [msg]; anything that
    is not a [dict] has no [update] attribute. *)
Definition message_update (msg : ref) (fields : list (string * json))
    : M json := fun w =>
  match heap w !! msg with
  | Some (JObj d) =>
      let v := JObj (PyDict.update fields d) in
      (Ok v, MkWorld (manager w) (<[msg := v]> (heap w)) (trace w))
  | _ => (Raise AttributeError, w)
  end.

(** The fan-out loop of [broadcast_to_channel]; the result is
    [failed_connections]. *)
Fixpoint fan_out (subscribers : list string) (exclude_id : option string)
    (message_text : json) : M (list string) :=
  match subscribers with
  | [] => ret []
  | connection_id :: rest =>
      if decide (Some connection_id = exclude_id) then
        fan_out rest exclude_id message_text
      else
        m ← get_manager;
        match PyDict.get connection_id (active_connections m) with
        | Some websocket =>
            failed ← try_except
                (send_text websocket message_text;; ret false)
                (fun e =>
                   log Error "Failed to send message to WebSocket"
                     (Some connection_id);;
                   ret true);
            others ← fan_out rest exclude_id message_text;
            ret (if (failed : bool) then connection_id :: others else others)
        | None => fan_out rest exclude_id message_text
        end
  end.

Fixpoint remove_all (failed_connections : list string) : M unit :=
  match failed_connections with
  | [] => ret tt
  | connection_id :: rest =>
      _remove_connection connection_id;; remove_all rest
  end.

(** [WebSocketManager.broadcast_to_channel].  The keyword arguments of
    the closing [logger.debug] are evaluated first, among them
    [len(self.channel_subscriptions[channel])]. *)
Definition broadcast_to_channel (channel : string) (message : ref)
    (exclude : option WebSocket) : M pyvalue :=
  m ← get_manager;
  match channel_subscriptions m !! channel with
  | None => ret PyNone
  | Some subscribers =>
      let exclude_id :=
        match exclude with
        | Some ws => find_connection_id ws (active_connections m)
        | None => None
        end in
      t ← now;
      message_text ← message_update message
                       [("channel", JStr channel); ("timestamp", JStr t)];
      failed_connections ← fan_out (elements subscribers) exclude_id
                             message_text;
      remove_all failed_connections;;
      m' ← get_manager;
      match channel_subscriptions m' !! channel with
      | None => raise KeyError
      | Some _ =>
          log Debug "Message broadcasted to channel" None;;
          ret PyNone
      end
  end.

(** [WebSocketManager.send_to_connection] *)
Definition send_to_connection (connection_id : string) (message : ref)
    : M pyvalue :=
  m ← get_manager;
  match PyDict.get connection_id (active_connections m) with
  | None =>
      log Warning "Attempted to send message to unknown connection"
        (Some connection_id);;
      ret (PyBool false)
  | Some websocket =>
      t ← now;
      payload ← message_update message [("timestamp", JStr t)];
      try_except
        (send_text websocket payload;; ret (PyBool true))
        (fun e =>
           log Error "Failed to send message to connection"
             (Some connection_id);;
           _remove_connection connection_id;;
           ret (PyBool false))
  end.

End manager.

(** [WebSocketManager.get_connection_stats] *)
Record connection_stats := MkStats {
  total_connections : nat;
  total_channels : nat;
  channel_stats : gmap string nat;
  connections_by_channel : gmap string (list string)
}.

Definition get_connection_stats (m : Manager) : connection_stats :=
  MkStats (length (active_connections m))
          (size (channel_subscriptions m))
          (size <$> channel_subscriptions m)
          (elements <$> connection_channels m).

(** ** The endpoints of [main.py] *)

(** One [await websocket.receive_text()] followed by [json.loads]. *)
Inductive frame :=
| Unparseable (data : string)   (* [json.loads] raises [JSONDecodeError] *)
| Parsed (message : json).

Inductive recv :=
| Text (f : frame)
| Closed (e : exn).             (* [receive_text] raises [e] *)

(** Where a handler stands once the inbound frames seen so far are
    consumed: blocked in [receive_text], or returned. *)
Inductive handler_state := Waiting | Finished.

(** The manager is modelled at its annotated types, so [channels] is a
    list of [str]; a list with another kind of item has no image. *)
Fixpoint channel_names (items : list json) : option (list string) :=
  match items with
  | [] => Some []
  | JStr s :: rest => (fun l => s :: l) <$> channel_names rest
  | _ :: _ => None
  end.

Section endpoints.
Variable E : Env.

(** The body of the [while True] loop of [websocket_endpoint], after
    [receive_text].  [None]: the frame would take the manager outside
    its annotated types ([channels] is present and is not a list of
    strings); such frames are not modelled. *)
Definition websocket_endpoint_body (websocket : WebSocket) (f : frame)
    : option (M unit) :=
  match f with
  | Unparseable _ => Some (raise JSONDecodeError)
  | Parsed (JObj message) =>
      match PyDict.get "type" message with
      | Some (JStr ty) =>
          if String.eqb ty "subscribe" then
            match PyDict.get "channels" message with
            | None => Some (subscribe E websocket [])
            | Some (JArr items) =>
                (fun channels => subscribe E websocket channels)
                  <$> channel_names items
            | Some _ => None
            end
          else if String.eqb ty "ping" then
            Some (send_text E websocket
                    (JObj [("type", JStr "pong");
                           ("timestamp",
                            default JNull (PyDict.get "timestamp" message))]))
          else Some (ret tt)
      | _ => Some (ret tt)
      end
  | Parsed _ => Some (raise AttributeError)   (* no [get] attribute *)
  end.

(** [while True: data = await websocket.receive_text(); body] *)
Fixpoint receive_loop (body : frame -> option (M unit)) (inbound : list recv)
    : option (M handler_state) :=
  match inbound with
  | [] => Some (ret Waiting)
  | Closed e :: _ => Some (raise e)
  | Text f :: rest =>
      match body f, receive_loop body rest with
      | Some b, Some k => Some (b;; k)
      | _, _ => None
      end
  end.

(** [websocket_endpoint] ([/ws]) *)
Definition websocket_endpoint (websocket : WebSocket) (connection_id : string)
    (inbound : list recv) : option (M handler_state) :=
  (fun loop =>
     connect E websocket None connection_id;;
     try_except loop
       (fun e =>
          match e with
          | WebSocketDisconnect =>
              disconnect websocket;; ret Finished
          | _ =>
              log Error "WebSocket error" None;;
              disconnect websocket;; ret Finished
          end))
  <$> receive_loop (websocket_endpoint_body websocket) inbound.

(** [message = json.loads(data)] creates a new object. *)
Definition alloc (v : json) : M ref := fun w =>
  let r := fresh (dom (heap w)) in
  (Ok r, MkWorld (manager w) (<[r := v]> (heap w)) (trace w)).

Definition workflow_websocket_body (websocket : WebSocket) (channel : string)
    (f : frame) : M unit :=
  match f with
  | Unparseable _ => raise JSONDecodeError
  | Parsed v =>
      message ← alloc v;
      broadcast_to_channel E channel message (Some websocket);;
      ret tt
  end.

Fixpoint workflow_loop (websocket : WebSocket) (channel : string)
    (inbound : list recv) : M handler_state :=
  match inbound with
  | [] => ret Waiting
  | Closed e :: _ => raise e
  | Text f :: rest =>
      workflow_websocket_body websocket channel f;;
      workflow_loop websocket channel rest
  end.

(** [workflow_websocket] ([/ws/workflow/{workflow_id}]) *)
Definition workflow_websocket (websocket : WebSocket) (workflow_id : string)
    (connection_id : string) (inbound : list recv) : M handler_state :=
  let channel := "workflow:" +:+ workflow_id in
  connect E websocket (Some channel) connection_id;;
  try_except (workflow_loop websocket channel inbound)
    (fun e =>
       match e with
       | WebSocketDisconnect => disconnect websocket;; ret Finished
       | _ => raise e
       end).

End endpoints.

(** ** Runs of the manager *)

(** A call of one public method of the manager. *)
Inductive op :=
| OpConnect (ws : WebSocket) (initial_channel : option string)
    (connection_id : string)
| OpDisconnect (ws : WebSocket)
| OpDisconnectById (connection_id : string)
| OpSubscribeConnection (connection_id channel : string)
| OpUnsubscribeConnection (connection_id channel : string)
| OpSubscribe (ws : WebSocket) (channels : list string)
| OpBroadcast (channel : string) (message : ref) (exclude : option WebSocket)
| OpSend (connection_id : string) (message : ref).

(** The world once the call has returned or raised. *)
Definition step (E : Env) (o : op) (w : World) : World :=
  match o with
  | OpConnect ws c id => (connect E ws c id w).2
  | OpDisconnect ws => (disconnect ws w).2
  | OpDisconnectById id => (disconnect_by_id id w).2
  | OpSubscribeConnection id c => (subscribe_connection id c w).2
  | OpUnsubscribeConnection id c => (unsubscribe_connection id c w).2
  | OpSubscribe ws cs => (subscribe E ws cs w).2
  | OpBroadcast c msg ex => (broadcast_to_channel E c msg ex w).2
  | OpSend id msg => (send_to_connection E id msg w).2
  end.

Definition run (E : Env) (ops : list op) (w : World) : World :=
  fold_left (fun w o => step E o w) ops w.

Definition reachable (E : Env) (w : World) : Prop :=
  exists h ops, w = run E ops (initial_world h).

(** [True] when [connection_id] is a key of [active_connections]. *)
Definition registered (connection_id : string) (m : Manager) : Prop :=
  is_Some (PyDict.get connection_id (active_connections m)).

(** The calls a run is made of when every identity passed to
    [subscribe_connection] is registered and [uuid4] does not repeat an
    identity in use. *)
Definition guarded (o : op) (w : World) : Prop :=
  match o with
  | OpConnect _ _ id => ¬ registered id (manager w)
  | OpSubscribeConnection id _ => registered id (manager w)
  | _ => True
  end.

Fixpoint guarded_run (E : Env) (ops : list op) (w : World) : Prop :=
  match ops with
  | [] => True
  | o :: rest => guarded o w /\ guarded_run E rest (step E o w)
  end.

(** ** The properties under study *)

(** [x] is in the subscriber set of channel [c]. *)
Definition subscribed (m : Manager) (x c : string) : Prop :=
  exists s, channel_subscriptions m !! c = Some s /\ x ∈ s.

(** [c] is in the channel set of connection [x]. *)
Definition joined (m : Manager) (x c : string) : Prop :=
  exists t, connection_channels m !! x = Some t /\ c ∈ t.

(** The two indices mirror each other. *)
Definition mirrored (m : Manager) : Prop :=
  forall x c, subscribed m x c <-> joined m x c.

(** No channel is kept with an empty subscriber set. *)
Definition no_empty_channel (m : Manager) : Prop :=
  forall c s, channel_subscriptions m !! c = Some s -> s ≠ ∅.

(** A connection has a channel set exactly when it is registered. *)
Definition channels_of_registered (m : Manager) : Prop :=
  forall x, registered x m <-> is_Some (connection_channels m !! x).

(** Both indices agree with each other and with the registry. *)
Definition consistent (m : Manager) : Prop :=
  mirrored m /\ channels_of_registered m.

(** [x] has left the registry and every subscriber set. *)
Definition evicted (x : string) (m : Manager) : Prop :=
  PyDict.get x (active_connections m) = None /\
  (forall c s, channel_subscriptions m !! c = Some s -> x ∉ s) /\
  connection_channels m !! x = None /\
  connection_metadata m !! x = None.

(** The events a run from [w] to [w'] has added. *)
Definition new_events (w w' : World) : list event :=
  drop (length (trace w)) (trace w').

Definition is_attempt_on (ws : WebSocket) (e : event) : Prop :=
  match e with
  | Sent ws' _ | SendFailed ws' _ _ => ws' = ws
  | _ => False
  end.

Definition is_attempt (e : event) : Prop :=
  match e with
  | Sent _ _ | SendFailed _ _ _ => True
  | _ => False
  end.

(** The [logger.info] that closes [_remove_connection]. *)
Definition is_removal (e : event) : Prop :=
  match e with
  | Logged Info "WebSocket connection removed" (Some _) => True
  | _ => False
  end.


(** ** Auxiliary definitions used in the statements *)

(** What [subscribe_connection] writes to the channel index. *)
Definition add_subscriber (x c : string) (subs : gmap string (gset string))
    : gmap string (gset string) :=
  alter (fun s => s ∪ {[x]}) c
    (match subs !! c with
     | None => <[c := ∅]> subs
     | Some _ => subs
     end).

(** What [unsubscribe_connection] writes to the channel index. *)
Definition drop_subscriber (x c : string) (subs : gmap string (gset string))
    : gmap string (gset string) :=
  match subs !! c with
  | Some s =>
      if decide (s ∖ {[x]} = ∅) then delete c subs
      else <[c := s ∖ {[x]}]> subs
  | None => subs
  end.

(** The handles written to, in order. *)
Fixpoint targets (t : list event) : list WebSocket :=
  match t with
  | [] => []
  | Sent ws _ :: rest | SendFailed ws _ _ :: rest => ws :: targets rest
  | _ :: rest => targets rest
  end.

(** The subscribers the loop does not skip, with their handles. *)
Fixpoint recipients (conns : list (string * WebSocket)) (ids : list string)
    (exclude_id : option string) : list (string * WebSocket) :=
  match ids with
  | [] => []
  | x :: rest =>
      if decide (Some x = exclude_id) then recipients conns rest exclude_id
      else match PyDict.get x conns with
           | Some ws => (x, ws) :: recipients conns rest exclude_id
           | None => recipients conns rest exclude_id
           end
  end.

Definition removal_log (x : string) : event :=
  Logged Info "WebSocket connection removed" (Some x).

(** The identity [broadcast_to_channel] resolves [exclude] to. *)
Definition exclude_id_of (exclude : option WebSocket) (m : Manager)
    : option string :=
  match exclude with
  | Some ws => find_connection_id ws (active_connections m)
  | None => None
  end.

(** The payload after [message.update] with the two envelope fields. *)
Definition broadcast_payload (channel t : string) (d : list (string * json))
    : json :=
  JObj (PyDict.update [("channel", JStr channel); ("timestamp", JStr t)] d).

(** The payload after [message.update] with the timestamp alone. *)
Definition send_payload (t : string) (d : list (string * json)) : json :=
  JObj (PyDict.update [("timestamp", JStr t)] d).

Definition evict_all (failed : list string) (m : Manager) : Manager :=
  fold_left (fun m x => remove_from x m) failed m.

(** The manager once [subscribe_connection] has returned or raised. *)
Definition subscribe_effect (x c : string) (m : Manager) : Manager :=
  MkManager (active_connections m)
    (add_subscriber x c (channel_subscriptions m))
    (connection_metadata m)
    (match connection_channels m !! x with
     | Some chans => <[x := chans ∪ {[c]}]> (connection_channels m)
     | None => connection_channels m
     end).

(** The manager once [unsubscribe_connection] has returned. *)
Definition unsubscribe_effect (x c : string) (m : Manager) : Manager :=
  MkManager (active_connections m)
    (drop_subscriber x c (channel_subscriptions m))
    (connection_metadata m)
    (alter (fun s => s ∖ {[c]}) x (connection_channels m)).

(** The three tables [connect] writes before anything else. *)
Definition register_connection (ws : WebSocket) (x : string) (md : metadata)
    (m : Manager) : Manager :=
  MkManager (PyDict.set x ws (active_connections m))
    (channel_subscriptions m)
    (<[x := md]> (connection_metadata m))
    (<[x := ∅]> (connection_channels m)).

(** The identities named by the error log of the fan-out loop. *)
Fixpoint failed_identities (t : list event) : list string :=
  match t with
  | [] => []
  | Logged Error "Failed to send message to WebSocket" (Some x) :: rest =>
      x :: failed_identities rest
  | _ :: rest => failed_identities rest
  end.

(** A frame that is not JSON, or is JSON but not an object. *)
Definition malformed (f : frame) : Prop :=
  match f with
  | Unparseable _ => True
  | Parsed (JObj _) => False
  | Parsed _ => True
  end.

(** ** A sample environment and sample worlds *)

(** Every handshake goes through; the peer behind handle [2] goes away
    once twelve events have happened, every other write goes through. *)
Definition sample_env : Env :=
  MkEnv (fun _ _ => None)
        (fun tr ws _ =>
           if (12 <=? length tr)%nat && (ws =? 2)%nat
           then Some WebSocketDisconnect else None)
        (fun tr => "2024-05-01T10:00:00")
        (fun _ => Some "127.0.0.1").

Definition sample_heap : gmap ref json :=
  {[ 0%nat := JObj [("type", JStr "x"); ("channel", JStr "old")] ]}.

(** Connections [A], [B] and [C] on handles [1], [2] and [3], all
    subscribed to ["workflow:1"]. *)
Definition sample_world : World :=
  run sample_env
    [OpConnect 1 (Some "workflow:1") "A";
     OpConnect 2 (Some "workflow:1") "B";
     OpConnect 3 (Some "workflow:1") "C"]
    (initial_world sample_heap).

(** The only subscriber of ["workflow:2"] is [B]. *)
Definition sample_world_solo : World :=
  run sample_env
    [OpConnect 1 (Some "workflow:1") "A";
     OpConnect 2 (Some "workflow:2") "B";
     OpConnect 3 (Some "workflow:1") "C"]
    (initial_world sample_heap).

(** An identity that was never connected, subscribed next to [A]. *)
Definition sample_world_ghost : World :=
  run sample_env
    [OpConnect 1 (Some "news") "A";
     OpSubscribeConnection "ghost" "news"]
    (initial_world sample_heap).

(** A client that subscribes to ["news"] on [/ws]. *)
Definition sample_subscribe : recv :=
  Text (Parsed (JObj [("type", JStr "subscribe");
                      ("channels", JArr [JStr "news"])])).

(** ** The status publisher *)

Section status.
Variable E : Env.

(** The dictionary built at the top of each turn of
    [broadcast_system_status]. *)
Definition status_message (m : Manager) (t : string) : json :=
  JObj [("type", JStr "system_status");
        ("data",
         JObj [("active_connections",
                JNum (Z.of_nat (length (active_connections m))));
               ("active_channels",
                JNum (Z.of_nat (size (channel_subscriptions m))));
               ("server_time", JStr t)])].

(** One turn of the [while True] loop of
    [WebSocketManager.broadcast_system_status]; the value is the argument
    of the [asyncio.sleep] the turn ends with. *)
Definition status_cycle : M nat :=
  try_except
    (m ← get_manager;
     t ← now E;
     message ← alloc (status_message m t);
     broadcast_to_channel E "system" message None;;
     ret 30%nat)
    (fun e =>
       log Error "Error in system status broadcast" None;;
       ret 60%nat).

(** The first [turns] turns of the loop, with the sleeps they took. *)
Fixpoint broadcast_system_status (turns : nat) : M (list nat) :=
  match turns with
  | O => ret []
  | S n =>
      d ← status_cycle;
      ds ← broadcast_system_status n;
      ret (d :: ds)
  end.

End status.

(** ** The workflow router *)

(** What a route handler hands back to the framework. *)
Inductive http_outcome :=
| Returned
| HTTPException (status_code : nat).

Section workflows.
Variable E : Env.

(** [delete_workflow] of [api/v1/endpoints/workflows.py], run on the
    manager of that module.  [service] is what
    [workflow_service.delete_workflow(workflow_id)] gave: its result or
    the exception it raised (one that is not an [HTTPException], which
    the handler would raise again as it is). *)
Definition delete_workflow (service : Result bool) (workflow_id : string)
    : M http_outcome :=
  match service with
  | Raise e =>
      log Error "Failed to delete workflow" None;;
      ret (HTTPException 500)
  | Ok false => ret (HTTPException 404)
  | Ok true =>
      try_except
        (message ← alloc
           (JObj [("type", JStr "workflow_deleted");
                  ("data", JObj [("workflow_id", JStr workflow_id)])]);
         broadcast_to_channel E "workflows" message None;;
         log Info "Workflow deleted" None;;
         ret Returned)
        (fun e =>
           log Error "Failed to delete workflow" None;;
           ret (HTTPException 500))
  end.

End workflows.

(** The registry, the metadata table and the table of channel sets have
    the same keys. *)
Definition tables_aligned (m : Manager) : Prop :=
  forall x,
    (registered x m <-> is_Some (connection_metadata m !! x)) /\
    (registered x m <-> is_Some (connection_channels m !! x)).

(** No identity is twice in the registry. *)
Definition registry_keys_unique (m : Manager) : Prop :=
  NoDup (active_connections m).*1.

(** The transport never fails a write. *)
Definition reliable (E : Env) : Prop :=
  forall tr ws payload, send_result E tr ws payload = None.

(** The payload every write of [t] carries is [payload]. *)
Definition carries (payload : json) (t : list event) : Prop :=
  forall e, e ∈ t ->
    match e with
    | Sent _ q | SendFailed _ q _ => q = payload
    | _ => True
    end.

(** A run made of [broadcast_to_channel] calls only. *)
Definition broadcasts_only (ops : list op) : Prop :=
  Forall (fun o => match o with OpBroadcast _ _ _ => True | _ => False end) ops.

(** A transport on which every write goes through. *)
Definition steady_env : Env :=
  MkEnv (fun _ _ => None) (fun _ _ _ => None)
        (fun tr => "2024-05-01T10:00:00") (fun _ => Some "127.0.0.1").

(** A handshake that is refused. *)
Definition refusing_env : Env :=
  MkEnv (fun _ _ => Some RuntimeError) (fun _ _ _ => None)
        (fun tr => "2024-05-01T10:00:00") (fun _ => None).

(** A transport on which no write goes through. *)
Definition dead_env : Env :=
  MkEnv (fun _ _ => None) (fun _ _ _ => Some WebSocketDisconnect)
        (fun tr => "2024-05-01T10:00:00") (fun _ => None).

(** No metadata record carries a principal. *)
Definition anonymous (m : Manager) : Prop :=
  forall x md, connection_metadata m !! x = Some md -> user_id md = None.

(** The envelope [connect] sends once the connection is registered. *)
Definition welcome_message (x t : string) : json :=
  JObj [("type", JStr "connection_established");
        ("connection_id", JStr x);
        ("timestamp", JStr t)].

(** The envelope [subscribe] sends once the channels are joined. *)
Definition confirmation_message (channels : list string) (t : string) : json :=
  JObj [("type", JStr "subscription_confirmed");
        ("channels", JArr (JStr <$> channels));
        ("timestamp", JStr t)].

(** The channel set [connect] leaves a new connection with. *)
Definition initial_channels (initial_channel : option string) : gset string :=
  match initial_channel with
  | Some c => if truthy c then {[c]} else ∅
  | None => ∅
  end.

(** The manager once [subscribe] has gone through its channels. *)
Definition subscribe_all (x : string) (cs : list string) (m : Manager)
    : Manager :=
  fold_left (fun m c => subscribe_effect x c m) cs m.

(** A run in which nobody disconnects. *)
Definition never_disconnects (ops : list op) : Prop :=
  Forall (fun o => match o with
                   | OpDisconnect _ | OpDisconnectById _ => False
                   | _ => True
                   end) ops.

(** Socket [ws] is registered under [x], is resolved to [x] by the scan
    of the registry, and [x] is a subscriber of [c]. *)
Definition attached (ws : WebSocket) (x c : string) (m : Manager) : Prop :=
  PyDict.get x (active_connections m) = Some ws /\
  find_connection_id ws (active_connections m) = Some x /\
  subscribed m x c.

(** * Proofs *)

(** ** Dictionaries *)

Module PyDictFacts.
Section facts.
Context {V : Type}.
Implicit Types (d : list (string * V)) (k : string) (v : V).

Lemma get_set_eq d k v : PyDict.get k (PyDict.set k v d) = Some v.
Proof.
  induction d as [|[k' v'] d IH]; simpl.
  - by rewrite decide_True.
  - destruct (decide (k' = k)) as [->|Hne]; simpl.
    + by rewrite decide_True.
    + by rewrite decide_False.
Qed.

Lemma get_set_ne d k k' v :
  k ≠ k' -> PyDict.get k' (PyDict.set k v d) = PyDict.get k' d.
Proof.
  intros Hne. induction d as [|[k0 v0] d IH]; simpl.
  - by rewrite decide_False.
  - destruct (decide (k0 = k)) as [->|Hk0]; simpl.
    + by rewrite !decide_False.
    + destruct (decide (k0 = k')); [done | apply IH].
Qed.

Lemma get_del_eq d k : PyDict.get k (PyDict.del k d) = None.
Proof.
  induction d as [|[k' v'] d IH]; simpl; [done|].
  destruct (decide (k' = k)); simpl; [done|].
  by rewrite decide_False.
Qed.

Lemma get_del_ne d k k' :
  k ≠ k' -> PyDict.get k' (PyDict.del k d) = PyDict.get k' d.
Proof.
  intros Hne. induction d as [|[k0 v0] d IH]; simpl; [done|].
  destruct (decide (k0 = k)) as [->|Hk0]; simpl.
  - by rewrite decide_False.
  - by rewrite IH.
Qed.

Lemma get_del_None d k k' :
  PyDict.get k' d = None -> PyDict.get k' (PyDict.del k d) = None.
Proof.
  intros H. destruct (decide (k = k')) as [->|Hne].
  - apply get_del_eq.
  - by rewrite get_del_ne.
Qed.
End facts.
End PyDictFacts.

(** ** The monad *)

Ltac unfold_m :=
  unfold mbind, M_bind, bind, try_except, ret, raise, get_manager,
    put_manager, log, emit, now in *;
  simpl in *.

Lemma new_events_app w t h m :
  new_events w (MkWorld m h (trace w ++ t)) = t.
Proof. unfold new_events. simpl. by rewrite drop_app_length. Qed.

Lemma new_events_refl w : new_events w w = [].
Proof. unfold new_events. by rewrite drop_all. Qed.

(** ** Eviction *)

Section eviction.
Implicit Types (m : Manager) (x y c : string).

Lemma remove_from_subscribers x m c s' :
  channel_subscriptions (remove_from x m) !! c = Some s' <->
  exists s, channel_subscriptions m !! c = Some s /\
            s' = s ∖ {[x]} /\ s' ≠ ∅.
Proof.
  unfold remove_from; simpl.
  rewrite map_lookup_filter_Some, lookup_fmap, fmap_Some; simpl.
  split.
  - intros [(s & Hs & ->) Hne]. eauto.
  - intros (s & Hs & -> & Hne). eauto.
Qed.

Lemma remove_from_no_empty_channel x m : no_empty_channel (remove_from x m).
Proof.
  intros c s' Hs'. apply remove_from_subscribers in Hs'.
  by destruct Hs' as (s & _ & _ & Hne).
Qed.

Lemma remove_from_evicted x m : evicted x (remove_from x m).
Proof.
  repeat split.
  - apply PyDictFacts.get_del_eq.
  - intros c s' (s & _ & -> & _)%remove_from_subscribers. set_solver.
  - apply lookup_delete_eq.
  - apply lookup_delete_eq.
Qed.

Lemma remove_from_keeps_evicted x y m :
  evicted y m -> evicted y (remove_from x m).
Proof.
  intros (Ha & Hs & Hc & Hm). repeat split.
  - by apply PyDictFacts.get_del_None.
  - intros c s' (s & Hcs & -> & _)%remove_from_subscribers.
    specialize (Hs c s Hcs). set_solver.
  - simpl. rewrite lookup_delete_None. by right.
  - simpl. rewrite lookup_delete_None. by right.
Qed.

(** A subscriber other than the evicted one stays where it is. *)
Lemma remove_from_keeps_subscriber x y m c s :
  x ≠ y -> channel_subscriptions m !! c = Some s -> y ∈ s ->
  exists s', channel_subscriptions (remove_from x m) !! c = Some s' /\ y ∈ s'.
Proof.
  intros Hne Hc Hy. exists (s ∖ {[x]}). split; [|set_solver].
  apply remove_from_subscribers. exists s. repeat split; [done|set_solver].
Qed.

Lemma remove_from_sole_subscriber x m c :
  channel_subscriptions m !! c = Some {[x]} ->
  channel_subscriptions (remove_from x m) !! c = None.
Proof.
  intros Hc. destruct (channel_subscriptions (remove_from x m) !! c)
    as [s'|] eqn:Hs'; [|done].
  apply remove_from_subscribers in Hs' as (s & Hs & -> & Hne).
  rewrite Hc in Hs. injection Hs as <-. set_solver.
Qed.

Lemma remove_from_subscribed x m y c :
  subscribed (remove_from x m) y c <-> subscribed m y c /\ y ≠ x.
Proof.
  split.
  - intros (s' & (s & Hs & -> & _)%remove_from_subscribers & Hy).
    apply elem_of_difference in Hy as [Hy Hyx].
    split; [by exists s | set_solver].
  - intros [(s & Hs & Hy) Hne].
    eapply remove_from_keeps_subscriber; eauto.
Qed.

Lemma remove_from_joined x m y c :
  joined (remove_from x m) y c <-> joined m y c /\ y ≠ x.
Proof.
  unfold joined; simpl. split.
  - intros (t & Ht & Hct). apply lookup_delete_Some in Ht as [Hxy Ht].
    split; [by exists t | done].
  - intros [(t & Ht & Hct) Hne]. exists t. split; [|done].
    by rewrite lookup_delete_ne.
Qed.

Lemma remove_from_mirrored x m :
  mirrored m -> mirrored (remove_from x m).
Proof.
  intros Hm y c. rewrite remove_from_subscribed, remove_from_joined.
  by rewrite (Hm y c).
Qed.

Lemma remove_from_channels_of_registered x m :
  channels_of_registered m -> channels_of_registered (remove_from x m).
Proof.
  intros Hm y. unfold registered. simpl.
  destruct (decide (x = y)) as [->|Hne].
  - rewrite PyDictFacts.get_del_eq, lookup_delete_eq.
    split; intros [? ?]; done.
  - rewrite PyDictFacts.get_del_ne, lookup_delete_ne by done. apply Hm.
Qed.
End eviction.

(** ** Subscribing and unsubscribing *)

Section subscriptions.
Implicit Types (m : Manager) (x y c : string)
  (subs : gmap string (gset string)).

Lemma lookup_add_subscriber_eq x c subs :
  add_subscriber x c subs !! c = Some (default ∅ (subs !! c) ∪ {[x]}).
Proof.
  unfold add_subscriber. rewrite lookup_alter_eq.
  destruct (subs !! c) as [s|] eqn:Hs; simpl.
  - by rewrite Hs.
  - by rewrite lookup_insert_eq.
Qed.

Lemma lookup_add_subscriber_ne x c c' subs :
  c ≠ c' -> add_subscriber x c subs !! c' = subs !! c'.
Proof.
  intros Hne. unfold add_subscriber. rewrite lookup_alter_ne by done.
  destruct (subs !! c); [done|]. by rewrite lookup_insert_ne.
Qed.

Lemma lookup_drop_subscriber_eq x c subs :
  drop_subscriber x c subs !! c =
    s ← subs !! c; if decide (s ∖ {[x]} = ∅) then None else Some (s ∖ {[x]}).
Proof.
  unfold drop_subscriber. destruct (subs !! c) as [s|] eqn:Hs; simpl; [|done].
  destruct (decide (s ∖ {[x]} = ∅)).
  - apply lookup_delete_eq.
  - apply lookup_insert_eq.
Qed.

Lemma lookup_drop_subscriber_ne x c c' subs :
  c ≠ c' -> drop_subscriber x c subs !! c' = subs !! c'.
Proof.
  intros Hne. unfold drop_subscriber.
  destruct (subs !! c) as [s|]; [|done].
  destruct (decide (s ∖ {[x]} = ∅)).
  - by rewrite lookup_delete_ne.
  - by rewrite lookup_insert_ne.
Qed.

Lemma subscribe_connection_run x c w :
  subscribe_connection x c w =
    let m := manager w in
    let subs := add_subscriber x c (channel_subscriptions m) in
    match connection_channels m !! x with
    | None =>
        (Raise KeyError,
         MkWorld (MkManager (active_connections m) subs
                    (connection_metadata m) (connection_channels m))
           (heap w) (trace w))
    | Some chans =>
        (Ok tt,
         MkWorld (MkManager (active_connections m) subs
                    (connection_metadata m)
                    (<[x := chans ∪ {[c]}]> (connection_channels m)))
           (heap w)
           (trace w ++ [Logged Debug "Connection subscribed to channel"
                          (Some x)]))
    end.
Proof.
  unfold subscribe_connection, add_subscriber. unfold_m.
  by destruct (connection_channels (manager w) !! x).
Qed.

Lemma unsubscribe_connection_run x c w :
  unsubscribe_connection x c w =
    let m := manager w in
    (Ok tt,
     MkWorld (MkManager (active_connections m)
                (drop_subscriber x c (channel_subscriptions m))
                (connection_metadata m)
                (alter (fun s => s ∖ {[c]}) x (connection_channels m)))
       (heap w) (trace w)).
Proof. reflexivity. Qed.

Lemma _remove_connection_run x w :
  _remove_connection x w =
    (Ok tt,
     MkWorld (remove_from x (manager w)) (heap w)
       (trace w ++ [Logged Info "WebSocket connection removed" (Some x)])).
Proof. reflexivity. Qed.

(** Membership after the writes. *)
Lemma add_subscriber_elem x c subs y c' :
  (exists s, add_subscriber x c subs !! c' = Some s /\ y ∈ s) <->
  (exists s, subs !! c' = Some s /\ y ∈ s) \/ (y = x /\ c' = c).
Proof.
  destruct (decide (c = c')) as [<-|Hne].
  - rewrite lookup_add_subscriber_eq. split.
    + intros (s & [= <-] & Hy). apply elem_of_union in Hy as [Hy|Hy].
      * left. destruct (subs !! c) as [s|]; simpl in Hy; [eauto|set_solver].
      * right. set_solver.
    + intros [(s & Hs & Hy)|[-> _]]; eexists; (split; [done|]).
      * rewrite Hs. set_solver.
      * set_solver.
  - rewrite lookup_add_subscriber_ne by done. naive_solver.
Qed.

Lemma drop_subscriber_elem x c subs y c' :
  (exists s, drop_subscriber x c subs !! c' = Some s /\ y ∈ s) <->
  (exists s, subs !! c' = Some s /\ y ∈ s) /\ ¬ (y = x /\ c' = c).
Proof.
  destruct (decide (c = c')) as [<-|Hne].
  - rewrite lookup_drop_subscriber_eq.
    destruct (subs !! c) as [s|] eqn:Hs; simpl; [|naive_solver].
    destruct (decide (s ∖ {[x]} = ∅)) as [Hemp|Hemp].
    + split; [naive_solver|]. intros [(s0 & [= <-] & Hy) Hn].
      exfalso. destruct (decide (y = x)) as [->|]; [naive_solver|set_solver].
    + split.
      * intros (s0 & [= <-] & Hy). split; [exists s; set_solver|set_solver].
      * intros [(s0 & [= <-] & Hy) Hn]. eexists; split; [done|].
        destruct (decide (y = x)) as [->|]; [naive_solver|set_solver].
  - rewrite lookup_drop_subscriber_ne by done. naive_solver.
Qed.

Lemma add_subscriber_no_empty x c subs :
  (forall c' s, subs !! c' = Some s -> s ≠ ∅) ->
  forall c' s, add_subscriber x c subs !! c' = Some s -> s ≠ ∅.
Proof.
  intros H c' s. destruct (decide (c = c')) as [<-|Hne].
  - rewrite lookup_add_subscriber_eq. intros [= <-]. set_solver.
  - rewrite lookup_add_subscriber_ne by done. apply H.
Qed.

Lemma drop_subscriber_no_empty x c subs :
  (forall c' s, subs !! c' = Some s -> s ≠ ∅) ->
  forall c' s, drop_subscriber x c subs !! c' = Some s -> s ≠ ∅.
Proof.
  intros H c' s. destruct (decide (c = c')) as [<-|Hne].
  - rewrite lookup_drop_subscriber_eq.
    destruct (subs !! c) as [s0|]; simpl; [|done].
    destruct (decide (s0 ∖ {[x]} = ∅)); [done|]. by intros [= <-].
  - rewrite lookup_drop_subscriber_ne by done. apply H.
Qed.
End subscriptions.

(** ** The fan-out loop *)

Section fan_out_facts.
Variable E : Env.
Implicit Types (w : World) (t : list event) (ids failed : list string).

Lemma targets_app t1 t2 : targets (t1 ++ t2) = targets t1 ++ targets t2.
Proof.
  induction t1 as [|[] t1 IH]; simpl; [done| |by rewrite IH..]. apply IH.
Qed.

Lemma elem_of_targets ws t :
  ws ∈ targets t <-> exists e, e ∈ t /\ is_attempt_on ws e.
Proof.
  induction t as [|e t IH]; simpl.
  - split; [by intros ?%elem_of_nil|]. by intros (e & ?%elem_of_nil & _).
  - destruct e as [ws'|ws' p|ws' p e|lvl msg cid]; simpl;
      rewrite ?elem_of_cons, IH; split.
    all: try (intros (e0 & [->|He]%elem_of_cons & Ha); simpl in *; eauto; done).
    all: try (intros (e0 & He & Ha); exists e0; split; [by right|done]).
    all: try (intros [->|(e0 & He & Ha)];
              [eexists; split; [by left|done]
              |exists e0; split; [by right|done]]).
Qed.

Lemma elem_of_recipients conns ids ex x ws :
  (x, ws) ∈ recipients conns ids ex <->
  x ∈ ids /\ Some x ≠ ex /\ PyDict.get x conns = Some ws.
Proof.
  induction ids as [|y ids IH]; simpl.
  - split; [by intros ?%elem_of_nil|]. by intros [?%elem_of_nil _].
  - destruct (decide (Some y = ex)) as [Hex|Hex].
    + rewrite IH, elem_of_cons. naive_solver.
    + destruct (PyDict.get y conns) as [ws'|] eqn:Hy;
        rewrite ?elem_of_cons, IH, ?elem_of_cons; naive_solver.
Qed.

(** The loop never raises, leaves the manager and the heap alone,
    writes once to each recipient in turn and logs no removal; the
    identities it returns are those of the writes that failed. *)
Lemma fan_out_spec ids ex p : forall w,
  exists failed t,
    fan_out E ids ex p w =
      (Ok failed, MkWorld (manager w) (heap w) (trace w ++ t)) /\
    targets t = (recipients (active_connections (manager w)) ids ex).*2 /\
    Forall (fun e => ¬ is_removal e) t /\
    (forall x, x ∈ failed ->
       exists ws e, (x, ws) ∈ recipients (active_connections (manager w))
                               ids ex /\
                    SendFailed ws p e ∈ t) /\
    (forall ws q e, SendFailed ws q e ∈ t ->
       exists x, x ∈ failed /\
                 (x, ws) ∈ recipients (active_connections (manager w))
                            ids ex) /\
    (forall lvl msg cid, Logged lvl msg cid ∈ t ->
       exists x, cid = Some x /\ x ∈ failed).
Proof.
  induction ids as [|x ids IH]; intros w.
  - exists [], []. simpl. rewrite app_nil_r. destruct w.
    split_and!; try done; intros; exfalso; by eapply not_elem_of_nil.
  - simpl. destruct (decide (Some x = ex)) as [Hex|Hex]; [apply IH|].
    unfold_m.
    destruct (PyDict.get x (active_connections (manager w))) as [ws|] eqn:Hx;
      [|apply IH].
    unfold send_text. unfold_m.
    destruct (send_result E (trace w) ws p) as [e|] eqn:Hsend; simpl.
    + match goal with |- context [fan_out E ids ex p ?w1] =>
        destruct (IH w1) as (failed & t & Hrun & Htg & Hrm & Hf & Hs & Hl)
      end.
      rewrite Hrun. simpl in *.
      exists (x :: failed),
        ([SendFailed ws p e;
          Logged Error "Failed to send message to WebSocket" (Some x)] ++ t).
      rewrite <- !app_assoc. simpl. repeat split.
      * by rewrite Htg.
      * repeat constructor; [by intros []..|done].
      * intros y [->|Hy]%elem_of_cons.
        -- exists ws, e. split; [by left|by left].
        -- destruct (Hf y Hy) as (ws' & e' & Hin & Hev).
           exists ws', e'. split; [by right|by do 2 right].
      * intros ws' q e' [Heq|[[=]|Hin]%elem_of_cons]%elem_of_cons.
        -- simplify_eq. exists x. split; by left.
        -- destruct (Hs _ _ _ Hin) as (y & Hy & Hr).
           exists y. split; by right.
      * intros lvl msg cid [[=]|[Heq|Hin]%elem_of_cons]%elem_of_cons.
        -- simplify_eq. exists x. split; [done|by left].
        -- destruct (Hl _ _ _ Hin) as (y & -> & Hy).
           exists y. split; [done|by right].
    + match goal with |- context [fan_out E ids ex p ?w1] =>
        destruct (IH w1) as (failed & t & Hrun & Htg & Hrm & Hf & Hs & Hl)
      end.
      rewrite Hrun. simpl in *.
      exists failed, ([Sent ws p] ++ t).
      rewrite <- !app_assoc. simpl. repeat split.
      * by rewrite Htg.
      * constructor; [by intros []|done].
      * intros y Hy. destruct (Hf y Hy) as (ws' & e' & Hin & Hev).
        exists ws', e'. split; [by right|by right].
      * intros ws' q e' [[=]|Hin]%elem_of_cons.
        destruct (Hs _ _ _ Hin) as (y & Hy & Hr).
        exists y. split; [done|by right].
      * intros lvl msg cid [[=]|Hin]%elem_of_cons. eauto.
Qed.

Lemma remove_all_run failed : forall w,
  remove_all failed w =
    (Ok tt,
     MkWorld (fold_left (fun m x => remove_from x m) failed (manager w))
       (heap w) (trace w ++ (removal_log <$> failed))).
Proof.
  induction failed as [|x failed IH]; intros w; simpl.
  - rewrite app_nil_r. by destruct w.
  - unfold_m. rewrite IH. simpl. by rewrite <- app_assoc.
Qed.

Lemma targets_removal_logs failed : targets (removal_log <$> failed) = [].
Proof. by induction failed. Qed.
End fan_out_facts.

(** ** Broadcast *)

Section broadcast_facts.
Variable E : Env.
Implicit Types (w : World) (m : Manager) (failed : list string).

Lemma broadcast_absent ch msg ex w :
  channel_subscriptions (manager w) !! ch = None ->
  broadcast_to_channel E ch msg ex w = (Ok PyNone, w).
Proof.
  intros H. unfold broadcast_to_channel. unfold_m. by rewrite H.
Qed.

Lemma broadcast_not_dict ch msg ex w s :
  channel_subscriptions (manager w) !! ch = Some s ->
  (forall d, heap w !! msg ≠ Some (JObj d)) ->
  broadcast_to_channel E ch msg ex w = (Raise AttributeError, w).
Proof.
  intros H Hd. unfold broadcast_to_channel, message_update. unfold_m.
  rewrite H.
  destruct (heap w !! msg) as [[]|] eqn:Hm; try done. by destruct (Hd fields).
Qed.

Lemma broadcast_spec ch msg ex w s d :
  channel_subscriptions (manager w) !! ch = Some s ->
  heap w !! msg = Some (JObj d) ->
  let m := manager w in
  let conns := active_connections m in
  let ex_id := exclude_id_of ex m in
  let p := broadcast_payload ch (utcnow E (trace w)) d in
  exists failed t tail res,
    broadcast_to_channel E ch msg ex w =
      (res, MkWorld (evict_all failed m) (<[msg := p]> (heap w))
              (trace w ++ t ++ (removal_log <$> failed) ++ tail)) /\
    ((res = Ok PyNone /\
      tail = [Logged Debug "Message broadcasted to channel" None]) \/
     (res = Raise KeyError /\ tail = [])) /\
    targets t = (recipients conns (elements s) ex_id).*2 /\
    Forall (fun e => ¬ is_removal e) t /\
    (forall x, x ∈ failed ->
       exists ws e, (x, ws) ∈ recipients conns (elements s) ex_id /\
                    SendFailed ws p e ∈ t) /\
    (forall ws q e, SendFailed ws q e ∈ t ->
       exists x, x ∈ failed /\
                 (x, ws) ∈ recipients conns (elements s) ex_id) /\
    (forall lvl txt cid, Logged lvl txt cid ∈ t ->
       exists x, cid = Some x /\ x ∈ failed).
Proof.
  intros Hs Hd m conns ex_id p. subst m conns ex_id p.
  unfold broadcast_to_channel, message_update, broadcast_payload,
    exclude_id_of, evict_all.
  unfold_m. rewrite Hs, Hd.
  match goal with |- context [fan_out E ?ids ?ex' ?p' ?w1] =>
    destruct (fan_out_spec E ids ex' p' w1)
      as (failed & t & Hrun & Htg & Hrm & Hf & Hsf & Hl)
  end.
  rewrite Hrun. simpl in *. rewrite remove_all_run. simpl.
  exists failed, t.
  match goal with |- context [channel_subscriptions ?m' !! ch] =>
    destruct (channel_subscriptions m' !! ch) eqn:Hch end; simpl.
  - exists [Logged Debug "Message broadcasted to channel" None], (Ok PyNone).
    rewrite <- !app_assoc. split_and!; auto.
  - exists [], (Raise KeyError).
    rewrite <- !app_assoc, app_nil_r. split_and!; auto.
Qed.

Lemma evict_all_keeps_evicted failed : forall m x,
  evicted x m -> evicted x (evict_all failed m).
Proof.
  induction failed as [|y failed IH]; intros m x Hx; [done|].
  simpl. apply IH. by apply remove_from_keeps_evicted.
Qed.

Lemma evict_all_evicted failed : forall m x,
  x ∈ failed -> evicted x (evict_all failed m).
Proof.
  induction failed as [|y failed IH]; intros m x Hx.
  - by apply elem_of_nil in Hx.
  - apply elem_of_cons in Hx as [->|Hx]; simpl.
    + apply evict_all_keeps_evicted, remove_from_evicted.
    + by apply IH.
Qed.

Lemma evict_all_subscribed failed : forall m x c,
  subscribed (evict_all failed m) x c <-> subscribed m x c /\ x ∉ failed.
Proof.
  induction failed as [|y failed IH]; intros m x c; simpl.
  - split; [intros H; split; [done|apply not_elem_of_nil]|by intros [H _]].
  - rewrite IH, remove_from_subscribed, not_elem_of_cons. naive_solver.
Qed.

Lemma evict_all_joined failed : forall m x c,
  joined (evict_all failed m) x c <-> joined m x c /\ x ∉ failed.
Proof.
  induction failed as [|y failed IH]; intros m x c; simpl.
  - split; [intros H; split; [done|apply not_elem_of_nil]|by intros [H _]].
  - rewrite IH, remove_from_joined, not_elem_of_cons. naive_solver.
Qed.

Lemma evict_all_no_empty_channel failed : forall m,
  no_empty_channel m -> no_empty_channel (evict_all failed m).
Proof.
  induction failed as [|y failed IH]; intros m Hm; [done|].
  simpl. apply IH, remove_from_no_empty_channel.
Qed.

Lemma is_attempt_targets t :
  Forall (fun e => ¬ is_attempt e) t <-> targets t = [].
Proof.
  induction t as [|e t IH]; simpl; [by split; [|constructor]|].
  rewrite Forall_cons, IH. destruct e; simpl; naive_solver.
Qed.
End broadcast_facts.

(** ** The manager after each method *)

Section manager_after.
Variable E : Env.
Implicit Types (w : World) (m : Manager) (x c : string).

Lemma send_text_manager ws p w : manager (send_text E ws p w).2 = manager w.
Proof. unfold send_text. by destruct (send_result E (trace w) ws p). Qed.

Ltac dest_send_text :=
  match goal with
  | |- context [send_text ?E' ?ws ?p ?w] =>
      let H := fresh "Hsend" in
      pose proof (send_text_manager ws p w) as H;
      destruct (send_text E' ws p w) as [[[]|?] ?]; simpl in *
  end.

Lemma subscribe_connection_manager x c w :
  manager (subscribe_connection x c w).2 = subscribe_effect x c (manager w).
Proof.
  rewrite subscribe_connection_run. unfold subscribe_effect. simpl.
  by destruct (connection_channels (manager w) !! x).
Qed.

Lemma unsubscribe_connection_manager x c w :
  manager (unsubscribe_connection x c w).2 = unsubscribe_effect x c (manager w).
Proof. reflexivity. Qed.

Lemma disconnect_manager ws w :
  manager (disconnect ws w).2 =
    match find_connection_id ws (active_connections (manager w)) with
    | Some x => if truthy x then remove_from x (manager w) else manager w
    | None => manager w
    end.
Proof.
  unfold disconnect. unfold_m.
  destruct (find_connection_id ws _) as [x|]; [|done].
  by destruct (truthy x).
Qed.

(** A property kept by each single subscription is kept by the loop. *)
Lemma subscribe_each_inv (I : Manager -> Prop) x cs :
  (forall m c, I m -> I (subscribe_effect x c m)) ->
  forall w, I (manager w) -> I (manager (subscribe_each x cs w).2).
Proof.
  intros Hstep. induction cs as [|c cs IH]; intros w Hw; [done|].
  simpl. unfold_m.
  pose proof (subscribe_connection_manager x c w) as Hm.
  destruct (subscribe_connection x c w) as [[[]|e] w1]; simpl in *.
  - apply IH. rewrite Hm. by apply Hstep.
  - rewrite Hm. by apply Hstep.
Qed.

Lemma subscribe_manager ws cs w :
  manager (subscribe E ws cs w).2 =
    match find_connection_id ws (active_connections (manager w)) with
    | Some x =>
        if truthy x then manager (subscribe_each x cs w).2 else manager w
    | None => manager w
    end.
Proof.
  unfold subscribe. unfold_m.
  destruct (find_connection_id ws _) as [x|]; [|done].
  destruct (truthy x); [|done].
  destruct (subscribe_each x cs w) as [[[]|e] w1]; simpl; [|done].
  apply send_text_manager.
Qed.

Lemma connect_manager ws ic x w :
  manager (connect E ws ic x w).2 =
    match accept_result E (trace w) ws with
    | Some _ => manager w
    | None =>
        let md := Metadata (utcnow E (trace w ++ [Accepted ws])) None
                    (client_host E ws) in
        let m1 := register_connection ws x md (manager w) in
        match ic with
        | Some c => if truthy c then subscribe_effect x c m1 else m1
        | None => m1
        end
    end.
Proof.
  unfold connect, accept. unfold_m.
  destruct (accept_result E (trace w) ws); simpl; [done|].
  destruct ic as [c|]; [destruct (truthy c)|]; simpl.
  2,3: by dest_send_text.
  match goal with |- context [subscribe_connection x c ?w1] =>
    pose proof (subscribe_connection_manager x c w1) as Hm;
    destruct (subscribe_connection x c w1) as [[[]|e] w2] end;
    simpl in *; [|done].
  dest_send_text; unfold register_connection; congruence.
Qed.

Lemma broadcast_manager ch msg ex w :
  exists failed,
    manager (broadcast_to_channel E ch msg ex w).2 = evict_all failed (manager w).
Proof.
  destruct (channel_subscriptions (manager w) !! ch) as [s|] eqn:Hs.
  - destruct (heap w !! msg) as [v|] eqn:Hv.
    + destruct v as [| | | | |d];
        try (exists []; erewrite broadcast_not_dict; eauto; congruence).
      destruct (broadcast_spec E ch msg ex w s d Hs Hv)
        as (failed & t & tail & res & Hrun & _).
      exists failed. by rewrite Hrun.
    + exists []. erewrite broadcast_not_dict; eauto. congruence.
  - exists []. by rewrite broadcast_absent.
Qed.

Lemma send_to_connection_manager x msg w :
  manager (send_to_connection E x msg w).2 = manager w \/
  manager (send_to_connection E x msg w).2 = remove_from x (manager w).
Proof.
  unfold send_to_connection, message_update, send_text. unfold_m.
  destruct (PyDict.get x _) as [ws|]; [|by left].
  destruct (heap w !! msg) as [[| | | | |d]|]; simpl; try by left.
  destruct (send_result E _ ws _); simpl; [by right|by left].
Qed.
End manager_after.

(** ** No channel without subscribers *)

Section garbage_collection.
Implicit Types (w : World) (m : Manager) (x c : string).

Lemma subscribe_effect_no_empty_channel x c m :
  no_empty_channel m -> no_empty_channel (subscribe_effect x c m).
Proof.
  intros H c' s Hs. eapply (add_subscriber_no_empty x c); [apply H|apply Hs].
Qed.

Lemma unsubscribe_effect_no_empty_channel x c m :
  no_empty_channel m -> no_empty_channel (unsubscribe_effect x c m).
Proof.
  intros H c' s Hs. eapply (drop_subscriber_no_empty x c); [apply H|apply Hs].
Qed.

Lemma step_no_empty_channel E o w :
  no_empty_channel (manager w) -> no_empty_channel (manager (step E o w)).
Proof.
  intros Hw. destruct o as [ws ic x|ws|x|x c|x c|ws cs|c msg ex|x msg]; simpl.
  - rewrite connect_manager.
    destruct (accept_result E (trace w) ws); [done|]. simpl.
    destruct ic as [c|]; [destruct (truthy c)|]; try done.
    by apply subscribe_effect_no_empty_channel.
  - rewrite disconnect_manager.
    destruct (find_connection_id ws _) as [x|]; [|done].
    destruct (truthy x); [apply remove_from_no_empty_channel|done].
  - apply remove_from_no_empty_channel.
  - rewrite subscribe_connection_manager.
    by apply subscribe_effect_no_empty_channel.
  - by apply unsubscribe_effect_no_empty_channel.
  - rewrite subscribe_manager.
    destruct (find_connection_id ws _) as [x|]; [|done].
    destruct (truthy x); [|done].
    apply subscribe_each_inv; [|done].
    intros m c. apply subscribe_effect_no_empty_channel.
  - destruct (broadcast_manager E c msg ex w) as (failed & ->).
    by apply evict_all_no_empty_channel.
  - destruct (send_to_connection_manager E x msg w) as [-> | ->]; [done|].
    apply remove_from_no_empty_channel.
Qed.

Lemma run_no_empty_channel E ops : forall w,
  no_empty_channel (manager w) -> no_empty_channel (manager (run E ops w)).
Proof.
  induction ops as [|o ops IH]; intros w Hw; [done|].
  simpl. by apply IH, step_no_empty_channel.
Qed.
End garbage_collection.

(** ** The two indices mirror each other on guarded runs *)

Section mirror.
Implicit Types (w : World) (m : Manager) (x y c : string).

Lemma find_connection_id_registered ws conns x :
  find_connection_id ws conns = Some x -> is_Some (PyDict.get x conns).
Proof.
  induction conns as [|[k v] conns IH]; simpl; [done|].
  destruct (decide (v = ws)) as [->|Hne].
  - intros [= ->]. by rewrite decide_True.
  - intros H. destruct (decide (k = x)); [done|by apply IH].
Qed.

Lemma subscribe_effect_subscribed x c m y c' :
  subscribed (subscribe_effect x c m) y c' <->
  subscribed m y c' \/ (y = x /\ c' = c).
Proof. apply add_subscriber_elem. Qed.

Lemma subscribe_effect_joined x c m y c' :
  is_Some (connection_channels m !! x) ->
  joined (subscribe_effect x c m) y c' <-> joined m y c' \/ (y = x /\ c' = c).
Proof.
  intros [chans Hx]. unfold joined, subscribe_effect; simpl. rewrite Hx.
  destruct (decide (x = y)) as [<-|Hne].
  - rewrite lookup_insert_eq, Hx. split.
    + intros (t & [= <-] & [Hc| ->%elem_of_singleton]%elem_of_union); eauto.
    + intros [(t & [= <-] & Hc)|[_ ->]]; eexists; (split; [done|]); set_solver.
  - rewrite lookup_insert_ne by done. naive_solver.
Qed.

Lemma unsubscribe_effect_subscribed x c m y c' :
  subscribed (unsubscribe_effect x c m) y c' <->
  subscribed m y c' /\ ¬ (y = x /\ c' = c).
Proof. apply drop_subscriber_elem. Qed.

Lemma unsubscribe_effect_joined x c m y c' :
  joined (unsubscribe_effect x c m) y c' <->
  joined m y c' /\ ¬ (y = x /\ c' = c).
Proof.
  unfold joined, unsubscribe_effect; simpl.
  destruct (decide (x = y)) as [<-|Hne].
  - rewrite lookup_alter_eq.
    destruct (connection_channels m !! x) as [t|]; simpl; [|naive_solver].
    split.
    + intros (t' & [= <-] & Hc). split; [exists t; set_solver|set_solver].
    + intros [(t' & [= <-] & Hc) Hn]. eexists; split; [done|].
      destruct (decide (c' = c)) as [->|]; [naive_solver|set_solver].
  - rewrite lookup_alter_ne by done. naive_solver.
Qed.

Lemma subscribe_effect_consistent x c m :
  consistent m -> registered x m -> consistent (subscribe_effect x c m).
Proof.
  intros [Hm Hr] Hx. split.
  - intros y c'. rewrite subscribe_effect_subscribed, subscribe_effect_joined.
    + by rewrite (Hm y c').
    + by apply Hr.
  - intros y. unfold registered; simpl. rewrite (Hr y).
    destruct (proj1 (Hr x) Hx) as [chans Hc]. rewrite Hc.
    destruct (decide (x = y)) as [<-|Hne].
    + rewrite lookup_insert_eq, Hc. split; eauto.
    + by rewrite lookup_insert_ne.
Qed.

Lemma unsubscribe_effect_consistent x c m :
  consistent m -> consistent (unsubscribe_effect x c m).
Proof.
  intros [Hm Hr]. split.
  - intros y c'.
    rewrite unsubscribe_effect_subscribed, unsubscribe_effect_joined.
    by rewrite (Hm y c').
  - intros y. unfold registered; simpl. rewrite (Hr y).
    destruct (decide (x = y)) as [<-|Hne].
    + rewrite lookup_alter_eq. by rewrite fmap_is_Some.
    + by rewrite lookup_alter_ne.
Qed.

Lemma register_connection_consistent ws x md m :
  consistent m -> ¬ registered x m ->
  consistent (register_connection ws x md m).
Proof.
  intros [Hm Hr] Hx.
  assert (connection_channels m !! x = None) as Hcx.
  { apply eq_None_not_Some. by rewrite <- (Hr x). }
  split.
  - intros y c. unfold subscribed, joined; simpl.
    destruct (decide (x = y)) as [<-|Hne].
    + rewrite lookup_insert_eq. split.
      * intros Hs. apply (Hm x c) in Hs as (t & Ht & _). congruence.
      * intros (t & [= <-] & Hc). set_solver.
    + rewrite lookup_insert_ne by done. apply Hm.
  - intros y. unfold registered; simpl.
    destruct (decide (x = y)) as [<-|Hne].
    + rewrite PyDictFacts.get_set_eq, lookup_insert_eq. split; eauto.
    + rewrite PyDictFacts.get_set_ne, lookup_insert_ne by done. apply Hr.
Qed.

Lemma register_connection_registered ws x md m :
  registered x (register_connection ws x md m).
Proof. unfold registered; simpl. rewrite PyDictFacts.get_set_eq. eauto. Qed.

Lemma remove_from_consistent x m : consistent m -> consistent (remove_from x m).
Proof.
  intros [Hm Hr]. split;
    [by apply remove_from_mirrored|by apply remove_from_channels_of_registered].
Qed.

Lemma evict_all_consistent failed : forall m,
  consistent m -> consistent (evict_all failed m).
Proof.
  induction failed as [|x failed IH]; intros m Hm; [done|].
  simpl. by apply IH, remove_from_consistent.
Qed.

Lemma step_consistent E o w :
  guarded o w -> consistent (manager w) -> consistent (manager (step E o w)).
Proof.
  intros Hg Hw.
  destruct o as [ws ic x|ws|x|x c|x c|ws cs|c msg ex|x msg]; simpl in *.
  - rewrite connect_manager.
    destruct (accept_result E (trace w) ws); [done|]. simpl.
    destruct ic as [c|]; [destruct (truthy c)|];
      try by apply register_connection_consistent.
    apply subscribe_effect_consistent;
      [by apply register_connection_consistent
      |apply register_connection_registered].
  - rewrite disconnect_manager.
    destruct (find_connection_id ws _) as [x|]; [|done].
    destruct (truthy x); [by apply remove_from_consistent|done].
  - by apply remove_from_consistent.
  - rewrite subscribe_connection_manager.
    by apply subscribe_effect_consistent.
  - by apply unsubscribe_effect_consistent.
  - rewrite subscribe_manager.
    destruct (find_connection_id ws _) as [x|] eqn:Hx; [|done].
    destruct (truthy x); [|done].
    apply find_connection_id_registered in Hx.
    apply (subscribe_each_inv (fun m => consistent m /\ registered x m));
      [|done].
    intros m c [Hm Hr]. split; [by apply subscribe_effect_consistent|done].
  - destruct (broadcast_manager E c msg ex w) as (failed & ->).
    by apply evict_all_consistent.
  - destruct (send_to_connection_manager E x msg w) as [-> | ->]; [done|].
    by apply remove_from_consistent.
Qed.

Lemma new_manager_consistent : consistent new_manager.
Proof.
  split.
  - intros x c. unfold subscribed, joined; simpl.
    rewrite !lookup_empty. naive_solver.
  - intros x. unfold registered; simpl. rewrite lookup_empty.
    split; intros [? ?]; done.
Qed.

(** On a run whose calls are guarded, the channel index and the
    connection index record the same pairs after every call. *)
Theorem guarded_run_consistent E ops : forall w,
  consistent (manager w) -> guarded_run E ops w ->
  consistent (manager (run E ops w)).
Proof.
  induction ops as [|o ops IH]; intros w Hw Hg; [done|].
  destruct Hg as [Ho Hg]. simpl. apply IH; [|done]. by apply step_consistent.
Qed.
End mirror.

(** * The properties of the manager *)

(** ** Subscribing an identity the registry does not know *)

(** C1.  The two subscription indices do NOT stay mirrored on every
    sequence of operations: from the empty manager the single call
    [subscribe_connection("ghost", "news")] reaches a state in which
    ["ghost"] is in the subscriber set of ["news"] while ["ghost"] has no
    channel set at all.  (On guarded runs the mirror holds, see
    [guarded_run_consistent].) *)
Theorem subscribe_unknown_identity_breaks_mirror :
  let w := (subscribe_connection "ghost" "news" (initial_world ∅)).2 in
  reachable sample_env w /\
  subscribed (manager w) "ghost" "news" /\
  ¬ joined (manager w) "ghost" "news" /\
  ¬ mirrored (manager w).
Proof.
  set (w := (subscribe_connection "ghost" "news" (initial_world ∅)).2).
  assert (subscribed (manager w) "ghost" "news") as Hs.
  { unfold w. rewrite subscribe_connection_manager.
    apply subscribe_effect_subscribed. by right. }
  assert (¬ joined (manager w) "ghost" "news") as Hj.
  { intros (t & Ht & _). unfold w in Ht.
    rewrite subscribe_connection_manager in Ht. simpl in Ht.
    by rewrite lookup_empty in Ht. }
  split_and!; try done.
  - by exists ∅, [OpSubscribeConnection "ghost" "news"].
  - intros Hm. by apply Hj, Hm.
Qed.

(** C2.  For an identity absent from the registry [subscribe_connection]
    is NOT a silent no-op: it raises [KeyError] to its caller, and it has
    by then put the identity into the channel's subscriber set, so the
    manager is no longer the one it started from. *)
Theorem subscribe_connection_unknown_identity x c w :
  consistent (manager w) -> ¬ registered x (manager w) ->
  (subscribe_connection x c w).1 = Raise KeyError /\
  subscribed (manager (subscribe_connection x c w).2) x c /\
  manager (subscribe_connection x c w).2 ≠ manager w.
Proof.
  intros [Hm Hr] Hx.
  assert (connection_channels (manager w) !! x = None) as Hcx.
  { apply eq_None_not_Some. by rewrite <- (Hr x). }
  assert (subscribed (manager (subscribe_connection x c w).2) x c) as Hs.
  { rewrite subscribe_connection_manager.
    apply subscribe_effect_subscribed. by right. }
  split_and!; [|done|].
  - rewrite subscribe_connection_run. simpl. by rewrite Hcx.
  - intros Heq. rewrite Heq in Hs. apply Hm in Hs as (t & Ht & _). congruence.
Qed.

Lemma subscribe_connection_unknown_identity_witness :
  (consistent (manager (initial_world ∅)) /\
   ¬ registered "ghost" (manager (initial_world ∅))) /\
  (subscribe_connection "ghost" "news" (initial_world ∅)).1 = Raise KeyError /\
  subscribed (manager (subscribe_connection "ghost" "news"
                         (initial_world ∅)).2) "ghost" "news" /\
  manager (subscribe_connection "ghost" "news" (initial_world ∅)).2
    ≠ manager (initial_world ∅).
Proof.
  assert (consistent (manager (initial_world ∅))) as Hc
    by exact new_manager_consistent.
  assert (¬ registered "ghost" (manager (initial_world ∅))) as Hr
    by (intros [? H]; discriminate H).
  split; [by split|].
  exact (subscribe_connection_unknown_identity "ghost" "news"
           (initial_world ∅) Hc Hr).
Defined.

(** ** Channels without subscribers are not kept *)

(** C7.  Whatever the sequence of calls, no channel of the index has an
    empty subscriber set; unsubscribing the only subscriber of a channel
    deletes the channel's entry, so that [total_channels] goes down by
    one, and evicting it deletes the entry too. *)
Theorem no_channel_without_subscribers :
  (forall E w, reachable E w -> no_empty_channel (manager w)) /\
  (forall w x c,
     channel_subscriptions (manager w) !! c = Some {[x]} ->
     (unsubscribe_connection x c w).1 = Ok tt /\
     channel_subscriptions (manager (unsubscribe_connection x c w).2) !! c
       = None /\
     S (total_channels
          (get_connection_stats (manager (unsubscribe_connection x c w).2)))
       = total_channels (get_connection_stats (manager w))) /\
  (forall w x c,
     channel_subscriptions (manager w) !! c = Some {[x]} ->
     (_remove_connection x w).1 = Ok tt /\
     channel_subscriptions (manager (_remove_connection x w).2) !! c = None).
Proof.
  split_and!.
  - intros E w (h & ops & ->). apply run_no_empty_channel.
    intros c s Hs. simpl in Hs. by rewrite lookup_empty in Hs.
  - intros w x c Hc. split; [done|].
    rewrite unsubscribe_connection_manager. simpl. split.
    + rewrite lookup_drop_subscriber_eq, Hc. simpl.
      rewrite decide_True; [done|set_solver].
    + unfold drop_subscriber. rewrite Hc.
      rewrite decide_True by set_solver.
      rewrite <- (insert_delete_id _ _ _ Hc) at 2.
      by rewrite map_size_insert_None by apply lookup_delete_eq.
  - intros w x c Hc. split; [done|].
    rewrite _remove_connection_run. simpl.
    by apply remove_from_sole_subscriber.
Qed.

Lemma no_channel_without_subscribers_witness :
  (reachable sample_env sample_world_solo /\
   channel_subscriptions (manager sample_world_solo) !! "workflow:2"
     = Some {["B"]}) /\
  no_empty_channel (manager sample_world_solo) /\
  channel_subscriptions
    (manager (unsubscribe_connection "B" "workflow:2" sample_world_solo).2)
    !! "workflow:2" = None /\
  channel_subscriptions
    (manager (_remove_connection "B" sample_world_solo).2)
    !! "workflow:2" = None.
Proof.
  assert (reachable sample_env sample_world_solo) as Hr
    by (eexists _, _; reflexivity).
  assert (channel_subscriptions (manager sample_world_solo) !! "workflow:2"
            = Some {["B"]}) as Hc by (vm_compute; reflexivity).
  split; [by split|].
  destruct no_channel_without_subscribers as (H1 & H2 & H3).
  split_and!.
  - exact (H1 sample_env sample_world_solo Hr).
  - exact (proj1 (proj2 (H2 sample_world_solo "B" "workflow:2" Hc))).
  - exact (proj2 (H3 sample_world_solo "B" "workflow:2" Hc)).
Defined.

(** ** What a broadcast returns *)

(** C3, as stated, fails: no function of the value returned by
    [broadcast_to_channel] gives the identities whose write failed.  A
    broadcast to the three sample subscribers, one of which is gone, and
    a broadcast to a channel nobody subscribed to return the same value. *)
Lemma broadcast_delivery_report_counterexample :
  ¬ (exists report_of : Result pyvalue -> list string,
       forall E ch msg ex w,
         report_of (broadcast_to_channel E ch msg ex w).1 =
         failed_identities
           (new_events w (broadcast_to_channel E ch msg ex w).2)).
Proof.
  intros (report_of & H).
  pose proof (H sample_env "workflow:1" 0%nat None sample_world) as H1.
  pose proof (H sample_env "nobody" 0%nat None sample_world) as H2.
  vm_compute in H1, H2. congruence.
Qed.

(** C3, amended.  [broadcast_to_channel] has no delivery report: whenever
    it returns, it returns [None]; and when the channel is not in the
    subscription index it returns at once, without a write, a log entry
    or a change to the registry, the indices or the payload. *)
Theorem broadcast_returns_none E ch msg ex w :
  (forall v, (broadcast_to_channel E ch msg ex w).1 = Ok v -> v = PyNone) /\
  (channel_subscriptions (manager w) !! ch = None ->
   broadcast_to_channel E ch msg ex w = (Ok PyNone, w)).
Proof.
  split; [|apply broadcast_absent].
  destruct (channel_subscriptions (manager w) !! ch) as [s|] eqn:Hs.
  - destruct (heap w !! msg) as [j|] eqn:Hj.
    + destruct j as [| | | | |d];
        try (erewrite broadcast_not_dict; [simpl; congruence|eauto|congruence]).
      destruct (broadcast_spec E ch msg ex w s d Hs Hj)
        as (failed & t & tail & res & Hrun & [[-> _]|[-> _]] & _);
        rewrite Hrun; simpl; congruence.
    + erewrite broadcast_not_dict; [simpl; congruence|eauto|congruence].
  - rewrite broadcast_absent by done. simpl. congruence.
Qed.

Lemma broadcast_returns_none_witness :
  channel_subscriptions (manager sample_world) !! "system" = None /\
  broadcast_to_channel sample_env "system" 0%nat None sample_world
    = (Ok PyNone, sample_world).
Proof.
  assert (channel_subscriptions (manager sample_world) !! "system" = None)
    as Hc by (vm_compute; reflexivity).
  split; [exact Hc|].
  exact (proj2 (broadcast_returns_none sample_env "system" 0%nat None
                  sample_world) Hc).
Defined.

(** ** The events and the evictions of one broadcast *)

Section broadcast_outcome.
Variable E : Env.
Implicit Types (w : World) (m : Manager) (x c : string).

Lemma not_attempt_removal_logs failed :
  Forall (fun e => ¬ is_attempt e) (removal_log <$> failed).
Proof. apply is_attempt_targets, targets_removal_logs. Qed.

Lemma is_attempt_on_attempt ws e : is_attempt_on ws e -> is_attempt e.
Proof. by destruct e. Qed.

(** Whatever the arguments: the events of a broadcast are those of the
    loop, one removal per failed identity, and at most the closing debug
    line; the manager is the one it started from without the failed
    identities. *)
Lemma broadcast_outcome ch msg ex w :
  let m := manager w in
  let s := default ∅ (channel_subscriptions m !! ch) in
  let rs := recipients (active_connections m) (elements s)
              (exclude_id_of ex m) in
  (exists failed t tail,
     manager (broadcast_to_channel E ch msg ex w).2 = evict_all failed m /\
     new_events w (broadcast_to_channel E ch msg ex w).2 =
       t ++ (removal_log <$> failed) ++ tail /\
     (tail = [] \/
      tail = [Logged Debug "Message broadcasted to channel" None]) /\
     targets t = rs.*2 /\
     Forall (fun e => ¬ is_removal e) t /\
     (forall x, x ∈ failed -> x ∈ rs.*1) /\
     (forall lvl txt cid, Logged lvl txt cid ∈ t ->
        exists x, cid = Some x /\ x ∈ failed)) \/
  (broadcast_to_channel E ch msg ex w).2 = w.
Proof.
  intros m s rs.
  destruct (channel_subscriptions (manager w) !! ch) as [s0|] eqn:Hs.
  - destruct (heap w !! msg) as [j|] eqn:Hj.
    + destruct j as [| | | | |d];
        try (right; erewrite broadcast_not_dict; [done|eauto|congruence]).
      left.
      destruct (broadcast_spec E ch msg ex w s0 d Hs Hj)
        as (failed & t & tail & res & Hrun & Hres & Htg & Hrm & Hf & _ & Hl).
      exists failed, t, tail. rewrite Hrun. simpl.
      rewrite new_events_app. subst m s rs. rewrite Hs. simpl.
      split_and!; try done.
      * destruct Hres as [[_ ->]|[_ ->]]; auto.
      * intros x Hx. destruct (Hf x Hx) as (ws & e & Hin & _).
        apply list_elem_of_fmap. by exists (x, ws).
    + right. erewrite broadcast_not_dict; [done|eauto|congruence].
  - right. by rewrite broadcast_absent.
Qed.

(** Every write of a broadcast goes to the handle of a subscriber that
    is registered and is not the excluded identity. *)
Lemma broadcast_attempts ch msg ex w s e ws :
  channel_subscriptions (manager w) !! ch = Some s ->
  e ∈ new_events w (broadcast_to_channel E ch msg ex w).2 ->
  is_attempt_on ws e ->
  exists y, y ∈ s /\ Some y ≠ exclude_id_of ex (manager w) /\
            PyDict.get y (active_connections (manager w)) = Some ws.
Proof.
  intros Hs He Ha.
  destruct (broadcast_outcome ch msg ex w)
    as [(failed & t & tail & _ & Hev & Htail & Htg & _)|Hsame].
  - rewrite Hs in Htg. simpl in Htg. rewrite Hev in He.
    apply elem_of_app in He as [He|He].
    + assert (ws ∈ targets t) as Hws by (apply elem_of_targets; eauto).
      rewrite Htg in Hws. apply list_elem_of_fmap in Hws as ([y ws'] & -> & Hin).
      apply elem_of_recipients in Hin as (Hy & Hex & Hget).
      exists y. by rewrite elem_of_elements in Hy.
    + exfalso. apply elem_of_app in He as [He|He].
      * pose proof (not_attempt_removal_logs failed) as Hn.
        rewrite Forall_forall in Hn.
        by apply (Hn e He), (is_attempt_on_attempt ws).
      * destruct Htail as [-> | ->]; [by apply elem_of_nil in He|].
        apply list_elem_of_singleton in He as ->. done.
  - rewrite Hsame, new_events_refl in He. by apply elem_of_nil in He.
Qed.

(** An identity named by a removal or by an error line of a broadcast is a
    subscriber that is registered and is not the excluded identity. *)
Lemma broadcast_logged ch msg ex w lvl txt x :
  Logged lvl txt (Some x) ∈ new_events w (broadcast_to_channel E ch msg ex w).2 ->
  exists s ws, channel_subscriptions (manager w) !! ch = Some s /\ x ∈ s /\
               Some x ≠ exclude_id_of ex (manager w) /\
               PyDict.get x (active_connections (manager w)) = Some ws.
Proof.
  intros He.
  destruct (broadcast_outcome ch msg ex w)
    as [(failed & t & tail & _ & Hev & Htail & Htg & _ & Hf & Hl)|Hsame].
  - assert (x ∈ failed) as Hx.
    { rewrite Hev in He. apply elem_of_app in He as [He|He].
      - destruct (Hl _ _ _ He) as (y & [= ->] & Hy). done.
      - apply elem_of_app in He as [He|He].
        + apply list_elem_of_fmap in He as (y & [= _ _ ->] & Hy). done.
        + destruct Htail as [-> | ->]; [by apply elem_of_nil in He|].
          by apply list_elem_of_singleton in He. }
    apply Hf, list_elem_of_fmap in Hx as ([y ws] & -> & Hin).
    apply elem_of_recipients in Hin as (Hy & Hex & Hget). simpl in *.
    destruct (channel_subscriptions (manager w) !! ch) as [s|] eqn:Hs;
      simpl in Hy; [|by rewrite elements_empty in Hy; apply elem_of_nil in Hy].
    exists s, ws. by rewrite elem_of_elements in Hy.
  - rewrite Hsame, new_events_refl in He. by apply elem_of_nil in He.
Qed.
End broadcast_outcome.

(** ** Failure isolation, exclusion and skipped subscribers *)

(** C5.  In a broadcast that reaches the fan-out loop, a failed write
    does not keep any other subscriber from being written to: every
    subscriber that is not the excluded identity and has a registered
    handle gets a write, and when the indices are consistent with the
    registry that is every subscriber but the excluded one.  The events
    of the call split into those of the loop, which contain no removal,
    and those that follow it, which contain no write.  The identities
    evicted are those a write failed for, and once the call is over each
    of them is gone from the registry and from every subscriber set. *)
Theorem broadcast_failure_isolation E ch msg ex w s d :
  channel_subscriptions (manager w) !! ch = Some s ->
  heap w !! msg = Some (JObj d) ->
  let m := manager w in
  let w' := (broadcast_to_channel E ch msg ex w).2 in
  exists (failed : list string) (t_loop t_evict : list event),
    new_events w w' = t_loop ++ t_evict /\
    (forall x ws,
       x ∈ s -> Some x ≠ exclude_id_of ex m ->
       PyDict.get x (active_connections m) = Some ws ->
       exists e, e ∈ t_loop /\ is_attempt_on ws e) /\
    (consistent m ->
     forall x,
       x ∈ s -> Some x ≠ exclude_id_of ex m ->
       exists ws e, PyDict.get x (active_connections m) = Some ws /\
                    e ∈ t_loop /\ is_attempt_on ws e) /\
    Forall (fun e => ¬ is_removal e) t_loop /\
    Forall (fun e => ¬ is_attempt e) t_evict /\
    (forall ws q e,
       SendFailed ws q e ∈ t_loop ->
       exists x, x ∈ failed /\ x ∈ s /\
                 PyDict.get x (active_connections m) = Some ws) /\
    (forall x,
       x ∈ failed ->
       (exists ws q e, PyDict.get x (active_connections m) = Some ws /\
                       SendFailed ws q e ∈ t_loop) /\
       removal_log x ∈ t_evict /\
       evicted x (manager w')).
Proof.
  intros Hs Hd m w'.
  destruct (broadcast_spec E ch msg ex w s d Hs Hd)
    as (failed & t & tail & res & Hrun & Hres & Htg & Hrm & Hf & Hsf & Hl).
  exists failed, t, ((removal_log <$> failed) ++ tail).
  subst w'. rewrite Hrun. simpl. rewrite new_events_app.
  assert (forall x ws,
            x ∈ s -> Some x ≠ exclude_id_of ex (manager w) ->
            PyDict.get x (active_connections (manager w)) = Some ws ->
            exists e, e ∈ t /\ is_attempt_on ws e) as Hall.
  { intros x ws Hx Hex Hget. apply elem_of_targets. rewrite Htg.
    apply list_elem_of_fmap. exists (x, ws). split; [done|].
    apply elem_of_recipients. by rewrite elem_of_elements. }
  split_and!; try done.
  - intros [Hm Hr] x Hx Hex.
    assert (registered x (manager w)) as [ws Hget].
    { apply Hr. destruct (proj1 (Hm x ch)) as (c & Hc & _); [by exists s|].
      by exists c. }
    destruct (Hall x ws Hx Hex Hget) as (e & He & Ha). eauto.
  - apply is_attempt_targets.
    rewrite targets_app, targets_removal_logs.
    by destruct Hres as [[_ ->]|[_ ->]].
  - intros ws q e He. destruct (Hsf ws q e He) as (x & Hx & Hin).
    apply elem_of_recipients in Hin as (Hxs & _ & Hget).
    exists x. by rewrite elem_of_elements in Hxs.
  - intros x Hx. split_and!.
    + destruct (Hf x Hx) as (ws & e & Hin & He).
      apply elem_of_recipients in Hin as (_ & _ & Hget). eauto.
    + apply elem_of_app. left. apply list_elem_of_fmap. eauto.
    + by apply evict_all_evicted.
Qed.

Lemma broadcast_failure_isolation_witness :
  (channel_subscriptions (manager sample_world) !! "workflow:1"
     = Some {["A"; "B"; "C"]} /\
   heap sample_world !! 0%nat
     = Some (JObj [("type", JStr "x"); ("channel", JStr "old")])) /\
  exists (failed : list string) (t_loop t_evict : list event),
    new_events sample_world
      (broadcast_to_channel sample_env "workflow:1" 0%nat None
         sample_world).2 = t_loop ++ t_evict /\
    (forall x ws,
       x ∈ ({["A"; "B"; "C"]} : gset string) ->
       Some x ≠ exclude_id_of None (manager sample_world) ->
       PyDict.get x (active_connections (manager sample_world)) = Some ws ->
       exists e, e ∈ t_loop /\ is_attempt_on ws e) /\
    (consistent (manager sample_world) ->
     forall x,
       x ∈ ({["A"; "B"; "C"]} : gset string) ->
       Some x ≠ exclude_id_of None (manager sample_world) ->
       exists ws e,
         PyDict.get x (active_connections (manager sample_world)) = Some ws /\
         e ∈ t_loop /\ is_attempt_on ws e) /\
    Forall (fun e => ¬ is_removal e) t_loop /\
    Forall (fun e => ¬ is_attempt e) t_evict /\
    (forall ws q e,
       SendFailed ws q e ∈ t_loop ->
       exists x, x ∈ failed /\ x ∈ ({["A"; "B"; "C"]} : gset string) /\
                 PyDict.get x (active_connections (manager sample_world))
                   = Some ws) /\
    (forall x,
       x ∈ failed ->
       (exists ws q e,
          PyDict.get x (active_connections (manager sample_world)) = Some ws /\
          SendFailed ws q e ∈ t_loop) /\
       removal_log x ∈ t_evict /\
       evicted x (manager (broadcast_to_channel sample_env "workflow:1" 0%nat
                             None sample_world).2)).
Proof.
  assert (channel_subscriptions (manager sample_world) !! "workflow:1"
            = Some {["A"; "B"; "C"]}) as Hs by (vm_compute; reflexivity).
  assert (heap sample_world !! 0%nat
            = Some (JObj [("type", JStr "x"); ("channel", JStr "old")]))
    as Hd by (vm_compute; reflexivity).
  split; [by split|].
  exact (broadcast_failure_isolation sample_env "workflow:1" 0%nat None
           sample_world _ _ Hs Hd).
Defined.

(** C8.  When [exclude] is a socket registered under one identity, a
    broadcast writes nothing to that socket and does not evict that
    identity, whether or not it is a subscriber of the channel. *)
Theorem broadcast_excluded_gets_nothing E ch msg ws x w :
  find_connection_id ws (active_connections (manager w)) = Some x ->
  (forall y, PyDict.get y (active_connections (manager w)) = Some ws -> y = x) ->
  let w' := (broadcast_to_channel E ch msg (Some ws) w).2 in
  (forall e, e ∈ new_events w w' -> ¬ is_attempt_on ws e) /\
  removal_log x ∉ new_events w w'.
Proof.
  intros Hfind Huniq w'. split.
  - intros e He Ha.
    destruct (channel_subscriptions (manager w) !! ch) as [s|] eqn:Hs.
    + destruct (broadcast_attempts E ch msg (Some ws) w s e ws Hs He Ha)
        as (y & _ & Hex & Hget).
      simpl in Hex. rewrite Hfind in Hex. apply Huniq in Hget. congruence.
    + subst w'. rewrite broadcast_absent, new_events_refl in He by done.
      by apply elem_of_nil in He.
  - intros He. apply broadcast_logged in He as (s & ws' & _ & _ & Hex & _).
    simpl in Hex. by rewrite Hfind in Hex.
Qed.

Lemma broadcast_excluded_gets_nothing_witness :
  (find_connection_id 1%nat (active_connections (manager sample_world))
     = Some "A" /\
   (forall y, PyDict.get y (active_connections (manager sample_world))
                = Some 1%nat -> y = "A") /\
   subscribed (manager sample_world) "A" "workflow:1") /\
  (forall e,
     e ∈ new_events sample_world
           (broadcast_to_channel sample_env "workflow:1" 0%nat (Some 1%nat)
              sample_world).2 ->
     ¬ is_attempt_on 1%nat e) /\
  removal_log "A" ∉
    new_events sample_world
      (broadcast_to_channel sample_env "workflow:1" 0%nat (Some 1%nat)
         sample_world).2.
Proof.
  assert (active_connections (manager sample_world)
            = [("A", 1%nat); ("B", 2%nat); ("C", 3%nat)]) as Hconns
    by (vm_compute; reflexivity).
  assert (find_connection_id 1%nat (active_connections (manager sample_world))
            = Some "A") as Hfind by (rewrite Hconns; reflexivity).
  assert (forall y, PyDict.get y (active_connections (manager sample_world))
                      = Some 1%nat -> y = "A") as Huniq.
  { intros y. rewrite Hconns. simpl.
    repeat (destruct (decide _) as [<-|_]; [by intros [=]|]). done. }
  split.
  - split_and!; [done..|].
    exists {["A"; "B"; "C"]}. split; [vm_compute; reflexivity|set_solver].
  - exact (broadcast_excluded_gets_nothing sample_env "workflow:1" 0%nat
             1%nat "A" sample_world Hfind Huniq).
Defined.

(** C10.  A subscriber of the channel that the registry does not know is
    passed over by a broadcast: every write goes to the handle of another
    subscriber, no log line of the call names it (it is neither reported
    as failed nor removed), and it is still a subscriber, of this channel
    and of every other, afterwards. *)
Theorem broadcast_skips_unregistered_subscriber E ch msg ex w s x :
  channel_subscriptions (manager w) !! ch = Some s ->
  x ∈ s ->
  PyDict.get x (active_connections (manager w)) = None ->
  let w' := (broadcast_to_channel E ch msg ex w).2 in
  (forall e ws,
     e ∈ new_events w w' -> is_attempt_on ws e ->
     exists y, y ≠ x /\ y ∈ s /\
               PyDict.get y (active_connections (manager w)) = Some ws) /\
  (forall lvl txt, Logged lvl txt (Some x) ∉ new_events w w') /\
  subscribed (manager w') x ch /\
  (forall c, subscribed (manager w') x c <-> subscribed (manager w) x c).
Proof.
  intros Hs Hx Hget w'.
  assert (forall lvl txt, Logged lvl txt (Some x) ∉ new_events w w') as Hlog.
  { intros lvl txt He.
    apply broadcast_logged in He as (s' & ws & _ & _ & _ & Hget').
    congruence. }
  assert (forall c, subscribed (manager w') x c <-> subscribed (manager w) x c)
    as Hsame.
  { intros c. subst w'.
    destruct (broadcast_outcome E ch msg ex w)
      as [(failed & t & tail & Hm & Hev & Htail & Htg & _ & Hf & Hl)|Heq].
    - rewrite Hm, evict_all_subscribed. split; [by intros [? _]|].
      intros Hsub. split; [done|]. intros Hfailed.
      apply Hf, list_elem_of_fmap in Hfailed as ([y ws] & -> & Hin).
      apply elem_of_recipients in Hin as (_ & _ & Hget'). simpl in *.
      congruence.
    - by rewrite Heq. }
  split_and!; try done.
  - intros e ws He Ha.
    destruct (broadcast_attempts E ch msg ex w s e ws Hs He Ha)
      as (y & Hy & _ & Hgety).
    exists y. split_and!; try done. intros ->. congruence.
  - apply Hsame. by exists s.
Qed.

Lemma broadcast_skips_unregistered_subscriber_witness :
  (channel_subscriptions (manager sample_world_ghost) !! "news"
     = Some {["A"; "ghost"]} /\
   "ghost" ∈ ({["A"; "ghost"]} : gset string) /\
   PyDict.get "ghost" (active_connections (manager sample_world_ghost))
     = None) /\
  (forall e ws,
     e ∈ new_events sample_world_ghost
           (broadcast_to_channel sample_env "news" 0%nat None
              sample_world_ghost).2 ->
     is_attempt_on ws e ->
     exists y, y ≠ "ghost" /\ y ∈ ({["A"; "ghost"]} : gset string) /\
               PyDict.get y (active_connections (manager sample_world_ghost))
                 = Some ws) /\
  (forall lvl txt,
     Logged lvl txt (Some "ghost") ∉
       new_events sample_world_ghost
         (broadcast_to_channel sample_env "news" 0%nat None
            sample_world_ghost).2) /\
  subscribed (manager (broadcast_to_channel sample_env "news" 0%nat None
                         sample_world_ghost).2) "ghost" "news" /\
  (forall c,
     subscribed (manager (broadcast_to_channel sample_env "news" 0%nat None
                            sample_world_ghost).2) "ghost" c <->
     subscribed (manager sample_world_ghost) "ghost" c).
Proof.
  assert (channel_subscriptions (manager sample_world_ghost) !! "news"
            = Some {["A"; "ghost"]}) as Hs by (vm_compute; reflexivity).
  assert ("ghost" ∈ ({["A"; "ghost"]} : gset string)) as Hx by set_solver.
  assert (PyDict.get "ghost" (active_connections (manager sample_world_ghost))
            = None) as Hget by (vm_compute; reflexivity).
  split; [by split_and!|].
  exact (broadcast_skips_unregistered_subscriber sample_env "news" 0%nat None
           sample_world_ghost _ "ghost" Hs Hx Hget).
Defined.

(** ** Targeted send *)

(** C6.  [send_to_connection] returns [False] and changes neither the
    manager nor any payload when the identity is not registered; for a
    registered identity it returns [True] when the write goes through,
    and when the write fails it evicts the identity, which is then gone
    from the registry, from every subscriber set, from the channel index
    of connections and from the metadata, and returns [False]. *)
Theorem send_to_connection_outcomes E x msg w :
  let r := (send_to_connection E x msg w).1 in
  let w' := (send_to_connection E x msg w).2 in
  (PyDict.get x (active_connections (manager w)) = None ->
   r = Ok (PyBool false) /\ manager w' = manager w /\ heap w' = heap w) /\
  (forall ws d,
     PyDict.get x (active_connections (manager w)) = Some ws ->
     heap w !! msg = Some (JObj d) ->
     send_result E (trace w) ws (send_payload (utcnow E (trace w)) d) = None ->
     r = Ok (PyBool true) /\ manager w' = manager w /\
     new_events w w' = [Sent ws (send_payload (utcnow E (trace w)) d)]) /\
  (forall ws d e,
     PyDict.get x (active_connections (manager w)) = Some ws ->
     heap w !! msg = Some (JObj d) ->
     send_result E (trace w) ws (send_payload (utcnow E (trace w)) d) = Some e ->
     r = Ok (PyBool false) /\ manager w' = remove_from x (manager w) /\
     evicted x (manager w') /\ removal_log x ∈ new_events w w').
Proof.
  intros r w'. subst r w'.
  unfold send_to_connection, message_update, send_text, send_payload.
  unfold_m. split_and!.
  - intros ->. done.
  - intros ws d -> -> Hok. simpl. rewrite Hok. simpl.
    split_and!; try done. apply new_events_app.
  - intros ws d e -> -> Hfail. simpl. rewrite Hfail. simpl.
    split_and!; try done.
    + apply remove_from_evicted.
    + rewrite <- !app_assoc, new_events_app. simpl. by do 2 right; left.
Qed.

Lemma send_to_connection_outcomes_witness :
  (PyDict.get "ghost" (active_connections (manager sample_world)) = None /\
   (send_to_connection sample_env "ghost" 0%nat sample_world).1
     = Ok (PyBool false) /\
   manager (send_to_connection sample_env "ghost" 0%nat sample_world).2
     = manager sample_world /\
   heap (send_to_connection sample_env "ghost" 0%nat sample_world).2
     = heap sample_world) /\
  (PyDict.get "A" (active_connections (manager sample_world)) = Some 1%nat /\
   (send_to_connection sample_env "A" 0%nat sample_world).1
     = Ok (PyBool true) /\
   manager (send_to_connection sample_env "A" 0%nat sample_world).2
     = manager sample_world) /\
  (PyDict.get "B" (active_connections (manager sample_world)) = Some 2%nat /\
   (send_to_connection sample_env "B" 0%nat sample_world).1
     = Ok (PyBool false) /\
   evicted "B"
     (manager (send_to_connection sample_env "B" 0%nat sample_world).2)).
Proof.
  pose (d := [("type", JStr "x"); ("channel", JStr "old")]).
  assert (heap sample_world !! 0%nat = Some (JObj d)) as Hd
    by (vm_compute; reflexivity).
  split_and!.
  - vm_compute; reflexivity.
  - apply (proj1 (send_to_connection_outcomes sample_env "ghost" 0%nat
                    sample_world)).
    vm_compute; reflexivity.
  - apply (proj1 (send_to_connection_outcomes sample_env "ghost" 0%nat
                    sample_world)).
    vm_compute; reflexivity.
  - apply (proj1 (send_to_connection_outcomes sample_env "ghost" 0%nat
                    sample_world)).
    vm_compute; reflexivity.
  - vm_compute; reflexivity.
  - apply (proj1 (proj2 (send_to_connection_outcomes sample_env "A" 0%nat
                           sample_world)) 1%nat d);
      [vm_compute; reflexivity | exact Hd | vm_compute; reflexivity].
  - apply (proj1 (proj2 (send_to_connection_outcomes sample_env "A" 0%nat
                           sample_world)) 1%nat d);
      [vm_compute; reflexivity | exact Hd | vm_compute; reflexivity].
  - vm_compute; reflexivity.
  - apply (proj2 (proj2 (send_to_connection_outcomes sample_env "B" 0%nat
                           sample_world)) 2%nat d WebSocketDisconnect);
      [vm_compute; reflexivity | exact Hd | vm_compute; reflexivity].
  - apply (proj2 (proj2 (send_to_connection_outcomes sample_env "B" 0%nat
                           sample_world)) 2%nat d WebSocketDisconnect);
      [vm_compute; reflexivity | exact Hd | vm_compute; reflexivity].
Defined.

(** ** In-place enrichment of the caller's payload *)

Lemma get_broadcast_fields ch t d :
  PyDict.get "channel"
    (PyDict.update [("channel", JStr ch); ("timestamp", JStr t)] d)
    = Some (JStr ch) /\
  PyDict.get "timestamp"
    (PyDict.update [("channel", JStr ch); ("timestamp", JStr t)] d)
    = Some (JStr t) /\
  (forall k, k ≠ "channel" -> k ≠ "timestamp" ->
     PyDict.get k
       (PyDict.update [("channel", JStr ch); ("timestamp", JStr t)] d)
     = PyDict.get k d).
Proof.
  unfold PyDict.update; simpl. split_and!.
  - rewrite PyDictFacts.get_set_ne by done. apply PyDictFacts.get_set_eq.
  - apply PyDictFacts.get_set_eq.
  - intros k H1 H2. by rewrite !PyDictFacts.get_set_ne.
Qed.

(** C9.  The payload object the caller passes is itself rewritten.  After
    a [broadcast_to_channel] that found the channel in the index, the
    caller's dictionary holds the channel name under ["channel"] and the
    time of the call under ["timestamp"], whatever it held under those
    keys before, and its other keys are as they were; after a
    [send_to_connection] to a registered identity it holds the time of
    the call under ["timestamp"]. *)
Theorem payload_mutated_in_place E msg w d :
  heap w !! msg = Some (JObj d) ->
  (forall ch ex s,
     channel_subscriptions (manager w) !! ch = Some s ->
     exists d',
       heap (broadcast_to_channel E ch msg ex w).2 !! msg = Some (JObj d') /\
       PyDict.get "channel" d' = Some (JStr ch) /\
       PyDict.get "timestamp" d' = Some (JStr (utcnow E (trace w))) /\
       (forall k, k ≠ "channel" -> k ≠ "timestamp" ->
          PyDict.get k d' = PyDict.get k d)) /\
  (forall x ws,
     PyDict.get x (active_connections (manager w)) = Some ws ->
     exists d',
       heap (send_to_connection E x msg w).2 !! msg = Some (JObj d') /\
       PyDict.get "timestamp" d' = Some (JStr (utcnow E (trace w))) /\
       (forall k, k ≠ "timestamp" -> PyDict.get k d' = PyDict.get k d)).
Proof.
  intros Hd. split.
  - intros ch ex s Hs.
    destruct (broadcast_spec E ch msg ex w s d Hs Hd)
      as (failed & t & tail & res & Hrun & _).
    rewrite Hrun. simpl. rewrite lookup_insert_eq.
    eexists. split; [reflexivity|]. apply get_broadcast_fields.
  - intros x ws Hget.
    unfold send_to_connection, message_update, send_text. unfold_m.
    rewrite Hget, Hd. simpl.
    destruct (send_result E _ ws _); simpl; rewrite lookup_insert_eq;
      (eexists; split; [reflexivity|]); unfold PyDict.update; simpl;
      (split; [apply PyDictFacts.get_set_eq|]);
      intros k Hk; by rewrite PyDictFacts.get_set_ne.
Qed.

Lemma payload_mutated_in_place_witness :
  (heap sample_world !! 0%nat
     = Some (JObj [("type", JStr "x"); ("channel", JStr "old")]) /\
   channel_subscriptions (manager sample_world) !! "workflow:1"
     = Some {["A"; "B"; "C"]} /\
   PyDict.get "A" (active_connections (manager sample_world)) = Some 1%nat) /\
  (exists d',
     heap (broadcast_to_channel sample_env "workflow:1" 0%nat None
             sample_world).2 !! 0%nat = Some (JObj d') /\
     PyDict.get "channel" d' = Some (JStr "workflow:1") /\
     PyDict.get "timestamp" d'
       = Some (JStr (utcnow sample_env (trace sample_world))) /\
     (forall k, k ≠ "channel" -> k ≠ "timestamp" ->
        PyDict.get k d'
        = PyDict.get k [("type", JStr "x"); ("channel", JStr "old")])) /\
  (exists d',
     heap (send_to_connection sample_env "A" 0%nat sample_world).2 !! 0%nat
       = Some (JObj d') /\
     PyDict.get "timestamp" d'
       = Some (JStr (utcnow sample_env (trace sample_world))) /\
     (forall k, k ≠ "timestamp" ->
        PyDict.get k d'
        = PyDict.get k [("type", JStr "x"); ("channel", JStr "old")])).
Proof.
  assert (heap sample_world !! 0%nat
            = Some (JObj [("type", JStr "x"); ("channel", JStr "old")]))
    as Hd by (vm_compute; reflexivity).
  assert (channel_subscriptions (manager sample_world) !! "workflow:1"
            = Some {["A"; "B"; "C"]}) as Hs by (vm_compute; reflexivity).
  assert (PyDict.get "A" (active_connections (manager sample_world))
            = Some 1%nat) as Hget by (vm_compute; reflexivity).
  split; [by split_and!|].
  destruct (payload_mutated_in_place sample_env 0%nat sample_world _ Hd)
    as [Hb Hsnd].
  split; [exact (Hb "workflow:1" None _ Hs)|exact (Hsnd "A" 1%nat Hget)].
Defined.

(** ** Malformed inbound frames on [/ws] *)

Section inbound.
Variable E : Env.
Implicit Types (w : World) (f : frame) (inbound : list recv).

Lemma disconnect_run ws w : disconnect ws w = (Ok tt, (disconnect ws w).2).
Proof.
  unfold disconnect. unfold_m.
  destruct (find_connection_id ws _) as [x|]; [|done]. by destruct (truthy x).
Qed.

Lemma websocket_endpoint_body_malformed ws f :
  malformed f ->
  exists e, websocket_endpoint_body E ws f = Some (raise e) /\
            e ≠ WebSocketDisconnect.
Proof.
  destruct f as [data|[]]; simpl; try done; intros _;
    eexists; (split; [reflexivity|done]).
Qed.

(** Frames that arrive while the handler waits are handled from the world
    it waits in. *)
Lemma receive_loop_app body inbound rest k kr :
  receive_loop body inbound = Some k ->
  receive_loop body rest = Some kr ->
  exists k', receive_loop body (inbound ++ rest) = Some k' /\
             forall w w1, k w = (Ok Waiting, w1) -> k' w = kr w1.
Proof.
  intros Hk Hr. revert k Hk.
  induction inbound as [|[f|e] inbound IH]; intros k Hk; simpl in *.
  - injection Hk as <-. exists kr. split; [done|].
    intros w w1 [= <-]. done.
  - destruct (body f) as [b|]; [|done].
    destruct (receive_loop body inbound) as [k0|]; [|done].
    injection Hk as <-.
    destruct (IH k0 eq_refl) as (k0' & -> & Hk0').
    eexists. split; [reflexivity|].
    intros w w1. unfold_m. destruct (b w) as [[[]|e] w2]; [|done].
    apply Hk0'.
  - injection Hk as <-. eexists. split; [reflexivity|]. by intros w w1.
Qed.

(** The handler of [websocket_endpoint] ends the call. *)
Lemma websocket_endpoint_waiting ws x inbound h w w1 :
  websocket_endpoint E ws x inbound = Some h ->
  h w = (Ok Waiting, w1) ->
  exists loop wc,
    receive_loop (websocket_endpoint_body E ws) inbound = Some loop /\
    (connect E ws None x w).2 = wc /\
    is_Some (match (connect E ws None x w).1 with Ok _ => Some tt | _ => None end) /\
    loop wc = (Ok Waiting, w1).
Proof.
  unfold websocket_endpoint. intros Hend.
  apply fmap_Some in Hend as (loop & Hloop & ->). unfold_m.
  destruct (connect E ws None x w) as [[y|e] wc]; [|done]. simpl.
  intros Hh. exists loop, wc. split_and!; try done.
  destruct (loop wc) as [[st|e] w2]; [done|].
  exfalso. destruct e; simpl in Hh;
    match type of Hh with context [disconnect ws ?w0] =>
      rewrite (disconnect_run ws w0) in Hh end; simpl in Hh; congruence.
Qed.
End inbound.

(** C4, as stated, fails.  A client of [/ws] that has subscribed to
    ["news"] and then sends text that is not JSON is no longer registered
    once the frame has been handled. *)
Lemma malformed_frame_counterexample :
  ¬ (forall E ws x inbound f h w w1,
       malformed f ->
       websocket_endpoint E ws x inbound = Some h ->
       h w = (Ok Waiting, w1) ->
       exists h',
         websocket_endpoint E ws x (inbound ++ [Text f]) = Some h' /\
         registered x (manager (h' w).2) /\
         (forall c, subscribed (manager w1) x c ->
                    subscribed (manager (h' w).2) x c)).
Proof.
  intros H.
  destruct (websocket_endpoint sample_env 1%nat "A" [sample_subscribe])
    as [h|] eqn:Hh; [|discriminate Hh].
  destruct (H sample_env 1%nat "A" [sample_subscribe] (Unparseable "{oops")
              h (initial_world ∅) (h (initial_world ∅)).2 I Hh)
    as (h' & Hh' & [ws Hreg] & _).
  - injection Hh as <-. vm_compute. reflexivity.
  - injection Hh' as <-. vm_compute in Hreg. discriminate Hreg.
Qed.

(** C4, amended.  On [/ws], once the frames received so far have left the
    handler waiting, a frame that is not JSON or is not a JSON object is
    logged as an error and the socket is disconnected: the handler
    returns, and the identity the socket was registered under is gone
    from the registry and from every subscriber set. *)
Theorem malformed_frame_disconnects E ws x inbound f h w w1 :
  malformed f ->
  websocket_endpoint E ws x inbound = Some h ->
  h w = (Ok Waiting, w1) ->
  exists h',
    websocket_endpoint E ws x (inbound ++ [Text f]) = Some h' /\
    h' w =
      (Ok Finished,
       (disconnect ws
          (MkWorld (manager w1) (heap w1)
             (trace w1 ++ [Logged Error "WebSocket error" None]))).2) /\
    (forall y,
       find_connection_id ws (active_connections (manager w1)) = Some y ->
       truthy y = true ->
       evicted y (manager (h' w).2)).
Proof.
  intros Hf Hh Hw.
  destruct (websocket_endpoint_waiting E ws x inbound h w w1 Hh Hw)
    as (loop & wc & Hloop & Hwc & Hconn & Hrun).
  destruct (websocket_endpoint_body_malformed E ws f Hf) as (e & Hbody & He).
  destruct (receive_loop_app (websocket_endpoint_body E ws) inbound [Text f]
              loop ((raise e : M unit);; ret Waiting) Hloop)
    as (loop' & Hloop' & Happ).
  { simpl. by rewrite Hbody. }
  assert (forall (h0 : M handler_state),
            h0 = (connect E ws None x;;
                  try_except loop'
                    (fun e =>
                       match e with
                       | WebSocketDisconnect =>
                           disconnect ws;; ret Finished
                       | _ =>
                           log Error "WebSocket error" None;;
                           disconnect ws;; ret Finished
                       end)) ->
            h0 w = (Ok Finished,
                    (disconnect ws
                       (MkWorld (manager w1) (heap w1)
                          (trace w1 ++ [Logged Error "WebSocket error" None]))).2))
    as Hrun'.
  { intros h0 ->. unfold_m.
    destruct (connect E ws None x w) as [[y|e0] wc0]; simpl in *;
      [|by destruct Hconn].
    subst wc0. rewrite (Happ wc w1 Hrun). simpl.
    destruct e; try done;
      match goal with |- context [disconnect ws ?w0] =>
        by rewrite (disconnect_run ws w0) end. }
  eexists. split_and!.
  - unfold websocket_endpoint. rewrite Hloop'. reflexivity.
  - by apply Hrun'.
  - intros y Hy Hty. rewrite (Hrun' _ eq_refl). simpl.
    rewrite disconnect_manager. simpl. rewrite Hy, Hty.
    apply remove_from_evicted.
Qed.

Lemma malformed_frame_disconnects_witness :
  exists h w1,
    (malformed (Unparseable "{oops") /\
     websocket_endpoint sample_env 1%nat "A" [sample_subscribe] = Some h /\
     h (initial_world ∅) = (Ok Waiting, w1) /\
     find_connection_id 1%nat (active_connections (manager w1)) = Some "A" /\
     subscribed (manager w1) "A" "news") /\
    exists h',
      websocket_endpoint sample_env 1%nat "A"
        ([sample_subscribe] ++ [Text (Unparseable "{oops")]) = Some h' /\
      (h' (initial_world ∅)).1 = Ok Finished /\
      evicted "A" (manager (h' (initial_world ∅)).2).
Proof.
  destruct (websocket_endpoint sample_env 1%nat "A" [sample_subscribe])
    as [h|] eqn:Hh; [|discriminate Hh].
  exists h, (h (initial_world ∅)).2.
  assert (h (initial_world ∅) = (Ok Waiting, (h (initial_world ∅)).2)) as Hw
    by (injection Hh as <-; vm_compute; reflexivity).
  assert (find_connection_id 1%nat
            (active_connections (manager (h (initial_world ∅)).2)) = Some "A")
    as Hfind by (injection Hh as <-; vm_compute; reflexivity).
  split.
  - split_and!; try done.
    exists {["A"]}. injection Hh as <-.
    split; [vm_compute; reflexivity|set_solver].
  - destruct (malformed_frame_disconnects sample_env 1%nat "A"
                [sample_subscribe] (Unparseable "{oops") h (initial_world ∅)
                _ I Hh Hw) as (h' & Hh' & Hrun & Hev).
    exists h'. split_and!; [done|by rewrite Hrun|].
    by apply Hev.
Defined.

(** ** A run worth recording *)

(** When the write to the only subscriber of a channel fails, the
    subscriber is evicted, the channel goes with it, and the closing
    [logger.debug] of [broadcast_to_channel] looks the channel up again:
    the call ends in [KeyError]. *)
Example broadcast_to_lost_sole_subscriber :
  let run := broadcast_to_channel sample_env "workflow:2" 0%nat None
               sample_world_solo in
  channel_subscriptions (manager sample_world_solo) !! "workflow:2"
    = Some {["B"]} /\
  run.1 = Raise KeyError /\
  PyDict.get "B" (active_connections (manager run.2)) = None /\
  channel_subscriptions (manager run.2) !! "workflow:2" = None.
Proof. vm_compute. by split_and!. Qed.

(** On [/ws/workflow/{workflow_id}] a frame that is not JSON is not caught
    by the handler, which only expects [WebSocketDisconnect]: the error
    leaves the handler and the connection stays in the registry and in
    the channel. *)
Example workflow_websocket_unparseable_frame :
  let run := workflow_websocket sample_env 1%nat "7" "A"
               [Text (Unparseable "{oops")] (initial_world ∅) in
  run.1 = Raise JSONDecodeError /\
  PyDict.get "A" (active_connections (manager run.2)) = Some 1%nat /\
  channel_subscriptions (manager run.2) !! "workflow:7" = Some {["A"]}.
Proof. vm_compute. by split_and!. Qed.

(** * Further properties of the manager *)

(** ** Eviction *)

Section eviction_algebra.
Implicit Types (w : World) (m : Manager) (x y c : string).

Lemma manager_eq a1 s1 md1 cc1 a2 s2 md2 cc2 :
  a1 = a2 -> s1 = s2 -> md1 = md2 -> cc1 = cc2 ->
  MkManager a1 s1 md1 cc1 = MkManager a2 s2 md2 cc2.
Proof. by intros -> -> -> ->. Qed.

Lemma del_absent {V} k (d : list (string * V)) :
  PyDict.get k d = None -> PyDict.del k d = d.
Proof.
  induction d as [|[k' v] d IH]; simpl; [done|].
  destruct (decide (k' = k)); [done|]. intros H. by rewrite IH.
Qed.

Lemma remove_from_absent x m :
  evicted x m -> no_empty_channel m -> remove_from x m = m.
Proof.
  intros (Ha & Hs & Hc & Hmd) Hne. destruct m as [a s md cc].
  unfold remove_from; simpl in *. apply manager_eq.
  - by apply del_absent.
  - apply map_eq. intros c. apply option_eq. intros s'.
    rewrite map_lookup_filter_Some, lookup_fmap, fmap_Some. simpl. split.
    + intros [(s0 & Hs0 & ->) _]. rewrite Hs0. f_equal.
      specialize (Hs c s0 Hs0). set_solver.
    + intros Hs'. split; [|by eapply (Hne c)].
      exists s'. split; [done|]. specialize (Hs c s' Hs'). set_solver.
  - by apply delete_id.
  - by apply delete_id.
Qed.

(** X1.  [_remove_connection] never raises and removes the pairs of the
    evicted identity and nothing else: afterwards the identity is in no
    table, and every other identity is registered, subscribed and joined
    exactly as it was. *)
Theorem remove_connection_exact x w :
  let m := manager w in
  let m' := manager (_remove_connection x w).2 in
  (_remove_connection x w).1 = Ok tt /\
  heap (_remove_connection x w).2 = heap w /\
  evicted x m' /\
  (forall y, y ≠ x ->
     PyDict.get y (active_connections m') = PyDict.get y (active_connections m) /\
     connection_metadata m' !! y = connection_metadata m !! y /\
     connection_channels m' !! y = connection_channels m !! y) /\
  (forall y c, subscribed m' y c <-> subscribed m y c /\ y ≠ x).
Proof.
  intros m m'. subst m m'. rewrite _remove_connection_run. simpl.
  split_and!; try done.
  - apply remove_from_evicted.
  - intros y Hy. split_and!.
    + by apply PyDictFacts.get_del_ne.
    + by apply lookup_delete_ne.
    + by apply lookup_delete_ne.
  - intros y c. apply remove_from_subscribed.
Qed.

(** X2.  Evicting twice is evicting once, and evicting an identity that
    is in no table of a manager without empty channels leaves the manager
    as it is. *)
Theorem remove_connection_idempotent x w :
  manager (_remove_connection x (_remove_connection x w).2).2
    = manager (_remove_connection x w).2 /\
  (evicted x (manager w) -> no_empty_channel (manager w) ->
   manager (_remove_connection x w).2 = manager w).
Proof.
  rewrite !_remove_connection_run. simpl. split.
  - apply remove_from_absent;
      [apply remove_from_evicted|apply remove_from_no_empty_channel].
  - apply remove_from_absent.
Qed.

Lemma remove_connection_idempotent_witness :
  (evicted "ghost" (manager sample_world) /\
   no_empty_channel (manager sample_world)) /\
  manager (_remove_connection "ghost" sample_world).2 = manager sample_world.
Proof.
  assert (no_empty_channel (manager sample_world)) as Hne.
  { apply run_no_empty_channel. intros c s Hs. simpl in Hs.
    by rewrite lookup_empty in Hs. }
  assert (evicted "ghost" (manager sample_world)) as Hev.
  { split_and!; try (vm_compute; reflexivity).
    intros c s Hs Hin.
    assert (subscribed (manager sample_world) "ghost" c) as Hsub
      by (by exists s).
    assert (consistent (manager sample_world)) as [Hm _].
    { apply guarded_run_consistent; [apply new_manager_consistent|].
      simpl. split_and!; try done; intros [ws Hws]; vm_compute in Hws;
        discriminate Hws. }
    apply Hm in Hsub as (t & Ht & _). vm_compute in Ht. discriminate Ht. }
  split; [by split|].
  exact (proj2 (remove_connection_idempotent "ghost" sample_world) Hev Hne).
Defined.
End eviction_algebra.

(** ** Subscribing and unsubscribing, as operations on the two indices *)

Section subscription_algebra.
Implicit Types (w : World) (m : Manager) (x y c : string).

Lemma add_subscriber_idempotent x c (subs : gmap string (gset string)) :
  add_subscriber x c (add_subscriber x c subs) = add_subscriber x c subs.
Proof.
  apply map_eq. intros c'. destruct (decide (c = c')) as [<-|Hne].
  - rewrite !lookup_add_subscriber_eq. simpl. f_equal. set_solver.
  - by rewrite !lookup_add_subscriber_ne.
Qed.

Lemma subscribe_effect_idempotent x c m :
  subscribe_effect x c (subscribe_effect x c m) = subscribe_effect x c m.
Proof.
  destruct m as [a s md cc]. unfold subscribe_effect; simpl.
  apply manager_eq; try done.
  - apply add_subscriber_idempotent.
  - destruct (cc !! x) as [chans|] eqn:Hx; simpl.
    + rewrite lookup_insert_eq, insert_insert_eq. f_equal. set_solver.
    + by rewrite Hx.
Qed.

Lemma drop_add_subscriber x c (subs : gmap string (gset string)) :
  (forall c' s, subs !! c' = Some s -> s ≠ ∅) ->
  (forall s, subs !! c = Some s -> x ∉ s) ->
  drop_subscriber x c (add_subscriber x c subs) = subs.
Proof.
  intros Hne Hx. apply map_eq. intros c'.
  destruct (decide (c = c')) as [<-|Hcc].
  - rewrite lookup_drop_subscriber_eq, lookup_add_subscriber_eq. simpl.
    destruct (subs !! c) as [s|] eqn:Hs; simpl.
    + specialize (Hx s eq_refl). specialize (Hne c s Hs).
      assert ((s ∪ {[x]}) ∖ {[x]} = s) as -> by set_solver.
      by rewrite decide_False.
    + rewrite decide_True; [done|set_solver].
  - by rewrite lookup_drop_subscriber_ne, lookup_add_subscriber_ne.
Qed.

Lemma drop_subscriber_absent x c (subs : gmap string (gset string)) :
  (forall c' s, subs !! c' = Some s -> s ≠ ∅) ->
  (forall s, subs !! c = Some s -> x ∉ s) ->
  drop_subscriber x c subs = subs.
Proof.
  intros Hne Hx. apply map_eq. intros c'.
  destruct (decide (c = c')) as [<-|Hcc].
  - rewrite lookup_drop_subscriber_eq.
    destruct (subs !! c) as [s|] eqn:Hs; simpl; [|done].
    specialize (Hx s eq_refl). specialize (Hne c s Hs).
    assert (s ∖ {[x]} = s) as -> by set_solver.
    by rewrite decide_False.
  - by rewrite lookup_drop_subscriber_ne.
Qed.

(** X3.  For an identity that has a channel set, [subscribe_connection]
    returns normally and adds the pair (identity, channel) to both
    indices and nothing else; the registry, the metadata and the payload
    objects are as before. *)
Theorem subscribe_connection_exact x c w :
  is_Some (connection_channels (manager w) !! x) ->
  let m := manager w in
  let m' := manager (subscribe_connection x c w).2 in
  (subscribe_connection x c w).1 = Ok tt /\
  active_connections m' = active_connections m /\
  connection_metadata m' = connection_metadata m /\
  heap (subscribe_connection x c w).2 = heap w /\
  (forall y c', subscribed m' y c' <-> subscribed m y c' \/ (y = x /\ c' = c)) /\
  (forall y c', joined m' y c' <-> joined m y c' \/ (y = x /\ c' = c)).
Proof.
  intros Hx m m'. subst m m'.
  split_and!.
  - rewrite subscribe_connection_run. simpl. by destruct Hx as [t ->].
  - by rewrite subscribe_connection_manager.
  - by rewrite subscribe_connection_manager.
  - rewrite subscribe_connection_run. simpl. by destruct Hx as [t ->].
  - intros y c'. rewrite subscribe_connection_manager.
    apply subscribe_effect_subscribed.
  - intros y c'. rewrite subscribe_connection_manager.
    by apply subscribe_effect_joined.
Qed.

Lemma subscribe_connection_exact_witness :
  is_Some (connection_channels (manager sample_world) !! "A") /\
  (subscribe_connection "A" "news" sample_world).1 = Ok tt /\
  (forall y c',
     subscribed (manager (subscribe_connection "A" "news" sample_world).2) y c'
     <-> subscribed (manager sample_world) y c' \/ (y = "A" /\ c' = "news")).
Proof.
  assert (is_Some (connection_channels (manager sample_world) !! "A")) as Hx
    by (vm_compute; eauto).
  split; [exact Hx|].
  pose proof (subscribe_connection_exact "A" "news" sample_world Hx) as H.
  cbv zeta in H. destruct H as (H1 & _ & _ & _ & H5 & _). by split.
Defined.

(** X4.  Subscribing a connection to a channel a second time leaves the
    manager exactly as the first subscription left it. *)
Theorem subscribe_connection_idempotent x c w :
  manager (subscribe_connection x c (subscribe_connection x c w).2).2
    = manager (subscribe_connection x c w).2.
Proof.
  rewrite !subscribe_connection_manager. apply subscribe_effect_idempotent.
Qed.

(** X5.  [unsubscribe_connection] never raises, for any identity and any
    channel; it removes the pair (identity, channel) from both indices
    and nothing else.  When the pair is in neither index and no channel is
    empty, the manager is left exactly as it was. *)
Theorem unsubscribe_connection_exact x c w :
  let m := manager w in
  let m' := manager (unsubscribe_connection x c w).2 in
  (unsubscribe_connection x c w).1 = Ok tt /\
  active_connections m' = active_connections m /\
  connection_metadata m' = connection_metadata m /\
  (forall y c',
     subscribed m' y c' <-> subscribed m y c' /\ ¬ (y = x /\ c' = c)) /\
  (forall y c', joined m' y c' <-> joined m y c' /\ ¬ (y = x /\ c' = c)) /\
  (no_empty_channel m -> ¬ subscribed m x c -> ¬ joined m x c -> m' = m).
Proof.
  intros m m'. subst m m'. rewrite unsubscribe_connection_manager.
  split_and!; try done.
  - intros y c'. apply unsubscribe_effect_subscribed.
  - intros y c'. apply unsubscribe_effect_joined.
  - intros Hne Hs Hj. destruct (manager w) as [a s md cc] eqn:Hm.
    unfold unsubscribe_effect; simpl. apply manager_eq; try done.
    + apply drop_subscriber_absent; [apply Hne|].
      intros s0 Hs0 Hin. apply Hs. by exists s0.
    + apply map_eq. intros y. destruct (decide (x = y)) as [<-|Hxy].
      * rewrite lookup_alter_eq.
        destruct (cc !! x) as [t|] eqn:Ht; simpl; [|done].
        f_equal. assert (c ∉ t) by (intros Hin; apply Hj; by exists t).
        set_solver.
      * by rewrite lookup_alter_ne.
Qed.

(** X6.  Subscribing a connection to a channel it has not joined and
    unsubscribing it again gives back the manager one started from. *)
Theorem subscribe_unsubscribe_round_trip x c w t :
  no_empty_channel (manager w) ->
  connection_channels (manager w) !! x = Some t ->
  c ∉ t ->
  ¬ subscribed (manager w) x c ->
  manager (unsubscribe_connection x c (subscribe_connection x c w).2).2
    = manager w.
Proof.
  intros Hne Ht Hc Hs.
  rewrite unsubscribe_connection_manager, subscribe_connection_manager.
  destruct (manager w) as [a s md cc] eqn:Hm.
  unfold unsubscribe_effect, subscribe_effect; simpl in *. rewrite Ht.
  apply manager_eq; try done.
  - apply drop_add_subscriber; [apply Hne|].
    intros s0 Hs0 Hin. apply Hs. by exists s0.
  - apply map_eq. intros y. destruct (decide (x = y)) as [<-|Hxy].
    + rewrite lookup_alter_eq, lookup_insert_eq, Ht. simpl. f_equal. set_solver.
    + by rewrite lookup_alter_ne, lookup_insert_ne.
Qed.

Lemma subscribe_unsubscribe_round_trip_witness :
  (no_empty_channel (manager sample_world) /\
   connection_channels (manager sample_world) !! "A" = Some {["workflow:1"]} /\
   ("news" ∉ ({["workflow:1"]} : gset string)) /\
   (¬ subscribed (manager sample_world) "A" "news")) /\
  manager (unsubscribe_connection "A" "news"
             (subscribe_connection "A" "news" sample_world).2).2
    = manager sample_world.
Proof.
  assert (no_empty_channel (manager sample_world)) as Hne.
  { apply run_no_empty_channel. intros c s Hs. simpl in Hs.
    by rewrite lookup_empty in Hs. }
  assert (connection_channels (manager sample_world) !! "A"
            = Some {["workflow:1"]}) as Ht by (vm_compute; reflexivity).
  assert ("news" ∉ ({["workflow:1"]} : gset string)) as Hc
    by (rewrite elem_of_singleton; discriminate).
  assert (¬ subscribed (manager sample_world) "A" "news") as Hs.
  { intros (s & Hs & _). vm_compute in Hs. discriminate Hs. }
  split; [by split_and!|].
  exact (subscribe_unsubscribe_round_trip "A" "news" sample_world _
           Hne Ht Hc Hs).
Defined.
End subscription_algebra.

(** ** What every run keeps *)

Section run_invariants.
Implicit Types (w : World) (m : Manager) (x y c : string).

(** A property of the manager kept by the four writes the methods are
    made of is kept by every call. *)
Lemma step_invariant (I : Manager -> Prop) E :
  (forall x m, I m -> I (remove_from x m)) ->
  (forall x c m, I m -> I (subscribe_effect x c m)) ->
  (forall x c m, I m -> I (unsubscribe_effect x c m)) ->
  (forall ws x md m,
     user_id md = None -> I m -> I (register_connection ws x md m)) ->
  forall o w, I (manager w) -> I (manager (step E o w)).
Proof.
  intros Hrm Hsub Hunsub Hreg o w Hw.
  destruct o as [ws ic x|ws|x|x c|x c|ws cs|c msg ex|x msg]; simpl.
  - rewrite connect_manager.
    destruct (accept_result E (trace w) ws); [done|]. simpl.
    destruct ic as [c|]; [destruct (truthy c)|]; auto.
  - rewrite disconnect_manager.
    destruct (find_connection_id ws _) as [x|]; [|done].
    destruct (truthy x); auto.
  - by apply Hrm.
  - rewrite subscribe_connection_manager. by apply Hsub.
  - by apply Hunsub.
  - rewrite subscribe_manager.
    destruct (find_connection_id ws _) as [x|]; [|done].
    destruct (truthy x); [|done].
    apply subscribe_each_inv; [|done]. intros m c. apply Hsub.
  - destruct (broadcast_manager E c msg ex w) as (failed & ->).
    clear -Hrm Hw. revert Hw. generalize (manager w).
    induction failed as [|x failed IH]; intros m Hm; [done|].
    simpl. by apply IH, Hrm.
  - destruct (send_to_connection_manager E x msg w) as [-> | ->]; auto.
Qed.

Lemma run_invariant (I : Manager -> Prop) E :
  (forall x m, I m -> I (remove_from x m)) ->
  (forall x c m, I m -> I (subscribe_effect x c m)) ->
  (forall x c m, I m -> I (unsubscribe_effect x c m)) ->
  (forall ws x md m,
     user_id md = None -> I m -> I (register_connection ws x md m)) ->
  I new_manager ->
  forall w, reachable E w -> I (manager w).
Proof.
  intros Hrm Hsub Hunsub Hreg Hnew w (h & ops & ->).
  assert (forall w0, I (manager w0) -> I (manager (run E ops w0))) as Hrun.
  { induction ops as [|o ops IH]; intros w0 Hw0; [done|].
    simpl. apply IH. by apply step_invariant. }
  by apply Hrun.
Qed.

Lemma elem_of_keys_set {V} k (v : V) d y :
  y ∈ (PyDict.set k v d).*1 <-> y = k \/ y ∈ d.*1.
Proof.
  induction d as [|[k' v'] d IH]; simpl.
  - rewrite list_elem_of_singleton. split; [by left|].
    intros [?|?%elem_of_nil]; done.
  - destruct (decide (k' = k)) as [->|Hne]; simpl;
      rewrite !elem_of_cons, ?IH; naive_solver.
Qed.

Lemma elem_of_keys_del {V} k (d : list (string * V)) y :
  y ∈ (PyDict.del k d).*1 <-> y ≠ k /\ y ∈ d.*1.
Proof.
  induction d as [|[k' v'] d IH]; simpl.
  - split; [by intros ?%elem_of_nil|]. by intros [_ ?%elem_of_nil].
  - destruct (decide (k' = k)) as [->|Hne]; simpl;
      rewrite ?elem_of_cons, IH; naive_solver.
Qed.

Lemma get_None_keys {V} k (d : list (string * V)) :
  PyDict.get k d = None <-> k ∉ d.*1.
Proof.
  induction d as [|[k' v'] d IH]; simpl.
  - split; [intros _; apply not_elem_of_nil|done].
  - rewrite not_elem_of_cons. destruct (decide (k' = k)) as [->|Hne].
    + split; [done|]. by intros [? _].
    + rewrite IH. naive_solver.
Qed.

Lemma keys_unique_set {V} k (v : V) d :
  NoDup d.*1 -> NoDup (PyDict.set k v d).*1.
Proof.
  induction d as [|[k' v'] d IH]; simpl; intros Hd.
  - apply NoDup_singleton.
  - apply NoDup_cons in Hd as [Hk' Hd].
    destruct (decide (k' = k)) as [->|Hne]; simpl.
    + by apply NoDup_cons.
    + apply NoDup_cons. split; [|by apply IH].
      rewrite elem_of_keys_set. naive_solver.
Qed.

Lemma keys_unique_del {V} k (d : list (string * V)) :
  NoDup d.*1 -> NoDup (PyDict.del k d).*1.
Proof.
  induction d as [|[k' v'] d IH]; simpl; intros Hd; [done|].
  apply NoDup_cons in Hd as [Hk' Hd].
  destruct (decide (k' = k)) as [->|Hne]; simpl; [by apply IH|].
  apply NoDup_cons. split; [|by apply IH].
  rewrite elem_of_keys_del. naive_solver.
Qed.

Lemma length_del_present {V} k (d : list (string * V)) :
  NoDup d.*1 -> is_Some (PyDict.get k d) ->
  S (length (PyDict.del k d)) = length d.
Proof.
  induction d as [|[k' v'] d IH]; simpl; intros Hd Hk.
  - by destruct Hk.
  - apply NoDup_cons in Hd as [Hk' Hd].
    destruct (decide (k' = k)) as [->|Hne]; simpl.
    + rewrite del_absent; [done|]. by apply get_None_keys.
    + by rewrite IH.
Qed.

Lemma length_set_absent {V} k (v : V) d :
  PyDict.get k d = None -> length (PyDict.set k v d) = S (length d).
Proof.
  induction d as [|[k' v'] d IH]; simpl; [done|].
  destruct (decide (k' = k)); [done|]. intros H. simpl. by rewrite IH.
Qed.

Lemma tables_aligned_step_facts :
  (forall x m, tables_aligned m -> tables_aligned (remove_from x m)) /\
  (forall x c m, tables_aligned m -> tables_aligned (subscribe_effect x c m)) /\
  (forall x c m, tables_aligned m -> tables_aligned (unsubscribe_effect x c m)) /\
  (forall ws x md m,
     tables_aligned m -> tables_aligned (register_connection ws x md m)).
Proof.
  split_and!.
  - intros x m Hm y. unfold registered; simpl.
    destruct (decide (x = y)) as [<-|Hne].
    + rewrite PyDictFacts.get_del_eq, !lookup_delete_eq.
      split; split; intros [? ?]; done.
    + rewrite PyDictFacts.get_del_ne, !lookup_delete_ne by done. apply Hm.
  - intros x c m Hm y. unfold registered; simpl.
    destruct (Hm y) as [H1 H2]. split; [done|].
    destruct (connection_channels m !! x) as [t|] eqn:Ht; [|done].
    destruct (decide (x = y)) as [<-|Hne].
    + rewrite lookup_insert_eq. rewrite H2, Ht. split; eauto.
    + by rewrite lookup_insert_ne.
  - intros x c m Hm y. unfold registered; simpl.
    destruct (Hm y) as [H1 H2]. split; [done|].
    destruct (decide (x = y)) as [<-|Hne].
    + by rewrite lookup_alter_eq, fmap_is_Some.
    + by rewrite lookup_alter_ne.
  - intros ws x md m Hm y. unfold registered; simpl.
    destruct (decide (x = y)) as [<-|Hne].
    + rewrite PyDictFacts.get_set_eq, !lookup_insert_eq. split; split; eauto.
    + rewrite PyDictFacts.get_set_ne, !lookup_insert_ne by done. apply Hm.
Qed.

Lemma run_tables_aligned E w : reachable E w -> tables_aligned (manager w).
Proof.
  intros Hw. destruct tables_aligned_step_facts as (H1 & H2 & H3 & H4).
  apply (run_invariant tables_aligned E); auto.
  intros x. unfold registered; simpl. rewrite !lookup_empty.
  split; split; intros [? ?]; done.
Qed.

Lemma run_registry_keys_unique E w :
  reachable E w -> registry_keys_unique (manager w).
Proof.
  intros Hw. apply (run_invariant registry_keys_unique E); auto.
  - intros x m. apply keys_unique_del.
  - intros ws x md m _. apply keys_unique_set.
  - apply NoDup_nil_2.
Qed.

(** X7.  After any sequence of calls, the registry, the metadata table
    and the table of channel sets have the same identities as keys, and
    no identity is in the registry twice. *)
Theorem reachable_tables_aligned E w :
  reachable E w ->
  tables_aligned (manager w) /\ registry_keys_unique (manager w).
Proof.
  intros Hw. split.
  - by apply (run_tables_aligned E).
  - by apply (run_registry_keys_unique E).
Qed.

Lemma reachable_tables_aligned_witness :
  reachable sample_env sample_world_ghost /\
  tables_aligned (manager sample_world_ghost) /\
  registry_keys_unique (manager sample_world_ghost).
Proof.
  assert (reachable sample_env sample_world_ghost) as Hr
    by (eexists _, _; reflexivity).
  split; [exact Hr|].
  exact (reachable_tables_aligned sample_env sample_world_ghost Hr).
Defined.

(** X8.  No call of the manager ever attaches a principal to a
    connection: after any sequence of calls every metadata record still
    has [user_id] unset. *)
Theorem reachable_anonymous E w :
  reachable E w -> anonymous (manager w).
Proof.
  apply (run_invariant anonymous E).
  - intros x m Hm y md. simpl. intros [_ Hy]%lookup_delete_Some. by eapply Hm.
  - intros x c m Hm. apply Hm.
  - intros x c m Hm. apply Hm.
  - intros ws x md m Hmd Hm y md'. simpl.
    destruct (decide (x = y)) as [<-|Hne].
    + rewrite lookup_insert_eq. by intros [= <-].
    + rewrite lookup_insert_ne by done. apply Hm.
  - intros x md. simpl. by rewrite lookup_empty.
Qed.

Lemma reachable_anonymous_witness :
  reachable sample_env sample_world /\ anonymous (manager sample_world).
Proof.
  assert (reachable sample_env sample_world) as Hr
    by (eexists _, _; reflexivity).
  split; [exact Hr|].
  exact (reachable_anonymous sample_env sample_world Hr).
Defined.
End run_invariants.

(** ** Connecting and disconnecting *)

Section connecting.
Variable E : Env.
Implicit Types (w : World) (m : Manager) (x y c : string).

Lemma del_set {V} k (v : V) d :
  PyDict.del k (PyDict.set k v d) = PyDict.del k d.
Proof.
  induction d as [|[k' v'] d IH]; simpl.
  - by rewrite decide_True.
  - destruct (decide (k' = k)) as [->|Hne]; simpl.
    + by rewrite decide_True.
    + by rewrite decide_False, IH.
Qed.

Lemma find_connection_id_set ws x conns :
  find_connection_id ws conns = None ->
  find_connection_id ws (PyDict.set x ws conns) = Some x.
Proof.
  induction conns as [|[k v] conns IH]; simpl.
  - by rewrite decide_True.
  - destruct (decide (v = ws)) as [->|Hv]; [done|]. intros Hnone.
    destruct (decide (k = x)) as [->|Hk]; simpl.
    + by rewrite decide_True.
    + rewrite decide_False by done. by apply IH.
Qed.

Lemma find_connection_id_del ws x conns :
  find_connection_id ws conns = None ->
  find_connection_id ws (PyDict.del x conns) = None.
Proof.
  induction conns as [|[k v] conns IH]; simpl; [done|].
  destruct (decide (v = ws)) as [->|Hv]; [done|]. intros Hnone.
  destruct (decide (k = x)); simpl; [by apply IH|].
  rewrite decide_False by done. by apply IH.
Qed.

(** Evicting an identity undoes its registration and its subscriptions. *)
Lemma remove_from_subscribe_effect x c m :
  remove_from x (subscribe_effect x c m) = remove_from x m.
Proof.
  destruct m as [a s md cc]. unfold remove_from, subscribe_effect; simpl.
  apply manager_eq; try done.
  - apply map_eq. intros c'. apply option_eq. intros s'.
    rewrite !map_lookup_filter_Some, !lookup_fmap, !fmap_Some. simpl.
    destruct (decide (c = c')) as [<-|Hne].
    + rewrite lookup_add_subscriber_eq.
      destruct (s !! c) as [s0|] eqn:Hs0; simpl.
      * split; intros [(s1 & [= <-] & ->) Hne]; (split; [|done]);
          eexists; (split; [done|]); set_solver.
      * split; [|by intros [(s1 & [=] & _) _]].
        intros [(s1 & [= <-] & ->) Hne]. exfalso. apply Hne. set_solver.
    + by rewrite lookup_add_subscriber_ne.
  - destruct (cc !! x) as [t|]; [|done]. apply delete_insert_eq.
Qed.

Lemma remove_from_register_connection ws x md m :
  remove_from x (register_connection ws x md m) = remove_from x m.
Proof.
  destruct m as [a s mt cc]. unfold remove_from, register_connection; simpl.
  apply manager_eq; try done.
  - apply del_set.
  - apply delete_insert_eq.
  - apply delete_insert_eq.
Qed.

(** X9.  When the handshake is refused, [connect] raises what [accept]
    raised and nothing has changed.  When it goes through, the connection
    is registered under its handle with a metadata record that has no
    principal and with the initial channel, if it is a non-empty string,
    as its only channel; this is so whether the welcome message could be
    written or not: [connect] returns the identity when the write goes
    through and raises the transport's exception, with the connection
    still registered, when it does not.  The failed welcome write is the
    only thing it raises then: the subscription to the initial channel
    never fails. *)
Theorem connect_outcome ws ic x w :
  let r := connect E ws ic x w in
  (forall e, accept_result E (trace w) ws = Some e -> r = (Raise e, w)) /\
  (accept_result E (trace w) ws = None ->
   PyDict.get x (active_connections (manager r.2)) = Some ws /\
   connection_metadata (manager r.2) !! x
     = Some (Metadata (utcnow E (trace w ++ [Accepted ws])) None
               (client_host E ws)) /\
   connection_channels (manager r.2) !! x = Some (initial_channels ic) /\
   (forall c, c ∈ initial_channels ic -> subscribed (manager r.2) x c) /\
   heap r.2 = heap w /\
   ((r.1 = Ok x /\
     exists t, last (trace r.2) = Some (Sent ws (welcome_message x t))) \/
    (exists e t,
       r.1 = Raise e /\
       last (trace r.2) = Some (SendFailed ws (welcome_message x t) e)))).
Proof.
  intros r. subst r. split.
  - intros e He. unfold connect, accept. unfold_m. by rewrite He.
  - intros Hacc. unfold connect, accept, send_text. unfold_m.
    rewrite Hacc. simpl.
    destruct ic as [c|]; [destruct (truthy c) eqn:Hc|]; simpl;
      rewrite ?subscribe_connection_run; simpl;
      rewrite ?lookup_insert_eq; simpl;
      unfold initial_channels; rewrite ?Hc;
      (match goal with |- context [send_result E ?tr ws ?p] =>
         destruct (send_result E tr ws p) end); simpl;
      rewrite ?PyDictFacts.get_set_eq, ?lookup_insert_eq, ?last_snoc;
      split_and!; try done.
    all: try (f_equal; set_solver).
    all: try (by intros c' ?%not_elem_of_empty).
    all: try (intros c' ->%elem_of_singleton;
              eexists; split; [apply lookup_add_subscriber_eq|set_solver]).
    all: unfold welcome_message;
      first [ left; split; [done|by eexists] | right; by eexists _, _ ].
Qed.
Lemma remove_from_connect ws ic x w :
  accept_result E (trace w) ws = None ->
  remove_from x (manager (connect E ws ic x w).2) = remove_from x (manager w).
Proof.
  intros Hacc. rewrite connect_manager, Hacc. simpl.
  destruct ic as [c|]; [destruct (truthy c)|];
    by rewrite ?remove_from_subscribe_effect, remove_from_register_connection.
Qed.

Lemma active_connections_connect ws ic x w :
  accept_result E (trace w) ws = None ->
  active_connections (manager (connect E ws ic x w).2)
    = PyDict.set x ws (active_connections (manager w)).
Proof.
  intros Hacc. rewrite connect_manager, Hacc. simpl.
  by destruct ic as [c|]; [destruct (truthy c)|].
Qed.

(** X10.  A socket that is not yet registered is resolved to the new
    identity once [connect] has registered it, and [disconnect] then
    evicts exactly that identity: when the identity was in no table
    before, the manager is back to what it was before [connect], and the
    socket is unknown again. *)
Theorem connect_disconnect_round_trip ws ic x w :
  accept_result E (trace w) ws = None ->
  find_connection_id ws (active_connections (manager w)) = None ->
  truthy x = true ->
  evicted x (manager w) ->
  no_empty_channel (manager w) ->
  let w1 := (connect E ws ic x w).2 in
  let w2 := (disconnect ws w1).2 in
  find_connection_id ws (active_connections (manager w1)) = Some x /\
  manager w2 = manager w /\
  find_connection_id ws (active_connections (manager w2)) = None.
Proof.
  intros Hacc Hfind Hx Hev Hne w1 w2.
  assert (find_connection_id ws (active_connections (manager w1)) = Some x)
    as Hfind1.
  { subst w1. rewrite active_connections_connect by done.
    by apply find_connection_id_set. }
  assert (manager w2 = manager w) as Hback.
  { subst w2. rewrite disconnect_manager, Hfind1, Hx. subst w1.
    rewrite remove_from_connect by done. by apply remove_from_absent. }
  split_and!; [done|done|by rewrite Hback].
Qed.

End connecting.

Lemma connect_disconnect_round_trip_witness :
  (accept_result sample_env (trace sample_world) 4%nat = None /\
   find_connection_id 4%nat (active_connections (manager sample_world)) = None /\
   truthy "D" = true /\
   evicted "D" (manager sample_world) /\
   no_empty_channel (manager sample_world)) /\
  find_connection_id 4%nat
    (active_connections
       (manager (connect sample_env 4%nat (Some "news") "D" sample_world).2))
    = Some "D" /\
  manager (disconnect 4%nat
             (connect sample_env 4%nat (Some "news") "D" sample_world).2).2
    = manager sample_world.
Proof.
  assert (no_empty_channel (manager sample_world)) as Hne.
  { apply run_no_empty_channel. intros c s Hs. simpl in Hs.
    by rewrite lookup_empty in Hs. }
  assert (evicted "D" (manager sample_world)) as Hev.
  { split_and!; try (vm_compute; reflexivity).
    intros c s Hs Hin.
    assert (subscribed (manager sample_world) "D" c) as Hsub
      by (by exists s).
    assert (consistent (manager sample_world)) as [Hm _].
    { apply guarded_run_consistent; [apply new_manager_consistent|].
      simpl. split_and!; try done; intros [ws Hws]; vm_compute in Hws;
        discriminate Hws. }
    apply Hm in Hsub as (t & Ht & _). vm_compute in Ht. discriminate Ht. }
  assert (find_connection_id 4%nat (active_connections (manager sample_world))
            = None) as Hfind by (vm_compute; reflexivity).
  split; [by split_and!|].
  pose proof (connect_disconnect_round_trip sample_env 4%nat (Some "news")
                "D" sample_world eq_refl Hfind eq_refl Hev Hne) as H.
  cbv zeta in H. destruct H as (H1 & H2 & _). by split.
Defined.


Lemma connect_outcome_witness :
  connect refusing_env 1%nat (Some "news") "A" (initial_world ∅)
    = (Raise RuntimeError, initial_world ∅) /\
  (accept_result dead_env (trace (initial_world ∅)) 1%nat = None /\
   PyDict.get "A"
     (active_connections
        (manager (connect dead_env 1%nat (Some "news") "A"
                    (initial_world ∅)).2)) = Some 1%nat /\
   subscribed
     (manager (connect dead_env 1%nat (Some "news") "A" (initial_world ∅)).2)
     "A" "news").
Proof.
  pose proof (connect_outcome refusing_env 1%nat (Some "news") "A"
                (initial_world ∅)) as H1.
  pose proof (connect_outcome dead_env 1%nat (Some "news") "A"
                (initial_world ∅)) as H2.
  cbv zeta in H1, H2. destruct H1 as [H1 _]. destruct H2 as [_ H2].
  split; [exact (H1 RuntimeError eq_refl)|].
  destruct (H2 eq_refl) as (Hget & _ & _ & Hsub & _).
  split_and!; [done|exact Hget|apply Hsub; set_solver].
Defined.

(** ** Subscribing a socket to a list of channels *)

Section subscribing.
Variable E : Env.
Implicit Types (w : World) (m : Manager) (x y c : string).

Lemma subscribe_each_run x cs : forall w,
  is_Some (connection_channels (manager w) !! x) ->
  exists t,
    subscribe_each x cs w =
      (Ok tt, MkWorld (subscribe_all x cs (manager w)) (heap w) (trace w ++ t)).
Proof.
  induction cs as [|c cs IH]; intros w [chans Hx]; simpl.
  - exists []. rewrite app_nil_r. by destruct w.
  - unfold_m. rewrite subscribe_connection_run. simpl. rewrite Hx. simpl.
    assert (MkManager (active_connections (manager w))
              (add_subscriber x c (channel_subscriptions (manager w)))
              (connection_metadata (manager w))
              (<[x := chans ∪ {[c]}]> (connection_channels (manager w)))
            = subscribe_effect x c (manager w)) as ->
      by (unfold subscribe_effect; by rewrite Hx).
    destruct (IH (MkWorld (subscribe_effect x c (manager w)) (heap w)
                    (trace w ++ [Logged Debug "Connection subscribed to channel"
                                   (Some x)]))) as (t & ->).
    { unfold subscribe_effect; simpl. rewrite Hx, lookup_insert_eq. eauto. }
    simpl. eexists. by rewrite <- app_assoc.
Qed.

Lemma subscribe_all_spec x cs : forall m,
  is_Some (connection_channels m !! x) ->
  active_connections (subscribe_all x cs m) = active_connections m /\
  connection_metadata (subscribe_all x cs m) = connection_metadata m /\
  is_Some (connection_channels (subscribe_all x cs m) !! x) /\
  (forall y c, subscribed (subscribe_all x cs m) y c <->
               subscribed m y c \/ (y = x /\ c ∈ cs)) /\
  (forall y c, joined (subscribe_all x cs m) y c <->
               joined m y c \/ (y = x /\ c ∈ cs)).
Proof.
  induction cs as [|c cs IH]; intros m Hx; simpl.
  - split_and!; try done; intros y c; rewrite elem_of_nil; naive_solver.
  - assert (is_Some (connection_channels (subscribe_effect x c m) !! x)) as Hx'.
    { destruct Hx as [t Ht]. unfold subscribe_effect; simpl.
      rewrite Ht, lookup_insert_eq. eauto. }
    destruct (IH _ Hx') as (Ha & Hmd & Hs & Hsub & Hj).
    split_and!; try done.
    + intros y c'. rewrite Hsub, subscribe_effect_subscribed, elem_of_cons.
      naive_solver.
    + intros y c'. rewrite Hj, subscribe_effect_joined, elem_of_cons by done.
      naive_solver.
Qed.

(** X11.  [subscribe] on a socket the registry does not know logs a
    warning and does nothing else: no channel is joined and no
    confirmation is written.  On a registered socket whose identity has a
    channel set, the identity joins every channel of the list, in both
    indices, and nothing else changes; the confirmation lists the
    channels as they were given, and when it cannot be written [subscribe]
    raises the transport's exception while the subscriptions stay. *)
Theorem subscribe_outcome ws cs w :
  let r := subscribe E ws cs w in
  (find_connection_id ws (active_connections (manager w)) = None ->
   r.1 = Ok tt /\ manager r.2 = manager w /\ heap r.2 = heap w /\
   new_events w r.2 =
     [Logged Warning "Attempted to subscribe unknown WebSocket connection"
        None]) /\
  (forall x,
     find_connection_id ws (active_connections (manager w)) = Some x ->
     truthy x = true ->
     is_Some (connection_channels (manager w) !! x) ->
     active_connections (manager r.2) = active_connections (manager w) /\
     (forall y c, subscribed (manager r.2) y c <->
                  subscribed (manager w) y c \/ (y = x /\ c ∈ cs)) /\
     (forall y c, joined (manager r.2) y c <->
                  joined (manager w) y c \/ (y = x /\ c ∈ cs)) /\
     ((r.1 = Ok tt /\
       exists t, last (trace r.2)
                 = Some (Sent ws (confirmation_message cs t))) \/
      (exists e t,
         r.1 = Raise e /\
         last (trace r.2)
         = Some (SendFailed ws (confirmation_message cs t) e)))).
Proof.
  intros r. subst r. split.
  - intros Hfind. unfold subscribe. unfold_m. rewrite Hfind. simpl.
    split_and!; try done. apply new_events_app.
  - intros x Hfind Hx Hcc. unfold subscribe, send_text. unfold_m.
    rewrite Hfind, Hx.
    destruct (subscribe_each_run x cs w Hcc) as (t & ->). simpl.
    destruct (subscribe_all_spec x cs (manager w) Hcc)
      as (Ha & _ & _ & Hsub & Hj).
    match goal with |- context [send_result E ?tr ws ?p] =>
      destruct (send_result E tr ws p) end; simpl; rewrite last_snoc;
      (split_and!; try done); unfold confirmation_message;
      first [ left; split; [done|by eexists] | right; by eexists _, _ ].
Qed.
End subscribing.

Lemma subscribe_outcome_witness :
  (find_connection_id 9%nat (active_connections (manager sample_world)) = None /\
   manager (subscribe sample_env 9%nat ["news"] sample_world).2
     = manager sample_world) /\
  (find_connection_id 1%nat (active_connections (manager sample_world))
     = Some "A" /\
   forall y c,
     subscribed (manager (subscribe sample_env 1%nat ["news"; "system"]
                            sample_world).2) y c <->
     subscribed (manager sample_world) y c \/
     (y = "A" /\ c ∈ ["news"; "system"])).
Proof.
  pose proof (subscribe_outcome sample_env 9%nat ["news"] sample_world) as H1.
  pose proof (subscribe_outcome sample_env 1%nat ["news"; "system"]
                sample_world) as H2.
  cbv zeta in H1, H2. destruct H1 as [H1 _]. destruct H2 as [_ H2].
  assert (find_connection_id 9%nat (active_connections (manager sample_world))
            = None) as Hf9 by (vm_compute; reflexivity).
  assert (find_connection_id 1%nat (active_connections (manager sample_world))
            = Some "A") as Hf1 by (vm_compute; reflexivity).
  assert (is_Some (connection_channels (manager sample_world) !! "A")) as Hcc
    by (vm_compute; eauto).
  split.
  - split; [exact Hf9|]. by destruct (H1 Hf9) as (_ & Hm & _).
  - split; [exact Hf1|]. by destruct (H2 "A" Hf1 eq_refl Hcc) as (_ & Hs & _).
Defined.

(** ** More on one broadcast *)

Section broadcast_more.
Variable E : Env.
Implicit Types (w : World) (m : Manager) (x y c : string).

Lemma broadcast_result ch msg ex w s d :
  channel_subscriptions (manager w) !! ch = Some s ->
  heap w !! msg = Some (JObj d) ->
  (broadcast_to_channel E ch msg ex w).1 =
    match channel_subscriptions
            (manager (broadcast_to_channel E ch msg ex w).2) !! ch with
    | None => Raise KeyError
    | Some _ => Ok PyNone
    end.
Proof.
  intros Hs Hd. unfold broadcast_to_channel, message_update. unfold_m.
  rewrite Hs, Hd.
  match goal with |- context [fan_out E ?ids ?ex' ?p' ?w1] =>
    destruct (fan_out_spec E ids ex' p' w1) as (failed & t & Hrun & _)
  end.
  rewrite Hrun. simpl. rewrite remove_all_run. simpl.
  match goal with |- context [channel_subscriptions ?m' !! ch] =>
    destruct (channel_subscriptions m' !! ch) eqn:Hch end; simpl;
    by rewrite Hch.
Qed.

Lemma evict_all_channel_nonempty failed ch : forall m,
  (forall s, channel_subscriptions m !! ch = Some s -> s ≠ ∅) ->
  forall s', channel_subscriptions (evict_all failed m) !! ch = Some s' ->
             s' ≠ ∅.
Proof.
  induction failed as [|x failed IH]; intros m Hm s' Hs'; [by eapply Hm|].
  simpl in Hs'. eapply IH; [|exact Hs'].
  intros s0 Hs0. apply remove_from_subscribers in Hs0.
  by destruct Hs0 as (? & _ & _ & ?).
Qed.

Lemma removal_log_in_events failed t tail x :
  Forall (fun e => ¬ is_removal e) t ->
  (tail = [] \/ tail = [Logged Debug "Message broadcasted to channel" None]) ->
  removal_log x ∈ t ++ (removal_log <$> failed) ++ tail <-> x ∈ failed.
Proof.
  intros Ht Htail. rewrite !elem_of_app, list_elem_of_fmap. split.
  - intros [Hin|[(y & [= ->] & Hy)|Hin]]; [|done|].
    + rewrite Forall_forall in Ht. by destruct (Ht _ Hin).
    + destruct Htail as [-> | ->]; [by apply elem_of_nil in Hin|].
      by apply list_elem_of_singleton in Hin.
  - intros Hx. right. left. eauto.
Qed.

End broadcast_more.


Section broadcast_payloads.
Variable E : Env.
Implicit Types (w : World) (m : Manager) (x y c : string).

Lemma carries_app p t1 t2 : carries p t1 -> carries p t2 -> carries p (t1 ++ t2).
Proof. intros H1 H2 e [?|?]%elem_of_app; [by apply H1|by apply H2]. Qed.

Lemma carries_removal_logs p failed : carries p (removal_log <$> failed).
Proof. intros e (x & -> & _)%list_elem_of_fmap. done. Qed.

Lemma fan_out_carries ids ex p : forall w,
  carries p (new_events w (fan_out E ids ex p w).2).
Proof.
  induction ids as [|x ids IH]; intros w.
  - simpl. rewrite new_events_refl. by intros e ?%elem_of_nil.
  - simpl. destruct (decide (Some x = ex)); [apply IH|]. unfold_m.
    destruct (PyDict.get x (active_connections (manager w))) as [ws|];
      [|apply IH].
    unfold send_text. unfold_m.
    destruct (send_result E (trace w) ws p) as [e|]; simpl.
    + match goal with |- context [fan_out E ids ex p ?w1] =>
        pose proof (IH w1) as Hc;
        destruct (fan_out_spec E ids ex p w1) as (failed & t & Hrun & _) end.
      rewrite Hrun in *. simpl in *. rewrite new_events_app in Hc.
      rewrite <- !app_assoc, new_events_app. simpl.
      intros e0 [->|[->|Hin]%elem_of_cons]%elem_of_cons; [done|done|by apply Hc].
    + match goal with |- context [fan_out E ids ex p ?w1] =>
        pose proof (IH w1) as Hc;
        destruct (fan_out_spec E ids ex p w1) as (failed & t & Hrun & _) end.
      rewrite Hrun in *. simpl in *. rewrite new_events_app in Hc.
      rewrite <- !app_assoc, new_events_app. simpl.
      intros e0 [->|Hin]%elem_of_cons; [done|by apply Hc].
Qed.

Lemma recipients_keys_unique conns ids ex :
  NoDup ids -> NoDup (recipients conns ids ex).*1.
Proof.
  induction ids as [|x ids IH]; intros Hids; simpl; [constructor|].
  apply NoDup_cons in Hids as [Hx Hids].
  destruct (decide (Some x = ex)); [by apply IH|].
  destruct (PyDict.get x conns) as [ws|]; [|by apply IH].
  simpl. apply NoDup_cons. split; [|by apply IH].
  intros ([y ws'] & -> & Hin)%list_elem_of_fmap.
  apply elem_of_recipients in Hin as (Hin & _). done.
Qed.


Lemma fan_out_reliable ids ex p :
  reliable E -> forall w, (fan_out E ids ex p w).1 = Ok [].
Proof.
  intros Hrel. induction ids as [|x ids IH]; intros w; [done|].
  simpl. destruct (decide (Some x = ex)); [apply IH|]. unfold_m.
  destruct (PyDict.get x (active_connections (manager w))) as [ws|];
    [|apply IH].
  unfold send_text. unfold_m. rewrite Hrel. simpl.
  match goal with |- context [fan_out E ids ex p ?w1] =>
    pose proof (IH w1) as Hc; destruct (fan_out E ids ex p w1) as [r w2] end.
  simpl in Hc. by subst r.
Qed.

Lemma reliable_broadcast_dict w msg d ch ex :
  reliable E ->
  heap w !! msg = Some (JObj d) ->
  (broadcast_to_channel E ch msg ex w).1 = Ok PyNone /\
  manager (broadcast_to_channel E ch msg ex w).2 = manager w.
Proof.
  intros Hrel Hd.
  destruct (channel_subscriptions (manager w) !! ch) as [s|] eqn:Hs;
    [|by rewrite broadcast_absent].
  unfold broadcast_to_channel, message_update. unfold_m. rewrite Hs, Hd.
  match goal with |- context [fan_out E ?ids ?ex' ?p' ?w1] =>
    pose proof (fan_out_reliable ids ex' p' Hrel w1) as Hf;
    destruct (fan_out_spec E ids ex' p' w1) as (failed & t & Hrun & _)
  end.
  rewrite Hrun in *. simpl in Hf. injection Hf as ->. simpl. by rewrite Hs.
Qed.


End broadcast_payloads.




(** ** Statistics *)

Section statistics.
Implicit Types (w : World) (m : Manager) (x y c : string).

(** X16.  After any sequence of calls, [get_connection_stats] reports no
    channel with a count of zero, each count being the size of the
    channel's subscriber set, and lists the channels of exactly the
    registered connections; evicting a registered connection lowers
    [total_connections] by one, and a [connect] with an identity not in
    use raises it by one. *)
Theorem connection_stats_of_reachable E w :
  reachable E w ->
  let st := get_connection_stats (manager w) in
  (forall c n, channel_stats st !! c = Some n ->
     (1 <= n)%nat /\
     exists s, channel_subscriptions (manager w) !! c = Some s /\ n = size s) /\
  (forall x, is_Some (connections_by_channel st !! x) <->
             registered x (manager w)) /\
  (forall x, registered x (manager w) ->
     S (total_connections
          (get_connection_stats (manager (_remove_connection x w).2)))
     = total_connections st) /\
  (forall ws ic x,
     accept_result E (trace w) ws = None -> ¬ registered x (manager w) ->
     total_connections
       (get_connection_stats (manager (connect E ws ic x w).2))
     = S (total_connections st)).
Proof.
  intros Hw st. subst st. simpl.
  pose proof (run_tables_aligned E w Hw) as Hal.
  pose proof (run_registry_keys_unique E w Hw) as Huniq.
  assert (no_empty_channel (manager w)) as Hne.
  { destruct Hw as (h & ops & ->). apply run_no_empty_channel.
    intros c s Hs. simpl in Hs. by rewrite lookup_empty in Hs. }
  split_and!.
  - intros c n. rewrite lookup_fmap, fmap_Some. intros (s & Hs & ->).
    split; [|eauto]. specialize (Hne c s Hs).
    destruct (decide (size s = 0%nat)) as [H0|]; [|lia].
    apply size_empty_iff in H0. exfalso. apply Hne. by apply leibniz_equiv.
  - intros x. rewrite lookup_fmap, fmap_is_Some. symmetry. apply Hal.
  - intros x Hx. by apply length_del_present.
  - intros ws ic x Hacc Hx. rewrite active_connections_connect by done.
    apply length_set_absent. by apply eq_None_not_Some.
Qed.
End statistics.

Lemma connection_stats_of_reachable_witness :
  reachable sample_env sample_world /\
  (forall c n,
     channel_stats (get_connection_stats (manager sample_world)) !! c = Some n ->
     (1 <= n)%nat /\
     exists s, channel_subscriptions (manager sample_world) !! c = Some s /\
               n = size s).
Proof.
  assert (reachable sample_env sample_world) as Hr
    by (eexists _, _; reflexivity).
  split; [exact Hr|].
  pose proof (connection_stats_of_reachable sample_env sample_world Hr) as H.
  cbv zeta in H. by destruct H as (H & _).
Defined.

(** ** Connections last until they are disconnected *)

Section persistence.
Variable E : Env.
Hypothesis Hrel : reliable E.
Implicit Types (w : World) (m : Manager) (x y c : string).

Lemma reliable_broadcast_manager ch msg ex w :
  manager (broadcast_to_channel E ch msg ex w).2 = manager w.
Proof.
  destruct (channel_subscriptions (manager w) !! ch) as [s|] eqn:Hs;
    [|by rewrite broadcast_absent].
  destruct (heap w !! msg) as [j|] eqn:Hj.
  - destruct j as [| | | | |d];
      try (erewrite broadcast_not_dict; [done|eauto|congruence]).
    by apply (reliable_broadcast_dict E w msg d ch ex Hrel Hj).
  - erewrite broadcast_not_dict; [done|eauto|congruence].
Qed.

Lemma reliable_send_manager x msg w :
  manager (send_to_connection E x msg w).2 = manager w.
Proof.
  unfold send_to_connection, message_update, send_text. unfold_m.
  destruct (PyDict.get x _) as [ws|]; [|done].
  destruct (heap w !! msg) as [[| | | | |d]|]; simpl; try done.
  by rewrite Hrel.
Qed.

Lemma reliable_step_registered o w x :
  match o with
  | OpDisconnect _ | OpDisconnectById _ => False
  | _ => True
  end ->
  registered x (manager w) -> registered x (manager (step E o w)).
Proof.
  intros Ho Hx.
  destruct o as [ws ic y|ws|y|y c|y c|ws cs|c msg ex|y msg]; simpl;
    try done.
  - destruct (accept_result E (trace w) ws) as [e|] eqn:Hacc.
    + by rewrite connect_manager, Hacc.
    + unfold registered. rewrite active_connections_connect by done.
      destruct (decide (y = x)) as [->|Hne].
      * rewrite PyDictFacts.get_set_eq. eauto.
      * by rewrite PyDictFacts.get_set_ne.
  - by rewrite subscribe_connection_manager.
  - rewrite subscribe_manager.
    destruct (find_connection_id ws _) as [y|]; [|done].
    destruct (truthy y); [|done].
    by apply (subscribe_each_inv (fun m => registered x m)).
  - by rewrite reliable_broadcast_manager.
  - by rewrite reliable_send_manager.
Qed.

End persistence.


(** ** The status publisher *)

Section status_publisher.
Variable E : Env.
Implicit Types (w : World) (m : Manager) (x y c : string).

(** The world the broadcast of a turn starts from. *)
Lemma status_cycle_unfold w :
  let r0 := fresh (dom (heap w)) in
  let w1 := MkWorld (manager w)
              (<[r0 := status_message (manager w) (utcnow E (trace w))]>
                 (heap w))
              (trace w) in
  status_cycle E w =
    match broadcast_to_channel E "system" r0 None w1 with
    | (Ok _, w2) => (Ok 30%nat, w2)
    | (Raise e, w2) =>
        (Ok 60%nat,
         MkWorld (manager w2) (heap w2)
           (trace w2 ++ [Logged Error "Error in system status broadcast" None]))
    end.
Proof.
  intros r0 w1. unfold status_cycle, alloc. unfold_m. fold r0. fold w1.
  by destruct (broadcast_to_channel E "system" r0 None w1) as [[v|e] w2].
Qed.

(** A turn ends in a sleep, and its manager is the one it found without
    the identities its broadcast evicted. *)
Lemma status_cycle_manager w :
  ((status_cycle E w).1 = Ok 30%nat \/ (status_cycle E w).1 = Ok 60%nat) /\
  exists failed, manager (status_cycle E w).2 = evict_all failed (manager w).
Proof.
  rewrite status_cycle_unfold. cbv zeta.
  set (r0 := fresh (dom (heap w))).
  set (w1 := MkWorld (manager w) _ (trace w)).
  destruct (broadcast_manager E "system" r0 None w1) as (failed & Hm).
  split.
  - by destruct (broadcast_to_channel E "system" r0 None w1) as [[v|e] w2];
      auto.
  - exists failed.
    by destruct (broadcast_to_channel E "system" r0 None w1) as [[v|e] w2].
Qed.

(** X18.  A turn of the status loop never raises: it ends in a sleep of
    30 or of 60.  With no subscriber of ["system"] it writes nothing,
    changes nothing in the manager and sleeps 30.  With subscribers it
    sleeps 60, after logging an error, exactly when this turn's broadcast
    evicted the last of them and the channel went with it.  The manager
    it leaves is the one it found without the identities it evicted. *)
Theorem status_cycle_outcome w :
  let r := status_cycle E w in
  (r.1 = Ok 30%nat \/ r.1 = Ok 60%nat) /\
  (exists failed, manager r.2 = evict_all failed (manager w)) /\
  (channel_subscriptions (manager w) !! "system" = None ->
   r.1 = Ok 30%nat /\ manager r.2 = manager w /\ new_events w r.2 = []) /\
  (forall s,
     channel_subscriptions (manager w) !! "system" = Some s -> s ≠ ∅ ->
     (r.1 = Ok 60%nat <->
      channel_subscriptions (manager r.2) !! "system" = None) /\
     (r.1 = Ok 60%nat ->
      last (trace r.2)
      = Some (Logged Error "Error in system status broadcast" None))).
Proof.
  intros r. subst r. rewrite status_cycle_unfold. cbv zeta.
  set (r0 := fresh (dom (heap w))).
  set (w1 := MkWorld (manager w) _ (trace w)).
  assert (heap w1 !! r0
          = Some (JObj [("type", JStr "system_status");
                        ("data",
                         JObj [("active_connections",
                                JNum (Z.of_nat
                                        (length (active_connections (manager w)))));
                               ("active_channels",
                                JNum (Z.of_nat
                                        (size (channel_subscriptions (manager w)))));
                               ("server_time", JStr (utcnow E (trace w)))])]))
    as Hd by (subst w1; simpl; by rewrite lookup_insert_eq).
  split_and!.
  - by destruct (broadcast_to_channel E "system" r0 None w1) as [[v|e] w2];
      auto.
  - destruct (broadcast_manager E "system" r0 None w1) as (failed & Hm).
    exists failed.
    by destruct (broadcast_to_channel E "system" r0 None w1) as [[v|e] w2].
  - intros Hnone. rewrite broadcast_absent by done. simpl.
    split_and!; try done. unfold new_events. simpl. by rewrite drop_all.
  - intros s Hs Hne.
    pose proof (broadcast_result E "system" r0 None w1 s _ Hs Hd) as Hres.
    destruct (broadcast_to_channel E "system" r0 None w1) as [[v|e] w2];
      simpl in *.
    + split; [|done]. split; [done|]. intros Hnone. by rewrite Hnone in Hres.
    + split; [|by rewrite last_snoc].
      split; [|done]. intros _.
      by destruct (channel_subscriptions (manager w2) !! "system").
Qed.

(** X19.  However many turns the status loop takes, it never raises:
    each turn ends in a sleep of 30 or 60, and what the turns evicted
    apart, the manager is untouched, so that it still has no empty
    channel and its indices still agree. *)
Theorem broadcast_system_status_never_raises turns w :
  exists ds failed,
    (broadcast_system_status E turns w).1 = Ok ds /\
    length ds = turns /\
    Forall (fun d => d = 30%nat \/ d = 60%nat) ds /\
    manager (broadcast_system_status E turns w).2
      = evict_all failed (manager w) /\
    (no_empty_channel (manager w) ->
     no_empty_channel (manager (broadcast_system_status E turns w).2)) /\
    (consistent (manager w) ->
     consistent (manager (broadcast_system_status E turns w).2)).
Proof.
  assert (exists ds failed,
            (broadcast_system_status E turns w).1 = Ok ds /\
            length ds = turns /\
            Forall (fun d => d = 30%nat \/ d = 60%nat) ds /\
            manager (broadcast_system_status E turns w).2
              = evict_all failed (manager w)) as (ds & failed & H1 & H2 & H3 & H4).
  { revert w. induction turns as [|n IH]; intros w.
    - exists [], []. by split_and!.
    - simpl. unfold_m.
      destruct (status_cycle_manager w) as (Hd & (f1 & Hm1)).
      destruct (status_cycle E w) as [[d|e] w1]; simpl in *;
        [|by destruct Hd].
      destruct (IH w1) as (ds & f2 & Hds & Hlen & Hall & Hm2).
      destruct (broadcast_system_status E n w1) as [[ds'|e] w2]; simpl in *;
        [|done].
      injection Hds as ->.
      exists (d :: ds), (f1 ++ f2). split_and!; try done.
      + simpl. by rewrite Hlen.
      + constructor; [|done]. destruct Hd as [[= ->]|[= ->]]; auto.
      + rewrite Hm2, Hm1. unfold evict_all. by rewrite fold_left_app. }
  exists ds, failed. split_and!; try done.
  - intros Hne. rewrite H4. by apply evict_all_no_empty_channel.
  - intros Hc. rewrite H4. by apply evict_all_consistent.
Qed.
End status_publisher.

Lemma status_cycle_outcome_witness :
  (channel_subscriptions (manager sample_world) !! "system" = None /\
   (status_cycle sample_env sample_world).1 = Ok 30%nat /\
   manager (status_cycle sample_env sample_world).2 = manager sample_world) /\
  (channel_subscriptions
     (manager (run sample_env [OpSubscribeConnection "B" "system"]
                 sample_world)) !! "system" = Some {["B"]} /\
   ((status_cycle sample_env
       (run sample_env [OpSubscribeConnection "B" "system"] sample_world)).1
      = Ok 60%nat <->
    channel_subscriptions
      (manager (status_cycle sample_env
                  (run sample_env [OpSubscribeConnection "B" "system"]
                     sample_world)).2) !! "system" = None)).
Proof.
  pose proof (status_cycle_outcome sample_env sample_world) as H1.
  pose proof (status_cycle_outcome sample_env
                (run sample_env [OpSubscribeConnection "B" "system"]
                   sample_world)) as H2.
  cbv zeta in H1, H2.
  destruct H1 as (_ & _ & H1 & _). destruct H2 as (_ & _ & _ & H2).
  assert (channel_subscriptions (manager sample_world) !! "system" = None)
    as Hnone by (vm_compute; reflexivity).
  assert (channel_subscriptions
            (manager (run sample_env [OpSubscribeConnection "B" "system"]
                        sample_world)) !! "system" = Some {["B"]}) as Hs
    by (vm_compute; reflexivity).
  assert (({["B"]} : gset string) ≠ ∅) as Hne
    by (intros Heq; by apply (non_empty_singleton_L (C:=gset string) "B")).
  split.
  - split; [exact Hnone|].
    exact (conj (proj1 (H1 Hnone)) (proj1 (proj2 (H1 Hnone)))).
  - split; [exact Hs|]. exact (proj1 (H2 _ Hs Hne)).
Defined.

(** ** The endpoints *)

Section endpoint_handlers.
Variable E : Env.
Implicit Types (w : World) (m : Manager) (x y c : string).
Implicit Types (inbound : list recv) (f : frame).

Lemma connect_accepted ws ic x w v :
  (connect E ws ic x w).1 = Ok v -> accept_result E (trace w) ws = None.
Proof.
  intros Hc. destruct (accept_result E (trace w) ws) as [e|] eqn:Ha; [|done].
  unfold connect, accept in Hc. unfold_m. by rewrite Ha in Hc.
Qed.

(** A frame handled on [/ws] leaves the registry as it is. *)
Lemma websocket_endpoint_body_registry ws f b w :
  websocket_endpoint_body E ws f = Some b ->
  active_connections (manager (b w).2) = active_connections (manager w).
Proof.
  assert (forall cs,
            active_connections (manager (subscribe E ws cs w).2)
            = active_connections (manager w)) as Hsub.
  { intros cs. rewrite subscribe_manager.
    destruct (find_connection_id ws _) as [x|]; [|done].
    destruct (truthy x); [|done].
    by apply (subscribe_each_inv
                (fun m => active_connections m
                          = active_connections (manager w))). }
  intros Hb. unfold websocket_endpoint_body in Hb.
  repeat case_match; simplify_eq; try done;
    try apply fmap_Some in Hb as (cs & _ & ->);
    first [apply Hsub | by rewrite send_text_manager].
Qed.

Lemma receive_loop_registry ws inbound : forall k w,
  receive_loop (websocket_endpoint_body E ws) inbound = Some k ->
  active_connections (manager (k w).2) = active_connections (manager w) /\
  (k w).1 ≠ Ok Finished.
Proof.
  induction inbound as [|[f|e] inbound IH]; intros k w Hk; simpl in Hk.
  - by injection Hk as <-.
  - destruct (websocket_endpoint_body E ws f) as [b|] eqn:Hb; [|done].
    destruct (receive_loop _ inbound) as [k0|]; [|done].
    injection Hk as <-. unfold_m.
    pose proof (websocket_endpoint_body_registry ws f b w Hb) as Hreg.
    destruct (b w) as [[[]|e] w1]; simpl in *; [|done].
    destruct (IH k0 w1 eq_refl) as [H1 H2]. split; [congruence|done].
  - by injection Hk as <-.
Qed.

(** X20.  Once [connect] has gone through on a socket that was not yet
    registered, the handler of [/ws] never raises, whatever the frames
    the client sends (those of the model: the [channels] of a frame, when
    given, is a list of strings) and whatever the transport does.  Either
    it is waiting for the next frame with the connection registered, or
    it has returned and the connection is evicted: the registry is the
    one found at the start without the identity, and the socket is
    unknown again. *)
Theorem websocket_endpoint_outcome ws x inbound h w :
  websocket_endpoint E ws x inbound = Some h ->
  (connect E ws None x w).1 = Ok x ->
  truthy x = true ->
  find_connection_id ws (active_connections (manager w)) = None ->
  ((h w).1 = Ok Waiting /\
   PyDict.get x (active_connections (manager (h w).2)) = Some ws) \/
  ((h w).1 = Ok Finished /\
   evicted x (manager (h w).2) /\
   active_connections (manager (h w).2)
     = PyDict.del x (active_connections (manager w)) /\
   find_connection_id ws (active_connections (manager (h w).2)) = None).
Proof.
  intros Hh Hc Hx Hfind. unfold websocket_endpoint in Hh.
  apply fmap_Some in Hh as (loop & Hloop & ->).
  pose proof (connect_accepted ws None x w x Hc) as Hacc.
  pose proof (active_connections_connect E ws None x w Hacc) as Hconns.
  unfold_m.
  destruct (connect E ws None x w) as [[y|e] wc]; simpl in *; [|done].
  destruct (receive_loop_registry ws inbound loop wc Hloop) as [Hreg Hnf].
  destruct (loop wc) as [[st|e] w2]; simpl in *.
  - left. destruct st; [|done]. split; [done|].
    rewrite Hreg, Hconns. apply PyDictFacts.get_set_eq.
  - right.
    assert (forall t,
              manager (disconnect ws (MkWorld (manager w2) (heap w2) t)).2
              = remove_from x (manager w2)) as Hd.
    { intros t. rewrite disconnect_manager. simpl.
      rewrite Hreg, Hconns, find_connection_id_set, Hx; done. }
    assert (forall t,
              let w3 := (disconnect ws (MkWorld (manager w2) (heap w2) t)).2 in
              evicted x (manager w3) /\
              active_connections (manager w3)
                = PyDict.del x (active_connections (manager w)) /\
              find_connection_id ws (active_connections (manager w3)) = None)
      as Hout.
    { intros t w3. subst w3. rewrite Hd. split_and!.
      - apply remove_from_evicted.
      - simpl. by rewrite Hreg, Hconns, del_set.
      - simpl. rewrite Hreg, Hconns, del_set.
        by apply find_connection_id_del. }
    destruct w2 as [m2 h2 t2]; simpl in *.
    destruct e;
      match goal with |- context [disconnect ws ?w0] =>
        rewrite (disconnect_run ws w0); simpl; split; [done|];
        apply (Hout (trace w0)) end.
Qed.

Lemma find_connection_id_del_ne ws x y conns :
  find_connection_id ws conns = Some x -> y ≠ x ->
  find_connection_id ws (PyDict.del y conns) = Some x.
Proof.
  intros Hf Hne. induction conns as [|[k v] conns IH]; simpl in *; [done|].
  destruct (decide (v = ws)) as [->|Hv].
  - injection Hf as ->. rewrite decide_False by done. simpl.
    by rewrite decide_True.
  - destruct (decide (k = y)); simpl; [by apply IH|].
    rewrite decide_False by done. by apply IH.
Qed.

Lemma evict_all_attached ws x c failed : forall m,
  x ∉ failed -> attached ws x c m -> attached ws x c (evict_all failed m).
Proof.
  induction failed as [|y failed IH]; intros m Hx Hm; [done|].
  apply not_elem_of_cons in Hx as [Hne Hx]. simpl. apply IH; [done|].
  destruct Hm as (Hget & Hfind & Hsub). split_and!; simpl.
  - by rewrite PyDictFacts.get_del_ne.
  - by apply find_connection_id_del_ne.
  - apply remove_from_subscribed. by split.
Qed.

(** The identity a broadcast excludes is not among those it evicts. *)
Lemma broadcast_excluded_not_failed ch msg ws x w :
  find_connection_id ws (active_connections (manager w)) = Some x ->
  exists failed,
    manager (broadcast_to_channel E ch msg (Some ws) w).2
      = evict_all failed (manager w) /\
    x ∉ failed.
Proof.
  intros Hfind.
  assert (x ∉ ([] : list string)) as Hnil by apply not_elem_of_nil.
  destruct (channel_subscriptions (manager w) !! ch) as [s|] eqn:Hs;
    [|exists []; by rewrite broadcast_absent].
  destruct (heap w !! msg) as [v|] eqn:Hv.
  - destruct v as [| | | | |d];
      try (exists []; erewrite broadcast_not_dict; eauto; congruence).
    destruct (broadcast_spec E ch msg (Some ws) w s d Hs Hv)
      as (failed & t & tail & res & Hrun & _ & _ & _ & Hf & _).
    exists failed. rewrite Hrun. split; [done|]. intros Hx.
    destruct (Hf x Hx) as (ws' & e & Hin & _).
    apply elem_of_recipients in Hin as (_ & Hex & _).
    simpl in Hex. by rewrite Hfind in Hex.
  - exists []. erewrite broadcast_not_dict; eauto. congruence.
Qed.

(** A frame handled on [/ws/workflow/{workflow_id}] leaves the sender
    attached, and raises nothing but what an unparseable frame or a
    payload that is not an object raises. *)
Lemma workflow_websocket_body_attached ws x c f w :
  attached ws x c (manager w) ->
  attached ws x c (manager (workflow_websocket_body E ws c f w).2) /\
  ((workflow_websocket_body E ws c f w).1 = Ok tt \/
   (workflow_websocket_body E ws c f w).1 = Raise JSONDecodeError \/
   (workflow_websocket_body E ws c f w).1 = Raise AttributeError).
Proof.
  intros Ha. destruct f as [data|v]; simpl; [by auto|].
  unfold alloc. unfold_m.
  set (r0 := fresh (dom (heap w))).
  set (w1 := MkWorld (manager w) (<[r0 := v]> (heap w)) (trace w)).
  assert (heap w1 !! r0 = Some v) as Hv
    by (subst w1; simpl; by rewrite lookup_insert_eq).
  destruct Ha as (Hget & Hfind & Hsub).
  destruct (broadcast_excluded_not_failed c r0 ws x w1 Hfind)
    as (failed & Hm & Hx).
  assert (attached ws x c
            (manager (broadcast_to_channel E c r0 (Some ws) w1).2)) as Ha'.
  { rewrite Hm. by apply evict_all_attached. }
  destruct Hsub as (s & Hs & Hin).
  assert ((broadcast_to_channel E c r0 (Some ws) w1).1 = Ok PyNone \/
          (broadcast_to_channel E c r0 (Some ws) w1).1 = Raise AttributeError)
    as Hres.
  { destruct v as [| | | | |d];
      try (right; erewrite broadcast_not_dict; eauto; congruence).
    left. rewrite (broadcast_result E c r0 (Some ws) w1 s d Hs Hv).
    destruct Ha' as (_ & _ & (s' & -> & _)). done. }
  destruct (broadcast_to_channel E c r0 (Some ws) w1) as [[res|e] w2];
    simpl in *; split; try done.
  - by left.
  - destruct Hres as [Hres|Hres]; [done|]. injection Hres as ->. auto.
Qed.

Lemma workflow_loop_attached ws x c inbound : forall w,
  attached ws x c (manager w) ->
  attached ws x c (manager (workflow_loop E ws c inbound w).2) /\
  ((workflow_loop E ws c inbound w).1 = Ok Waiting \/
   exists e, (workflow_loop E ws c inbound w).1 = Raise e /\
             (e = JSONDecodeError \/ e = AttributeError \/
              Closed e ∈ inbound)).
Proof.
  induction inbound as [|[f|e] inbound IH]; intros w Ha; simpl.
  - split; [done|by left].
  - unfold_m.
    destruct (workflow_websocket_body_attached ws x c f w Ha) as [Ha' Hres].
    destruct (workflow_websocket_body E ws c f w) as [[[]|e] w1]; simpl in *.
    + destruct (IH w1 Ha') as [Ha2 Hres2]. split; [done|].
      destruct Hres2 as [?|(e & ? & He)]; [by left|right].
      exists e. split; [done|].
      destruct He as [?|[?|?]]; auto. do 2 right. apply elem_of_cons; by right.
    + split; [done|]. right. exists e. split; [done|].
      destruct Hres as [?|[[= ->]|[= ->]]]; auto. done.
  - split; [done|]. right. exists e. split; [done|].
    do 2 right. apply elem_of_cons; by left.
Qed.

Lemma connect_attached ws c x w :
  accept_result E (trace w) ws = None ->
  truthy c = true ->
  find_connection_id ws (active_connections (manager w)) = None ->
  attached ws x c (manager (connect E ws (Some c) x w).2).
Proof.
  intros Hacc Hc Hfind. split_and!.
  - rewrite active_connections_connect by done.
    apply PyDictFacts.get_set_eq.
  - rewrite active_connections_connect by done.
    by apply find_connection_id_set.
  - rewrite connect_manager, Hacc. simpl. rewrite Hc.
    apply subscribe_effect_subscribed. by right.
Qed.

Lemma workflow_handler_outcome ws c x inbound w :
  let r := (connect E ws (Some c) x;;
            try_except (workflow_loop E ws c inbound)
              (fun e =>
                 match e with
                 | WebSocketDisconnect => disconnect ws;; ret Finished
                 | _ => raise e
                 end)) w in
  truthy c = true ->
  (connect E ws (Some c) x w).1 = Ok x ->
  truthy x = true ->
  find_connection_id ws (active_connections (manager w)) = None ->
  (r.1 = Ok Finished /\
   Closed WebSocketDisconnect ∈ inbound /\
   evicted x (manager r.2)) \/
  ((r.1 = Ok Waiting \/
    exists e, r.1 = Raise e /\ e ≠ WebSocketDisconnect /\
              (e = JSONDecodeError \/ e = AttributeError \/
               Closed e ∈ inbound)) /\
   attached ws x c (manager r.2)).
Proof.
  intros r Hc Hconn Hx Hfind. subst r.
  pose proof (connect_accepted ws (Some c) x w x Hconn) as Hacc.
  pose proof (connect_attached ws c x w Hacc Hc Hfind) as Ha.
  unfold_m.
  destruct (connect E ws (Some c) x w) as [[y|e] wc]; simpl in *; [|done].
  destruct (workflow_loop_attached ws x c inbound wc Ha) as [Ha' Hres].
  destruct (workflow_loop E ws c inbound wc) as [[st|e] w2]; simpl in *.
  - right. split; [|done]. left.
    by destruct Hres as [?|(e & ? & _)].
  - destruct Hres as [?|(e' & [= <-] & He)]; [done|].
    destruct e; try (right; split; [right; eexists; by split_and!|done]).
    left. rewrite (disconnect_run ws w2). simpl.
    split_and!; [done|by destruct He as [?|[?|?]]|].
    rewrite disconnect_manager.
    destruct Ha' as (_ & -> & _). rewrite Hx. apply remove_from_evicted.
Qed.

(** X21.  The handler of [/ws/workflow/{workflow_id}] cleans up in one
    case only: when [receive_text] raises [WebSocketDisconnect].  Then it
    returns and the connection is evicted.  In every other case (it waits
    for the next frame, or a frame that is not JSON, a payload that is
    not an object or another exception of [receive_text] has left the
    handler) the socket is still registered under its identity and the
    identity is still a subscriber of the workflow's channel: its own
    broadcasts never evict it.  An exception that leaves the handler is
    [JSONDecodeError], [AttributeError] or one that [receive_text]
    raised. *)
Theorem workflow_websocket_outcome ws wid x inbound w :
  let c := "workflow:" +:+ wid in
  let r := workflow_websocket E ws wid x inbound w in
  (connect E ws (Some c) x w).1 = Ok x ->
  truthy x = true ->
  find_connection_id ws (active_connections (manager w)) = None ->
  (r.1 = Ok Finished /\
   Closed WebSocketDisconnect ∈ inbound /\
   evicted x (manager r.2)) \/
  ((r.1 = Ok Waiting \/
    exists e, r.1 = Raise e /\ e ≠ WebSocketDisconnect /\
              (e = JSONDecodeError \/ e = AttributeError \/
               Closed e ∈ inbound)) /\
   attached ws x c (manager r.2)).
Proof.
  intros c r Hconn Hx Hfind.
  by apply (workflow_handler_outcome ws c x inbound w).
Qed.

(** X22.  Neither handler guards [connect]: when the handshake goes
    through and the welcome message cannot be written, the exception
    leaves the handler, and the connection stays in the registry (and, on
    the workflow endpoint, in the channel) with nobody left to
    disconnect it. *)
Theorem failed_welcome_leaves_connection ws x wid inbound w e :
  accept_result E (trace w) ws = None ->
  (forall h,
     websocket_endpoint E ws x inbound = Some h ->
     (connect E ws None x w).1 = Raise e ->
     (h w).1 = Raise e /\
     PyDict.get x (active_connections (manager (h w).2)) = Some ws) /\
  ((connect E ws (Some ("workflow:" +:+ wid)) x w).1 = Raise e ->
   (workflow_websocket E ws wid x inbound w).1 = Raise e /\
   PyDict.get x
     (active_connections
        (manager (workflow_websocket E ws wid x inbound w).2)) = Some ws /\
   subscribed (manager (workflow_websocket E ws wid x inbound w).2) x
     ("workflow:" +:+ wid)).
Proof.
  intros Hacc. split.
  - intros h Hh Hc. unfold websocket_endpoint in Hh.
    apply fmap_Some in Hh as (loop & Hloop & ->).
    pose proof (active_connections_connect E ws None x w Hacc) as Hconns.
    unfold_m.
    destruct (connect E ws None x w) as [[y|e'] wc]; simpl in *; [done|].
    injection Hc as ->.
    split; [done|]. rewrite Hconns. apply PyDictFacts.get_set_eq.
  - intros Hc. unfold workflow_websocket. cbv zeta.
    set (c := "workflow:" +:+ wid) in *.
    pose proof (active_connections_connect E ws (Some c) x w Hacc) as Hconns.
    pose proof (connect_manager E ws (Some c) x w) as Hm.
    rewrite Hacc in Hm. simpl in Hm.
    assert (truthy c = true) as Htc by done.
    try rewrite Htc in Hm.
    unfold mbind, M_bind, bind.
    destruct (connect E ws (Some c) x w) as [[y|e'] wc]; simpl in *; [done|].
    injection Hc as ->.
    split_and!; [done| |].
    + rewrite Hconns. apply PyDictFacts.get_set_eq.
    + rewrite Hm. apply subscribe_effect_subscribed. by right.
Qed.
End endpoint_handlers.

Lemma websocket_endpoint_outcome_witness :
  exists h,
    (websocket_endpoint sample_env 1%nat "A"
       [sample_subscribe; Closed WebSocketDisconnect] = Some h /\
     (connect sample_env 1%nat None "A" (initial_world ∅)).1 = Ok "A" /\
     truthy "A" = true /\
     find_connection_id 1%nat
       (active_connections (manager (initial_world ∅))) = None) /\
    (h (initial_world ∅)).1 = Ok Finished /\
    evicted "A" (manager (h (initial_world ∅)).2).
Proof.
  destruct (websocket_endpoint sample_env 1%nat "A"
              [sample_subscribe; Closed WebSocketDisconnect])
    as [h|] eqn:Hh; [|discriminate Hh].
  exists h.
  assert ((connect sample_env 1%nat None "A" (initial_world ∅)).1 = Ok "A")
    as Hc by (vm_compute; reflexivity).
  assert (truthy "A" = true) as Hx by reflexivity.
  assert (find_connection_id 1%nat
            (active_connections (manager (initial_world ∅))) = None)
    as Hf by reflexivity.
  split; [by split_and!|].
  destruct (websocket_endpoint_outcome sample_env 1%nat "A" _ h
              (initial_world ∅) Hh Hc Hx Hf)
    as [[Hw _]|(Hfin & Hev & _)].
  - exfalso. injection Hh as <-. vm_compute in Hw. discriminate Hw.
  - by split.
Defined.

Lemma workflow_websocket_outcome_witness :
  ((connect sample_env 1%nat (Some "workflow:7") "A" (initial_world ∅)).1
     = Ok "A" /\
   truthy "A" = true /\
   find_connection_id 1%nat
     (active_connections (manager (initial_world ∅))) = None) /\
  (workflow_websocket sample_env 1%nat "7" "A"
     [Text (Parsed (JObj [("step", JStr "done")]));
      Text (Parsed (JArr []))] (initial_world ∅)).1 = Raise AttributeError /\
  attached 1%nat "A" "workflow:7"
    (manager (workflow_websocket sample_env 1%nat "7" "A"
                [Text (Parsed (JObj [("step", JStr "done")]));
                 Text (Parsed (JArr []))] (initial_world ∅)).2).
Proof.
  assert ((connect sample_env 1%nat (Some "workflow:7") "A"
             (initial_world ∅)).1 = Ok "A") as Hc by (vm_compute; reflexivity).
  assert (truthy "A" = true) as Hx by reflexivity.
  assert (find_connection_id 1%nat
            (active_connections (manager (initial_world ∅))) = None)
    as Hf by reflexivity.
  assert ((workflow_websocket sample_env 1%nat "7" "A"
             [Text (Parsed (JObj [("step", JStr "done")]));
              Text (Parsed (JArr []))] (initial_world ∅)).1
          = Raise AttributeError) as Hr by (vm_compute; reflexivity).
  split; [by split_and!|]. split; [exact Hr|].
  destruct (workflow_websocket_outcome sample_env 1%nat "7" "A"
              [Text (Parsed (JObj [("step", JStr "done")]));
               Text (Parsed (JArr []))] (initial_world ∅) Hc Hx Hf)
    as [(Hfin & _)|(_ & Ha)].
  - exfalso. rewrite Hr in Hfin. discriminate Hfin.
  - exact Ha.
Defined.

Lemma failed_welcome_leaves_connection_witness :
  (accept_result dead_env (trace (initial_world ∅)) 1%nat = None /\
   (connect dead_env 1%nat (Some "workflow:7") "A" (initial_world ∅)).1
     = Raise WebSocketDisconnect) /\
  (workflow_websocket dead_env 1%nat "7" "A" [] (initial_world ∅)).1
    = Raise WebSocketDisconnect /\
  PyDict.get "A"
    (active_connections
       (manager (workflow_websocket dead_env 1%nat "7" "A" []
                   (initial_world ∅)).2)) = Some 1%nat /\
  subscribed
    (manager (workflow_websocket dead_env 1%nat "7" "A" []
                (initial_world ∅)).2) "A" "workflow:7".
Proof.
  assert (accept_result dead_env (trace (initial_world ∅)) 1%nat = None)
    as Hacc by reflexivity.
  assert ((connect dead_env 1%nat (Some "workflow:7") "A"
             (initial_world ∅)).1 = Raise WebSocketDisconnect) as Hc
    by (vm_compute; reflexivity).
  split; [by split|].
  exact (proj2 (failed_welcome_leaves_connection dead_env 1%nat "A" "7" []
                  (initial_world ∅) WebSocketDisconnect Hacc) Hc).
Defined.

(** ** The workflow router *)

Section router.
Variable E : Env.
Implicit Types (w : World) (m : Manager).

(** X23.  The router of [workflows.py] has a manager of its own, on which
    nothing but [broadcast_to_channel] is ever called: no socket is ever
    registered with it.  Whatever the routes broadcast, that manager
    stays as [WebSocketManager()] made it, and nothing is written to any
    socket or to the log: every one of its broadcasts returns [None]
    with the payload untouched. *)
Theorem router_broadcasts_reach_nobody ops h :
  broadcasts_only ops ->
  run E ops (initial_world h) = initial_world h /\
  forall ch msg ex,
    broadcast_to_channel E ch msg ex (run E ops (initial_world h))
      = (Ok PyNone, initial_world h).
Proof.
  intros Hops.
  assert (run E ops (initial_world h) = initial_world h) as Hrun.
  { induction Hops as [|o ops Ho Hops IH]; [done|].
    destruct o as [| | | | | |ch msg ex|]; try done.
    all: unfold run in *; simpl; by rewrite broadcast_absent. }
  split; [done|]. intros ch msg ex. rewrite Hrun. by apply broadcast_absent.
Qed.

(** X24.  [delete_workflow] answers 204, 404 or 500 and lets no other
    exception through; it answers 404 exactly when the service found no
    workflow, and the manager is then not touched.  When nobody is
    subscribed to ["workflows"], as on the router's own manager, a
    deletion the service carried out is answered 204 and nothing is
    written to a socket.  When there are subscribers, a deletion the
    service carried out is answered 500 exactly when the broadcast
    evicted the last of them. *)
Theorem delete_workflow_outcome service wid w :
  let r := delete_workflow E service wid w in
  (r.1 = Ok Returned \/ r.1 = Ok (HTTPException 404) \/
   r.1 = Ok (HTTPException 500)) /\
  (r.1 = Ok (HTTPException 404) <-> service = Ok false) /\
  (service = Ok false -> r.2 = w) /\
  (channel_subscriptions (manager w) !! "workflows" = None ->
   (r.1 = Ok Returned <-> service = Ok true) /\
   manager r.2 = manager w /\
   targets (new_events w r.2) = []) /\
  (forall s,
     channel_subscriptions (manager w) !! "workflows" = Some s ->
     service = Ok true ->
     (r.1 = Ok (HTTPException 500) <->
      channel_subscriptions (manager r.2) !! "workflows" = None)).
Proof.
  intros r. subst r. destruct service as [[|]|e].
  - unfold delete_workflow, alloc. unfold_m.
    set (r0 := fresh (dom (heap w))).
    set (w1 := MkWorld (manager w) _ (trace w)).
    assert (heap w1 !! r0
            = Some (JObj [("type", JStr "workflow_deleted");
                          ("data", JObj [("workflow_id", JStr wid)])]))
      as Hd by (subst w1; simpl; by rewrite lookup_insert_eq).
    split_and!.
    + destruct (broadcast_to_channel E "workflows" r0 None w1)
        as [[v|e] w2]; simpl; auto.
    + destruct (broadcast_to_channel E "workflows" r0 None w1)
        as [[v|e] w2]; simpl; by split.
    + done.
    + intros Hnone. rewrite broadcast_absent by done. simpl.
      split_and!; [done|done|].
      unfold new_events. simpl. by rewrite drop_app_length.
    + intros s Hs _.
      pose proof (broadcast_result E "workflows" r0 None w1 s _ Hs Hd) as Hres.
      destruct (broadcast_to_channel E "workflows" r0 None w1)
        as [[v|e] w2]; simpl in *.
      * split; [done|]. intros Hnone. by rewrite Hnone in Hres.
      * split; [|done]. intros _.
        by destruct (channel_subscriptions (manager w2) !! "workflows").
  - simpl. split_and!; try done; auto.
    intros _. split_and!; [by split|done|].
    by rewrite new_events_refl.
  - unfold delete_workflow. unfold_m. split_and!; try done; auto.
    intros _. split_and!; [by split|done|].
    unfold new_events. simpl. by rewrite drop_app_length.
Qed.
End router.

Lemma router_broadcasts_reach_nobody_witness :
  broadcasts_only [OpBroadcast "workflows" 0%nat None;
                   OpBroadcast "workflow:1" 0%nat None] /\
  run sample_env [OpBroadcast "workflows" 0%nat None;
                  OpBroadcast "workflow:1" 0%nat None]
    (initial_world sample_heap) = initial_world sample_heap.
Proof.
  assert (broadcasts_only [OpBroadcast "workflows" 0%nat None;
                           OpBroadcast "workflow:1" 0%nat None]) as Hops
    by (repeat constructor).
  split; [exact Hops|].
  exact (proj1 (router_broadcasts_reach_nobody sample_env _ sample_heap Hops)).
Defined.

Lemma delete_workflow_outcome_witness :
  channel_subscriptions
    (manager (run steady_env [OpConnect 2 (Some "workflows") "B"]
                (initial_world ∅))) !! "workflows" = Some {["B"]} /\
  (delete_workflow dead_env (Ok true) "7"
     (run steady_env [OpConnect 2 (Some "workflows") "B"]
        (initial_world ∅))).1 = Ok (HTTPException 500).
Proof.
  assert (channel_subscriptions
            (manager (run steady_env [OpConnect 2 (Some "workflows") "B"]
                        (initial_world ∅))) !! "workflows" = Some {["B"]})
    as Hs by (vm_compute; reflexivity).
  assert (channel_subscriptions
            (manager (delete_workflow dead_env (Ok true) "7"
                        (run steady_env [OpConnect 2 (Some "workflows") "B"]
                           (initial_world ∅))).2) !! "workflows" = None)
    as Hnone by (vm_compute; reflexivity).
  split; [exact Hs|].
  pose proof (delete_workflow_outcome dead_env (Ok true) "7"
                (run steady_env [OpConnect 2 (Some "workflows") "B"]
                   (initial_world ∅))) as H.
  cbv zeta in H. destruct H as (_ & _ & _ & _ & H).
  exact (proj2 (H _ Hs eq_refl) Hnone).
Defined.
